(** * Blogging platform backend: query construction, services and controllers

    A shallow embedding of the NestJS/TypeORM modules of the repository
    (tag, blog, draft, comment, like, blog-tag): the repositories' query
    builders, the services' error translation, their creations, partial
    updates and deletions, and the controllers' pagination parameters.

    The TypeScript sources call into TypeORM (query builder, [findOne],
    [merge], [save]) and into the JavaScript runtime ([Number], [Math.max],
    promises).  Those collaborators are modelled first, each next to the
    behaviour it stands for; the modules of the repository follow and are
    written call by call after their sources. *)

From Stdlib Require Import String Ascii List ZArith QArith Bool Lia.
From Stdlib Require Import DecimalString Permutation Sorted.
From Stdlib Require DecimalNat.
Import ListNotations.
Open Scope string_scope.
Open Scope Z_scope.

(* ================================================================== *)
(** * JavaScript values used by the controllers *)
(* ================================================================== *)

Module JS.

(** A JavaScript number: an IEEE 754 double.  A finite value is kept as
    the rational it is; the operations whose exact result need not be a
    double ([Number] of a text, subtraction, product) round it to the
    nearest double, ties to even, and overflow to an infinity.  Negative
    zero is not told apart from zero: the controllers compare their
    numbers, subtract 1, multiply and print, and none of these gives
    another result for the one than for the other. *)
Inductive number : Type :=
| NaN
| PosInf
| NegInf
| Fin (q : Q).

(** An integer as a number; it is a double when its magnitude is at most
    [2 ^ 53]. *)
Definition of_Z (z : Z) : number := Fin (inject_Z z).

(** The integer nearest to [n / d], for [0 < d], ties to the even one. *)
Definition round_half_even (n d : Z) : Z :=
  let fl := n / d in
  match 2 * (n mod d) ?= d with
  | Lt => fl
  | Gt => fl + 1
  | Eq => if Z.even fl then fl else fl + 1
  end.

(** The double nearest to a positive rational.  With [e] the binary
    exponent of [q] ([2 ^ e <= q < 2 ^ (e + 1)]), the doubles around [q]
    are the multiples of [2 ^ t], [t = max e (-1022) - 52]: 53 significant
    bits, or the fixed spacing of the subnormal range.  A rounded value of
    [2 ^ 1024] or more is Infinity. *)
Definition nearest_double_pos (q : Q) : number :=
  let n := Qnum q in
  let d := Zpos (Qden q) in
  let e0 := Z.log2 n - Z.log2 d in
  let above :=
    if 0 <=? e0 then 2 ^ e0 * d <=? n else d <=? n * 2 ^ (- e0) in
  let e := if above then e0 else e0 - 1 in
  let t := Z.max e (-1022) - 52 in
  if 0 <=? t then
    let v := round_half_even n (d * 2 ^ t) * 2 ^ t in
    if 2 ^ 1024 <=? v then PosInf else Fin (inject_Z v)
  else
    Fin (Qred (round_half_even (n * 2 ^ (- t)) d # Z.to_pos (2 ^ (- t)))).

(** The double nearest to a rational. *)
Definition nearest_double (q : Q) : number :=
  match Qnum q with
  | Z0 => Fin 0
  | Zpos _ => nearest_double_pos q
  | Zneg _ =>
      match nearest_double_pos (- q) with
      | PosInf => NegInf
      | Fin r => Fin (Qred (- r))
      | other => other
      end
  end.

(** [Math.max(a, b)]: NaN if either argument is NaN. *)
Definition Math_max (a b : number) : number :=
  match a, b with
  | NaN, _ | _, NaN => NaN
  | PosInf, _ | _, PosInf => PosInf
  | NegInf, x | x, NegInf => x
  | Fin p, Fin q => if Qle_bool p q then Fin q else Fin p
  end.

(** [a - b] *)
Definition sub (a b : number) : number :=
  match a, b with
  | NaN, _ | _, NaN => NaN
  | PosInf, PosInf | NegInf, NegInf => NaN
  | PosInf, _ | _, NegInf => PosInf
  | NegInf, _ | _, PosInf => NegInf
  | Fin p, Fin q => nearest_double (p - q)
  end.

Definition sign_mul (pos : bool) (q : Q) : number :=
  match Qcompare q 0 with
  | Eq => NaN
  | Gt => if pos then PosInf else NegInf
  | Lt => if pos then NegInf else PosInf
  end.

(** [a * b] *)
Definition mul (a b : number) : number :=
  match a, b with
  | NaN, _ | _, NaN => NaN
  | PosInf, PosInf | NegInf, NegInf => PosInf
  | PosInf, NegInf | NegInf, PosInf => NegInf
  | PosInf, Fin q | Fin q, PosInf => sign_mul true q
  | NegInf, Fin q | Fin q, NegInf => sign_mul false q
  | Fin p, Fin q => nearest_double (p * q)
  end.

(** [a >= b], false as soon as NaN is involved. *)
Definition geb (a b : number) : bool :=
  match a, b with
  | NaN, _ | _, NaN => false
  | PosInf, _ | _, NegInf => true
  | _, PosInf | NegInf, _ => false
  | Fin p, Fin q => Qle_bool q p
  end.

Definition isNaN (a : number) : bool :=
  match a with NaN => true | _ => false end.

(** The natural number a JavaScript number denotes, when it is one; this is
    what a numeric LIMIT / OFFSET clause accepts. *)
Definition as_nat (a : number) : option nat :=
  match a with
  | Fin q =>
      if (Qnum q mod Zpos (Qden q) =? 0) && (0 <=? Qnum q)
      then Some (Z.to_nat (Qnum q / Zpos (Qden q)))
      else None
  | _ => None
  end.

Definition of_nat (n : nat) : number := of_Z (Z.of_nat n).

(** ** [Number(string)]: the StringToNumber conversion *)

Definition is_space (c : ascii) : bool :=
  match nat_of_ascii c with
  | 9%nat | 10%nat | 11%nat | 12%nat | 13%nat | 32%nat => true
  | _ => false
  end.

Fixpoint trim_start (s : list ascii) : list ascii :=
  match s with
  | c :: r => if is_space c then trim_start r else s
  | [] => []
  end.

Definition trim (s : list ascii) : list ascii :=
  rev (trim_start (rev (trim_start s))).

(** Value of one digit in the given radix. *)
Definition digit_val (radix : Z) (c : ascii) : option Z :=
  let n := Z.of_nat (nat_of_ascii c) in
  let v :=
    if (48 <=? n) && (n <=? 57) then Some (n - 48)
    else if (97 <=? n) && (n <=? 102) then Some (n - 87)
    else if (65 <=? n) && (n <=? 70) then Some (n - 55)
    else None in
  match v with
  | Some d => if d <? radix then Some d else None
  | None => None
  end.

(** Longest prefix of digits, its value so far, and the rest. *)
Fixpoint span_digits (radix : Z) (acc : Z) (len : nat) (s : list ascii)
  : Z * nat * list ascii :=
  match s with
  | c :: r =>
      match digit_val radix c with
      | Some d => span_digits radix (acc * radix + d) (S len) r
      | None => (acc, len, s)
      end
  | [] => (acc, len, [])
  end.

Definition all_digits (radix : Z) (s : list ascii) : option Z :=
  match span_digits radix 0 0%nat s with
  | (v, S _, []) => Some v
  | _ => None
  end.

(** ExponentPart, or nothing, up to the end of the literal. *)
Definition exponent (s : list ascii) : option Z :=
  match s with
  | [] => Some 0
  | c :: r =>
      if (Ascii.eqb c "e" || Ascii.eqb c "E")%bool then
        match r with
        | "+"%char :: r' => all_digits 10 r'
        | "-"%char :: r' => option_map Z.opp (all_digits 10 r')
        | _ => all_digits 10 r
        end
      else None
  end.

(** StrUnsignedDecimalLiteral other than [Infinity]. *)
Definition unsigned_decimal (s : list ascii) : option Q :=
  let '(ip, ilen, r1) := span_digits 10 0 0%nat s in
  let '(m, flen, has_digits, r2) :=
    match r1 with
    | "."%char :: r =>
        let '(v, n, r') := span_digits 10 ip 0%nat r in
        (v, n, negb (Nat.eqb (ilen + n) 0), r')
    | _ => (ip, 0%nat, negb (Nat.eqb ilen 0), r1)
    end in
  if has_digits then
    match exponent r2 with
    | Some e => Some (Qred (inject_Z m * Qpower (10 # 1) (e - Z.of_nat flen)))
    | None => None
    end
  else None.

Definition Infinity_lit : list ascii := list_ascii_of_string "Infinity".

Definition list_ascii_eqb (a b : list ascii) : bool :=
  String.eqb (string_of_list_ascii a) (string_of_list_ascii b).

Definition unsigned_literal (s : list ascii) : number :=
  if list_ascii_eqb s Infinity_lit then PosInf
  else match unsigned_decimal s with
       | Some q => nearest_double q
       | None => NaN
       end.

Definition neg (a : number) : number :=
  match a with
  | NaN => NaN
  | PosInf => NegInf
  | NegInf => PosInf
  | Fin q => Fin (Qred (- q))
  end.

(** NonDecimalIntegerLiteral: [0x], [0o], [0b] prefixes, either case. *)
Definition non_decimal (s : list ascii) : option number :=
  match s with
  | "0"%char :: p :: r =>
      let radix :=
        if (Ascii.eqb p "x" || Ascii.eqb p "X")%bool then Some 16
        else if (Ascii.eqb p "o" || Ascii.eqb p "O")%bool then Some 8
        else if (Ascii.eqb p "b" || Ascii.eqb p "B")%bool then Some 2
        else None in
      match radix with
      | Some b =>
          Some match all_digits b r with
               | Some v => nearest_double (inject_Z v)
               | None => NaN
               end
      | None => None
      end
  | _ => None
  end.

Definition StringToNumber (str : string) : number :=
  let s := trim (list_ascii_of_string str) in
  match s with
  | [] => of_Z 0
  | "+"%char :: r => unsigned_literal r
  | "-"%char :: r => neg (unsigned_literal r)
  | _ =>
      match non_decimal s with
      | Some n => n
      | None => unsigned_literal s
      end
  end.

(** A value that reaches a handler parameter declared [page = 1]: the
    default (a number) when the query parameter is absent, the raw query
    string otherwise. *)
Inductive value : Type :=
| VNumber (n : number)
| VString (s : string).

(** [Number(v)] *)
Definition Number (v : value) : number :=
  match v with
  | VNumber n => n
  | VString s => StringToNumber s
  end.

(** Truthiness of an optional string argument, as tested by
    [if (keyword)]: undefined and the empty string are falsy. *)
Definition truthy (s : option string) : bool :=
  match s with
  | None => false
  | Some s => negb (String.eqb s EmptyString)
  end.

End JS.

(* ================================================================== *)
(** * Errors and promises *)
(* ================================================================== *)

(** The error classes that occur: the two Nest HTTP exceptions the services
    construct, and the two classes TypeORM raises. *)
Inductive ErrorClass : Type :=
| NotFoundException
| BadRequestException
| QueryFailedError
| TypeORMError.

(** An error object: [message], the [code] property (set by the database
    driver on a [QueryFailedError], undefined on the others), and for an
    HTTP exception the description it was constructed with. *)
Record Error : Type := mkError {
  class : ErrorClass;
  message : string;
  code : option string;
  description : option string
}.

(** [new NotFoundException(msg)] *)
Definition new_NotFoundException (msg : string) : Error :=
  mkError NotFoundException msg None None.

(** [new BadRequestException(msg, descr)] *)
Definition new_BadRequestException (msg : string) (descr : option string)
  : Error :=
  mkError BadRequestException msg None descr.

(** A settled promise, which is also the completion of a block of
    statements: a value, or a thrown error (a rejection). *)
Inductive Promise (A : Type) : Type :=
| Resolved (a : A)
| Rejected (e : Error).
Arguments Resolved {A} a.
Arguments Rejected {A} e.

(** [const x = await p; k x]: a rejection of [p] is thrown at the [await]. *)
Definition await {A B : Type} (p : Promise A) (k : A -> Promise B)
  : Promise B :=
  match p with
  | Resolved a => k a
  | Rejected e => Rejected e
  end.

Notation "x <- p ;; k" := (await p (fun x => k))
  (at level 61, p at next level, right associativity).

(** What a [try] block of an async function does when it ends. *)
Inductive TryBlock (A : Type) : Type :=
| Throws (e : Error)           (* a throw, or a rejection met at an await *)
| Returns (p : Promise A).     (* [return p]: the promise leaves the block
                                  unsettled, whatever it settles to *)
Arguments Throws {A} e.
Arguments Returns {A} p.

(** [return await p;] inside [try]: the rejection is thrown inside the
    block. *)
Definition return_await {A : Type} (p : Promise A) : TryBlock A :=
  match p with
  | Resolved a => Returns (Resolved a)
  | Rejected e => Throws e
  end.

(** [return p;] inside [try], [p] not awaited. *)
Definition return_ {A : Type} (p : Promise A) : TryBlock A := Returns p.

(** [const x = await p; rest] inside [try]. *)
Definition await_in_try {A B : Type} (p : Promise A) (k : A -> TryBlock B)
  : TryBlock B :=
  match p with
  | Resolved a => k a
  | Rejected e => Throws e
  end.

(** [async f() { try { block } catch (e) { throw handler(e) } }]: the
    promise the async function returns. *)
Definition try_catch_throw {A : Type} (block : TryBlock A)
  (handler : Error -> Error) : Promise A :=
  match block with
  | Throws e => Rejected (handler e)
  | Returns p => p
  end.

(** The handler every service method uses:
    [throw new BadRequestException(e.message, e.code)]. *)
Definition rethrow_bad_request (e : Error) : Error :=
  new_BadRequestException (message e) (code e).

(* ================================================================== *)
(** * SQL values and the LIKE operator *)
(* ================================================================== *)

Inductive SqlValue : Type :=
| SNull
| SInt (z : Z)
| SText (s : string)
| SBool (b : bool)
| SDate (t : Z).

(** What the application leaves to the storage engine: the collation
    (equality of characters), the escape character of LIKE patterns when the
    engine has one by default, how it renders booleans and timestamps
    when a column is compared as text, and the order in which it reads the
    rows of a statement that has no ORDER BY.  That order is the engine's
    choice (the index it answers the statement from): [scan_rank] gives
    the place of a row in it, from the columns the statement names, the
    parameters of the statement and the column values of the row; rows of
    equal rank come in table order. *)
Record Engine : Type := mkEngine {
  collation : ascii -> ascii -> bool;
  like_escape : option ascii;
  bool_text : bool -> string;
  date_text : Z -> string;
  scan_rank : list string -> list (string * SqlValue)
              -> list (string * SqlValue) -> Z
}.

(** A column read as text; NULL has none. *)
Definition as_text (eng : Engine) (v : SqlValue) : option string :=
  match v with
  | SNull => None
  | SInt z => Some (NilZero.string_of_int (Z.to_int z))
  | SText s => Some s
  | SBool b => Some (bool_text eng b)
  | SDate t => Some (date_text eng t)
  end.

Definition is_escape (esc : option ascii) (c : ascii) : bool :=
  match esc with
  | Some e => Ascii.eqb c e
  | None => false
  end.

(** [s LIKE pat]: [%] matches any run of characters, [_] any one
    character, the escape character makes the character after it stand for
    itself, every other character stands for itself; characters are compared
    by the collation.  The queries declare no escape character of their
    own. *)
Fixpoint like (ceq : ascii -> ascii -> bool) (esc : option ascii)
  (pat s : string) : bool :=
  match pat with
  | EmptyString => match s with EmptyString => true | _ => false end
  | String p pat' =>
      if Ascii.eqb p "%" then
        (fix any (s : string) : bool :=
           like ceq esc pat' s
           || match s with
              | EmptyString => false
              | String _ s' => any s'
              end) s
      else if Ascii.eqb p "_" then
        match s with
        | EmptyString => false
        | String _ s' => like ceq esc pat' s'
        end
      else if is_escape esc p then
        match pat' with
        | String q pat'' =>
            match s with
            | EmptyString => false
            | String c s' => ceq q c && like ceq esc pat'' s'
            end
        | EmptyString =>
            match s with
            | String c EmptyString => ceq p c
            | _ => false
            end
        end
      else
        match s with
        | EmptyString => false
        | String c s' => ceq p c && like ceq esc pat' s'
        end
  end.

(** [s] starts with [k], characters compared by the collation. *)
Fixpoint starts_with (ceq : ascii -> ascii -> bool) (k s : string) : bool :=
  match k with
  | EmptyString => true
  | String a k' =>
      match s with
      | EmptyString => false
      | String b s' => ceq a b && starts_with ceq k' s'
      end
  end.

(** The keyword holds no LIKE metacharacter: neither [%] nor [_] nor the
    escape character. *)
Fixpoint no_wildcard (esc : option ascii) (k : string) : bool :=
  match k with
  | EmptyString => true
  | String c k' =>
      negb (Ascii.eqb c "%") && negb (Ascii.eqb c "_")
      && negb (is_escape esc c) && no_wildcard esc k'
  end.

(* ================================================================== *)
(** * Entities: the stored rows *)
(* ================================================================== *)

(** Each entity class is a record of its columns.  A many-to-one relation is
    stored as its join column, the id of the row it refers to, NULL when
    unset. *)

Module TagEntity.
Record t : Type := mk {
  id : Z;
  name : string;
  createdAt : Z;
  updatedAt : Z
}.

Module Partial.
Record t : Type := mk {
  id : option Z;
  name : option string
}.
Definition empty : t := mk None None.
End Partial.
End TagEntity.

(** An entity object in memory is a [DeepPartial] of its class: every
    property may be undefined, a relation holds an object of the related
    class.  [merge_column] and [merge_relation] are what
    [repository.merge(entity, data)] does property by property: an
    undefined property of [data] is skipped, a defined column overwrites,
    and a relation object of [data] is merged into the related object of
    the entity, which is created empty when the entity has none. *)
Definition merge_column {A : Type} (old new : option A) : option A :=
  match new with
  | Some v => Some v
  | None => old
  end.

Definition merge_relation {P : Type} (empty : P) (merge : P -> P -> P)
  (old new : option P) : option P :=
  match new with
  | None => old
  | Some data =>
      Some (merge (match old with Some o => o | None => empty end) data)
  end.

(** Modelled from the spec: the file declaring [UserEntity] is not among
    the sources.  The services only ever build the object [{ id: userId }]
    of it, so the object carries the identifier alone. *)
Module UserEntity.
Module Partial.
Record t : Type := mk { id : option Z }.
Definition empty : t := mk None.
Definition merge (entity data : t) : t :=
  mk (merge_column (id entity) (id data)).
End Partial.
End UserEntity.

Module BlogEntity.
Record t : Type := mk {
  id : Z;
  title : string;
  content : string;
  published : bool;
  createdAt : Z;
  updatedAt : Z;
  author : option Z
}.

Module Partial.
Record t : Type := mk {
  id : option Z;
  title : option string;
  content : option string;
  published : option bool;
  author : option UserEntity.Partial.t
}.
Definition empty : t := mk None None None None None.
Definition merge (entity data : t) : t :=
  mk (merge_column (id entity) (id data))
     (merge_column (title entity) (title data))
     (merge_column (content entity) (content data))
     (merge_column (published entity) (published data))
     (merge_relation UserEntity.Partial.empty UserEntity.Partial.merge
        (author entity) (author data)).
End Partial.
End BlogEntity.

Module DraftEntity.
Record t : Type := mk {
  id : Z;
  content : string;
  createdAt : Z;
  updatedAt : Z;
  blog : option Z;
  createdBy : option Z
}.

Module Partial.
Record t : Type := mk {
  id : option Z;
  content : option string;
  blog : option BlogEntity.Partial.t;
  createdBy : option UserEntity.Partial.t
}.
Definition merge (entity data : t) : t :=
  mk (merge_column (id entity) (id data))
     (merge_column (content entity) (content data))
     (merge_relation BlogEntity.Partial.empty BlogEntity.Partial.merge
        (blog entity) (blog data))
     (merge_relation UserEntity.Partial.empty UserEntity.Partial.merge
        (createdBy entity) (createdBy data)).
End Partial.
End DraftEntity.

(** Modelled from the spec: the file declaring [CommentEntity] is not among
    the sources.  The data model gives a comment a content and many-to-one
    relations to its blog and to the commenting user; the repository names
    them [content], [blog] and [user]. *)
Module CommentEntity.
Record t : Type := mk {
  id : Z;
  content : string;
  createdAt : Z;
  updatedAt : Z;
  blog : option Z;
  user : option Z
}.
End CommentEntity.

Module LikeEntity.
Record t : Type := mk {
  id : Z;
  createdAt : Z;
  updatedAt : Z;
  blog : option Z;
  user : option Z
}.

Module Partial.
Record t : Type := mk {
  id : option Z;
  blog : option BlogEntity.Partial.t;
  user : option UserEntity.Partial.t
}.
Definition empty : t := mk None None None.
Definition merge (entity data : t) : t :=
  mk (merge_column (id entity) (id data))
     (merge_relation BlogEntity.Partial.empty BlogEntity.Partial.merge
        (blog entity) (blog data))
     (merge_relation UserEntity.Partial.empty UserEntity.Partial.merge
        (user entity) (user data)).
End Partial.
End LikeEntity.

Module BlogTagEntity.
Record t : Type := mk {
  id : Z;
  createdAt : Z;
  updatedAt : Z;
  blog : option Z;
  tag : option Z
}.
End BlogTagEntity.

(** The database: the storage engine, its clock, and one table per entity,
    rows in insertion order. *)
Record Database : Type := mkDatabase {
  engine : Engine;
  clock : Z;
  tags : list TagEntity.t;
  blogs : list BlogEntity.t;
  drafts : list DraftEntity.t;
  comments : list CommentEntity.t;
  likes : list LikeEntity.t;
  blogTags : list BlogTagEntity.t
}.

(* ================================================================== *)
(** * TypeORM: metadata, select query builder, execution *)
(* ================================================================== *)

Module TypeORM.

Inductive Table : Type :=
| Tags | Blogs | Drafts | Comments | Likes | BlogTags.

(** A row of any table. *)
Inductive Row : Type :=
| RTag (r : TagEntity.t)
| RBlog (r : BlogEntity.t)
| RDraft (r : DraftEntity.t)
| RComment (r : CommentEntity.t)
| RLike (r : LikeEntity.t)
| RBlogTag (r : BlogTagEntity.t).

Definition rows_of (db : Database) (t : Table) : list Row :=
  match t with
  | Tags => map RTag (tags db)
  | Blogs => map RBlog (blogs db)
  | Drafts => map RDraft (drafts db)
  | Comments => map RComment (comments db)
  | Likes => map RLike (likes db)
  | BlogTags => map RBlogTag (blogTags db)
  end.

Definition table_of (r : Row) : Table :=
  match r with
  | RTag _ => Tags
  | RBlog _ => Blogs
  | RDraft _ => Drafts
  | RComment _ => Comments
  | RLike _ => Likes
  | RBlogTag _ => BlogTags
  end.

Definition row_id (r : Row) : Z :=
  match r with
  | RTag r => TagEntity.id r
  | RBlog r => BlogEntity.id r
  | RDraft r => DraftEntity.id r
  | RComment r => CommentEntity.id r
  | RLike r => LikeEntity.id r
  | RBlogTag r => BlogTagEntity.id r
  end.

Definition ref (fk : option Z) : SqlValue :=
  match fk with Some k => SInt k | None => SNull end.

(** The spellings under which a statement may name the join column of a
    many-to-one relation: the relation itself, [relation.id], and the
    column's database name [relationId]. *)
Definition names_relation (rel path : string) : bool :=
  ((path =? rel) || (path =? rel ++ ".id") || (path =? rel ++ "Id"))%string.

(** The value of a property path of a row.  [None] when the entity has no
    such property. *)
Definition cell (r : Row) (path : string) : option SqlValue :=
  match r with
  | RTag r =>
      if path =? "id" then Some (SInt (TagEntity.id r))
      else if path =? "name" then Some (SText (TagEntity.name r))
      else if path =? "createdAt" then Some (SDate (TagEntity.createdAt r))
      else if path =? "updatedAt" then Some (SDate (TagEntity.updatedAt r))
      else None
  | RBlog r =>
      if path =? "id" then Some (SInt (BlogEntity.id r))
      else if path =? "title" then Some (SText (BlogEntity.title r))
      else if path =? "content" then Some (SText (BlogEntity.content r))
      else if path =? "published" then Some (SBool (BlogEntity.published r))
      else if path =? "createdAt" then Some (SDate (BlogEntity.createdAt r))
      else if path =? "updatedAt" then Some (SDate (BlogEntity.updatedAt r))
      else if names_relation "author" path
      then Some (ref (BlogEntity.author r))
      else None
  | RDraft r =>
      if path =? "id" then Some (SInt (DraftEntity.id r))
      else if path =? "content" then Some (SText (DraftEntity.content r))
      else if path =? "createdAt" then Some (SDate (DraftEntity.createdAt r))
      else if path =? "updatedAt" then Some (SDate (DraftEntity.updatedAt r))
      else if names_relation "blog" path
      then Some (ref (DraftEntity.blog r))
      else if names_relation "createdBy" path
      then Some (ref (DraftEntity.createdBy r))
      else None
  | RComment r =>
      if path =? "id" then Some (SInt (CommentEntity.id r))
      else if path =? "content" then Some (SText (CommentEntity.content r))
      else if path =? "createdAt" then Some (SDate (CommentEntity.createdAt r))
      else if path =? "updatedAt" then Some (SDate (CommentEntity.updatedAt r))
      else if names_relation "blog" path
      then Some (ref (CommentEntity.blog r))
      else if names_relation "user" path
      then Some (ref (CommentEntity.user r))
      else None
  | RLike r =>
      if path =? "id" then Some (SInt (LikeEntity.id r))
      else if path =? "createdAt" then Some (SDate (LikeEntity.createdAt r))
      else if path =? "updatedAt" then Some (SDate (LikeEntity.updatedAt r))
      else if names_relation "blog" path
      then Some (ref (LikeEntity.blog r))
      else if names_relation "user" path
      then Some (ref (LikeEntity.user r))
      else None
  | RBlogTag r =>
      if path =? "id" then Some (SInt (BlogTagEntity.id r))
      else if path =? "createdAt" then Some (SDate (BlogTagEntity.createdAt r))
      else if path =? "updatedAt" then Some (SDate (BlogTagEntity.updatedAt r))
      else if names_relation "blog" path
      then Some (ref (BlogTagEntity.blog r))
      else if names_relation "tag" path
      then Some (ref (BlogTagEntity.tag r))
      else None
  end%string.

Definition relation_names (rel : string) : list string :=
  [rel; rel ++ ".id"; rel ++ "Id"].

(** The property paths of a table, for checking a statement before any
    row is read. *)
Definition columns (t : Table) : list string :=
  match t with
  | Tags => ["id"; "name"; "createdAt"; "updatedAt"]
  | Blogs => ["id"; "title"; "content"; "published"; "createdAt";
              "updatedAt"] ++ relation_names "author"
  | Drafts => ["id"; "content"; "createdAt"; "updatedAt"]
              ++ relation_names "blog" ++ relation_names "createdBy"
  | Comments => ["id"; "content"; "createdAt"; "updatedAt"]
                ++ relation_names "blog" ++ relation_names "user"
  | Likes => ["id"; "createdAt"; "updatedAt"]
             ++ relation_names "blog" ++ relation_names "user"
  | BlogTags => ["id"; "createdAt"; "updatedAt"]
                ++ relation_names "blog" ++ relation_names "tag"
  end%list.

(** The many-to-one relations that the repositories join: the table a
    relation leads to and the join column on the owning row. *)
Definition relation (t : Table) (name : string)
  : option (Table * string) :=
  match t with
  | Drafts | Comments | Likes =>
      if (name =? "blog")%string then Some (Blogs, "blog.id") else None
  | BlogTags =>
      if (name =? "blog")%string then Some (Blogs, "blog.id")
      else if (name =? "tag")%string then Some (Tags, "tag.id")
      else None
  | Tags | Blogs => None
  end.

(** ['alias.path'] split at its first dot. *)
Fixpoint split_dot (s : string) : string * option string :=
  match s with
  | EmptyString => (EmptyString, None)
  | String c r =>
      if Ascii.eqb c "." then (EmptyString, Some r)
      else let '(a, p) := split_dot r in (String c a, p)
  end.

Fixpoint assoc {A : Type} (k : string) (l : list (string * A)) : option A :=
  match l with
  | [] => None
  | (k', v) :: l' => if (k =? k')%string then Some v else assoc k l'
  end.

(** ** The where expression *)

Inductive ClauseType : Type := simple | and_ | or_.

(** The conditions the repositories write: ['col LIKE :param'],
    ['col = :param'], and a [Brackets] group of clauses. *)
#[warnings="-register-all"] Inductive Condition : Type :=
| Like (col param : string)
| Equals (col param : string)
| Bracketed (clauses : list (ClauseType * Condition)).

Definition WhereClause : Type := (ClauseType * Condition)%type.

Inductive Order : Type := ASC | DESC.

Record SelectQueryBuilder : Type := mkQB {
  mainTable : Table;
  mainAlias : string;
  joinAttributes : list (string * string);  (* ('draft.blog', 'blog') *)
  wheres : list WhereClause;
  parameters : list (string * SqlValue);
  selects : list string;
  orderBys : list (string * Order);
  take_ : option JS.number;
  skip_ : option JS.number
}.

(** [repository.createQueryBuilder(alias)] *)
Definition createQueryBuilder (t : Table) (alias : string)
  : SelectQueryBuilder :=
  mkQB t alias [] [] [] [alias] [] None None.

Fixpoint setParameters (ps : list (string * SqlValue))
  (old : list (string * SqlValue)) : list (string * SqlValue) :=
  match ps with
  | [] => old
  | (k, v) :: ps' => (k, v) :: setParameters ps' old
  end.

Definition with_wheres (qb : SelectQueryBuilder) (ws : list WhereClause)
  (ps : list (string * SqlValue)) : SelectQueryBuilder :=
  mkQB (mainTable qb) (mainAlias qb) (joinAttributes qb) ws
       (setParameters ps (parameters qb)) (selects qb) (orderBys qb)
       (take_ qb) (skip_ qb).

(** [qb.where(cond, params)]: replaces whatever conditions were there. *)
Definition where_ (c : Condition) (ps : list (string * SqlValue))
  (qb : SelectQueryBuilder) : SelectQueryBuilder :=
  with_wheres qb [(simple, c)] ps.

(** [qb.andWhere(cond, params)] *)
Definition andWhere (c : Condition) (ps : list (string * SqlValue))
  (qb : SelectQueryBuilder) : SelectQueryBuilder :=
  with_wheres qb (wheres qb ++ [(and_, c)]) ps.

(** [qb.orWhere(cond, params)] *)
Definition orWhere (c : Condition) (ps : list (string * SqlValue))
  (qb : SelectQueryBuilder) : SelectQueryBuilder :=
  with_wheres qb (wheres qb ++ [(or_, c)]) ps.

(** [qb.andWhere(new Brackets(factory))]: the factory runs on a builder of
    its own; its clauses become one bracketed condition and the parameters
    it sets reach the enclosing builder. *)
Definition andWhereBrackets
  (whereFactory : SelectQueryBuilder -> SelectQueryBuilder)
  (qb : SelectQueryBuilder) : SelectQueryBuilder :=
  let sub := whereFactory
               (mkQB (mainTable qb) (mainAlias qb) (joinAttributes qb)
                     [] [] [] [] None None) in
  with_wheres qb (wheres qb ++ [(and_, Bracketed (wheres sub))])
              (parameters sub).

(** [qb.innerJoin(property, alias)] *)
Definition innerJoin (property alias : string) (qb : SelectQueryBuilder)
  : SelectQueryBuilder :=
  mkQB (mainTable qb) (mainAlias qb)
       (joinAttributes qb ++ [(property, alias)]) (wheres qb)
       (parameters qb) (selects qb) (orderBys qb) (take_ qb) (skip_ qb).

(** [qb.addSelect(selection)] *)
Definition addSelect (sel : list string) (qb : SelectQueryBuilder)
  : SelectQueryBuilder :=
  mkQB (mainTable qb) (mainAlias qb) (joinAttributes qb) (wheres qb)
       (parameters qb) (selects qb ++ sel) (orderBys qb) (take_ qb)
       (skip_ qb).

(** [qb.select(selection)] with an array: replaces the selection.
    [qb.select()] without argument leaves it as it is. *)
Definition select (sel : option (list string)) (qb : SelectQueryBuilder)
  : SelectQueryBuilder :=
  match sel with
  | Some l =>
      mkQB (mainTable qb) (mainAlias qb) (joinAttributes qb) (wheres qb)
           (parameters qb) l (orderBys qb) (take_ qb) (skip_ qb)
  | None => qb
  end.

(** [qb.orderBy(sort, order)] *)
Definition orderBy (sort : string) (order : Order)
  (qb : SelectQueryBuilder) : SelectQueryBuilder :=
  mkQB (mainTable qb) (mainAlias qb) (joinAttributes qb) (wheres qb)
       (parameters qb) (selects qb) [(sort, order)] (take_ qb) (skip_ qb).

Definition quoted (s : string) : string :=
  String (ascii_of_nat 34) (s ++ String (ascii_of_nat 34) EmptyString).

Definition not_a_number (what : string) : Error :=
  mkError TypeORMError
    ("Provided " ++ quoted what ++
     " value is not a number. Please provide a numeric value.")
    None None.

(** [qb.take(n)]: throws on NaN. *)
Definition take (n : JS.number) (qb : SelectQueryBuilder)
  : Promise SelectQueryBuilder :=
  if JS.isNaN n then Rejected (not_a_number "take")
  else Resolved
         (mkQB (mainTable qb) (mainAlias qb) (joinAttributes qb)
               (wheres qb) (parameters qb) (selects qb) (orderBys qb)
               (Some n) (skip_ qb)).

(** [qb.skip(n)]: throws on NaN. *)
Definition skip (n : JS.number) (qb : SelectQueryBuilder)
  : Promise SelectQueryBuilder :=
  if JS.isNaN n then Rejected (not_a_number "skip")
  else Resolved
         (mkQB (mainTable qb) (mainAlias qb) (joinAttributes qb)
               (wheres qb) (parameters qb) (selects qb) (orderBys qb)
               (take_ qb) (Some n)).

(** ** Execution *)

(** The aliases in scope and their tables: the main alias, then each join
    whose property names a relation of an alias already in scope.  [None]
    when a join does not resolve. *)
Fixpoint join_scope (joins : list (string * string))
  (scope : list (string * Table)) : option (list (string * Table)) :=
  match joins with
  | [] => Some scope
  | (property, alias) :: joins' =>
      match split_dot property with
      | (parent, Some rel) =>
          match assoc parent scope with
          | Some t =>
              match relation t rel with
              | Some (target, _) =>
                  join_scope joins' (scope ++ [(alias, target)])%list
              | None => None
              end
          | None => None
          end
      | _ => None
      end
  end.

Definition scope_of (qb : SelectQueryBuilder)
  : option (list (string * Table)) :=
  join_scope (joinAttributes qb) [(mainAlias qb, mainTable qb)].

(** A column reference resolves in the scope. *)
Definition column_ok (scope : list (string * Table)) (col : string) : bool :=
  match split_dot col with
  | (alias, Some path) =>
      match assoc alias scope with
      | Some t => existsb (String.eqb path) (columns t)
      | None => false
      end
  | _ => false
  end.

(** A selection is an alias in scope or a column of one. *)
Definition select_ok (scope : list (string * Table)) (sel : string) : bool :=
  match split_dot sel with
  | (alias, None) =>
      match assoc alias scope with Some _ => true | None => false end
  | _ => column_ok scope sel
  end.

Definition bound (ps : list (string * SqlValue)) (param : string) : bool :=
  match assoc param ps with Some _ => true | None => false end.

Fixpoint condition_ok (scope : list (string * Table))
  (ps : list (string * SqlValue)) (c : Condition) : bool :=
  match c with
  | Like col param | Equals col param =>
      column_ok scope col && bound ps param
  | Bracketed clauses =>
      forallb (fun cl => condition_ok scope ps (snd cl)) clauses
  end.

(** The statement is well formed: every column it names exists and every
    parameter it uses is bound. *)
Definition statement_ok (qb : SelectQueryBuilder)
  (scope : list (string * Table)) : bool :=
  forallb (fun cl => condition_ok scope (parameters qb) (snd cl)) (wheres qb)
  && forallb (select_ok scope) (selects qb)
  && forallb (fun o => column_ok scope (fst o)) (orderBys qb).

(** One row of the joined relation: the row bound to each alias. *)
Definition Env : Type := list (string * Row).

Definition value_of (env : Env) (col : string) : SqlValue :=
  match split_dot col with
  | (alias, Some path) =>
      match assoc alias env with
      | Some r => match cell r path with Some v => v | None => SNull end
      | None => SNull
      end
  | _ => SNull
  end.

(** INNER JOIN along the relations: the row is kept when every joined
    relation is set and its target row exists. *)
Fixpoint join_row (db : Database) (joins : list (string * string))
  (env : Env) : option Env :=
  match joins with
  | [] => Some env
  | (property, alias) :: joins' =>
      match split_dot property with
      | (parent, Some rel) =>
          match assoc parent env with
          | Some r =>
              match relation (table_of r) rel with
              | Some (target, fk) =>
                  match cell r fk with
                  | Some (SInt k) =>
                      match find (fun r' => row_id r' =? k)
                                 (rows_of db target) with
                      | Some r' => join_row db joins' (env ++ [(alias, r')])%list
                      | None => None
                      end
                  | _ => None
                  end
              | None => None
              end
          | None => None
          end
      | _ => None
      end
  end.

Fixpoint filter_map {A B : Type} (f : A -> option B) (l : list A)
  : list B :=
  match l with
  | [] => []
  | a :: l' =>
      match f a with
      | Some b => b :: filter_map f l'
      | None => filter_map f l'
      end
  end.

Definition joined_rows (db : Database) (qb : SelectQueryBuilder)
  : list Env :=
  filter_map
    (fun r => join_row db (joinAttributes qb) [(mainAlias qb, r)])
    (rows_of db (mainTable qb)).

(** [c1 AND c2 OR c3 ...] read as SQL reads it: AND binds tighter than
    OR.  [acc] is the conjunction being accumulated. *)
Fixpoint sql_chain (acc : bool) (l : list (ClauseType * bool)) : bool :=
  match l with
  | [] => acc
  | (or_, b) :: l' => acc || sql_chain b l'
  | (_, b) :: l' => sql_chain (acc && b) l'
  end.

(** The clauses joined by their connectives; the connective of the first
    clause is not printed.  No clause at all: no condition. *)
Definition sql_clauses (l : list (ClauseType * bool)) : bool :=
  match l with
  | [] => true
  | (_, b) :: l' => sql_chain b l'
  end.

Definition sql_like (eng : Engine) (v p : SqlValue) : bool :=
  match as_text eng v, as_text eng p with
  | Some s, Some pat => like (collation eng) (like_escape eng) pat s
  | _, _ => false
  end.

Definition sql_equals (v p : SqlValue) : bool :=
  match v, p with
  | SInt a, SInt b => a =? b
  | _, _ => false
  end.

Definition param_of (ps : list (string * SqlValue)) (param : string)
  : SqlValue :=
  match assoc param ps with Some v => v | None => SNull end.

(** A condition on one joined row.  NULL counts as false: the conditions
    hold no negation. *)
Fixpoint eval (eng : Engine) (ps : list (string * SqlValue)) (env : Env)
  (c : Condition) : bool :=
  match c with
  | Like col param => sql_like eng (value_of env col) (param_of ps param)
  | Equals col param => sql_equals (value_of env col) (param_of ps param)
  | Bracketed clauses =>
      sql_clauses (map (fun cl => (fst cl, eval eng ps env (snd cl))) clauses)
  end.

(** The WHERE clause of the builder on one joined row. *)
Definition matches (eng : Engine) (qb : SelectQueryBuilder) (env : Env)
  : bool :=
  sql_clauses
    (map (fun cl => (fst cl, eval eng (parameters qb) env (snd cl)))
         (wheres qb)).

(** Sort key of a column value. *)
Definition sort_key (v : SqlValue) : Z :=
  match v with
  | SInt z | SDate z => z
  | SBool b => if b then 1 else 0
  | _ => 0
  end.

(** Insertion keeping equal keys in their original order. *)
Fixpoint insert_by {A : Type} (key : A -> Z) (order : Order) (x : A)
  (l : list A) : list A :=
  match l with
  | [] => [x]
  | y :: l' =>
      if match order with
         | DESC => key y <=? key x
         | ASC => key x <=? key y
         end
      then x :: l
      else y :: insert_by key order x l'
  end.

Definition sort_by {A : Type} (key : A -> Z) (order : Order) (l : list A)
  : list A :=
  fold_right (insert_by key order) [] l.

(** The column values of a joined row, under their qualified names. *)
Definition env_cells (env : Env) : list (string * SqlValue) :=
  flat_map
    (fun ar =>
       map (fun c =>
              (fst ar ++ "." ++ c,
               match cell (snd ar) c with Some v => v | None => SNull end))
           (columns (table_of (snd ar))))
    env.

Fixpoint condition_columns (c : Condition) : list string :=
  match c with
  | Like col _ | Equals col _ => [col]
  | Bracketed clauses =>
      flat_map (fun cl => condition_columns (snd cl)) clauses
  end.

(** The columns a statement names: its selection, then its conditions. *)
Definition statement_columns (qb : SelectQueryBuilder) : list string :=
  (selects qb
   ++ flat_map (fun cl => condition_columns (snd cl)) (wheres qb))%list.

(** The order of the result: that of the ORDER BY when there is one, and
    otherwise the order in which the engine reads the rows. *)
Definition ordered (eng : Engine) (qb : SelectQueryBuilder) (l : list Env)
  : list Env :=
  match orderBys qb with
  | (col, order) :: _ => sort_by (fun env => sort_key (value_of env col)) order l
  | [] =>
      sort_by
        (fun env =>
           scan_rank eng (statement_columns qb) (parameters qb)
                     (env_cells env))
        ASC l
  end.

Definition driver_error (msg code : string) : Error :=
  mkError QueryFailedError msg (Some code) None.

Definition unknown_column : Error :=
  driver_error "Unknown column in statement" "ER_BAD_FIELD_ERROR".

Definition bad_limit : Error :=
  driver_error "LIMIT and OFFSET take a non-negative integer"
               "ER_PARSE_ERROR".

(** LIMIT and OFFSET as the statement gets them: a count that is zero or
    unset is not printed. *)
Definition row_count (n : option JS.number) : option (option nat) :=
  match n with
  | None => Some None
  | Some x =>
      match JS.as_nat x with
      | Some O => Some None
      | Some k => Some (Some k)
      | None => None
      end
  end.

Definition window {A : Type} (limit offset : option nat) (l : list A)
  : list A :=
  let l' := match offset with Some k => skipn k l | None => l end in
  match limit with Some k => firstn k l' | None => l' end.

Definition main_row (qb : SelectQueryBuilder) (env : Env) : option Row :=
  assoc (mainAlias qb) env.

(** The rows the WHERE clause keeps, in the order of the result. *)
Definition matching (db : Database) (qb : SelectQueryBuilder) : list Env :=
  ordered (engine db) qb
          (filter (matches (engine db) qb) (joined_rows db qb)).

(** [qb.getMany()]: the main-alias rows of the statement's result.  The
    statement fails when it names an unknown column, an unbound parameter
    or a row count the driver does not accept. *)
Definition getMany (db : Database) (qb : SelectQueryBuilder)
  : Promise (list Row) :=
  match scope_of qb with
  | None => Rejected unknown_column
  | Some scope =>
      if statement_ok qb scope then
        match row_count (take_ qb), row_count (skip_ qb) with
        | Some limit, Some offset =>
            Resolved
              (filter_map (main_row qb)
                 (window limit offset (matching db qb)))
        | _, _ => Rejected bad_limit
        end
      else Rejected unknown_column
  end.

(** [qb.getManyAndCount()]: the window, and the count of the rows that
    match, taken without LIMIT and OFFSET. *)
Definition getManyAndCount (db : Database) (qb : SelectQueryBuilder)
  : Promise (list Row * nat) :=
  rows <- getMany db qb ;;
  Resolved (rows, length (matching db qb)).

End TypeORM.

(* ================================================================== *)
(** * Shared shapes of the modules *)
(* ================================================================== *)

(** [{ result, total }] *)
Record Page (A : Type) : Type := mkPage {
  result : list A;
  total : nat
}.
Arguments mkPage {A} result total.
Arguments result {A} p.
Arguments total {A} p.

(** [array.forEach((x, index) => ...)], threading the builder the callback
    acts on. *)
Fixpoint forEach {A B : Type} (callback : A -> nat -> B -> B) (l : list A)
  (index : nat) (qb : B) : B :=
  match l with
  | [] => qb
  | a :: l' => forEach callback l' (S index) (callback a index qb)
  end.

(** A template literal [`${s}`] of an optional string. *)
Definition template (s : option string) : string :=
  match s with
  | Some s => s
  | None => "undefined"
  end.

(** The parameter object [{ keyword: `${keyword}%` }]. *)
Definition keyword_param (keyword : option string)
  : list (string * SqlValue) :=
  [("keyword", SText (template keyword ++ "%"))].

(* ================================================================== *)
(** * tag: repository *)
(* ================================================================== *)

Module TagRepository.
Import TypeORM.

Definition entity (r : Row) : option TagEntity.t :=
  match r with RTag t => Some t | _ => None end.

(** [findById(id)]: [findOne({ where: { id }, relations: [] })] *)
Definition findById (db : Database) (id : Z) : Promise (option TagEntity.t) :=
  Resolved (find (fun t => TagEntity.id t =? id) (tags db)).

Definition getQueryBuilder (fields : list string) (keyword : option string)
  : SelectQueryBuilder :=
  let queryBuilder := createQueryBuilder Tags "tag" in
  if JS.truthy keyword then
    forEach
      (fun field index qb =>
         if Nat.eqb index 0
         then where_ (Like ("tag." ++ field) "keyword")
                     (keyword_param keyword) qb
         else orWhere (Like ("tag." ++ field) "keyword")
                      (keyword_param keyword) qb)
      fields 0%nat queryBuilder
  else queryBuilder.

Definition getAll (db : Database) (skip take : JS.number)
  (searchTerm : option string) : Promise (Page TagEntity.t) :=
  let queryBuilder := getQueryBuilder ["name"] searchTerm in
  let queryBuilder :=
    addSelect ["tag.createdAt"] (orderBy "tag.createdAt" DESC queryBuilder) in
  queryBuilder <- TypeORM.take take (select None queryBuilder) ;;
  queryBuilder <- TypeORM.skip skip queryBuilder ;;
  res <- getManyAndCount db queryBuilder ;;
  Resolved (mkPage (filter_map entity (fst res)) (snd res)).

Definition findAllDropdown (db : Database) (fields : list string)
  (keyword : option string) : Promise (list TagEntity.t) :=
  let queryBuilder := getQueryBuilder fields keyword in
  let selectedColumns := map (fun field => "tag." ++ field) fields in
  queryBuilder <-
    TypeORM.take (JS.of_Z 5) (select (Some selectedColumns) queryBuilder) ;;
  rows <- getMany db queryBuilder ;;
  Resolved (filter_map entity rows).

End TagRepository.

(* ================================================================== *)
(** * blog: repository *)
(* ================================================================== *)

(** [where: { relation: { id: k } }] on a join column. *)
Definition refers_to (fk : option Z) (k : Z) : bool :=
  match fk with
  | Some k' => k' =? k
  | None => false
  end.

Definition driver_foreign_key : Error :=
  TypeORM.driver_error "a foreign key constraint fails"
                       "ER_NO_REFERENCED_ROW_2".

Definition driver_not_null : Error :=
  TypeORM.driver_error "a column without default value is not set"
                       "ER_NO_DEFAULT_FOR_FIELD".

(** What the persistence executor throws for an entity object without
    an id that is to be removed. *)
Definition subject_without_identifier : Error :=
  mkError TypeORMError
    "Internal error. Subject must have an identifier to perform operation."
    None None.

Definition next_id (ids : list Z) : Z :=
  1 + fold_right Z.max 0 ids.

Definition or_else {A : Type} (o : option A) (d : A) : A :=
  match o with Some a => a | None => d end.

(** The join column an entity object asks for: the id of its relation
    object when both are defined, the stored one otherwise. *)
Definition join_column (rel : option UserEntity.Partial.t)
  (stored : option Z) : option Z :=
  match rel with
  | Some u =>
      match UserEntity.Partial.id u with
      | Some k => Some k
      | None => stored
      end
  | None => stored
  end.

Definition option_Z_eqb (a b : option Z) : bool :=
  match a, b with
  | Some x, Some y => x =? y
  | None, None => true
  | _, _ => false
  end.

Module BlogRepository.
Import TypeORM.

Definition entity (r : Row) : option BlogEntity.t :=
  match r with RBlog b => Some b | _ => None end.

(** The entity object [findOne] builds from a row: the selected columns
    (the two timestamps are declared [select: false]); the author relation
    is not loaded. *)
Definition hydrate (b : BlogEntity.t) : BlogEntity.Partial.t :=
  BlogEntity.Partial.mk
    (Some (BlogEntity.id b)) (Some (BlogEntity.title b))
    (Some (BlogEntity.content b)) (Some (BlogEntity.published b)) None.

(** The row [findOne({ where: { id, author: { id: userId } } })] selects. *)
Definition findRow (db : Database) (userId id : Z) : option BlogEntity.t :=
  find (fun b => (BlogEntity.id b =? id)
                 && refers_to (BlogEntity.author b) userId)
       (blogs db).

Definition findById (db : Database) (userId id : Z)
  : Promise (option BlogEntity.Partial.t) :=
  Resolved (option_map hydrate (findRow db userId id)).

Definition getQueryBuilder (userId : Z) (fields : list string)
  (keyword : option string) : SelectQueryBuilder :=
  let queryBuilder := createQueryBuilder Blogs "blog" in
  let queryBuilder :=
    if JS.truthy keyword then
      forEach
        (fun field index qb =>
           if Nat.eqb index 0
           then where_ (Like ("blog." ++ field) "keyword")
                       (keyword_param keyword) qb
           else orWhere (Like ("blog." ++ field) "keyword")
                        (keyword_param keyword) qb)
        fields 0%nat queryBuilder
    else queryBuilder in
  andWhere (Equals "blog.author.id" "userId") [("userId", SInt userId)]
           queryBuilder.

Definition getAll (db : Database) (userId : Z) (skip take : JS.number)
  (searchTerm : option string) : Promise (Page BlogEntity.t) :=
  let queryBuilder :=
    getQueryBuilder userId ["title"; "content"; "published"] searchTerm in
  let queryBuilder :=
    addSelect ["blog.createdAt"]
              (orderBy "blog.createdAt" DESC queryBuilder) in
  queryBuilder <- TypeORM.take take (select None queryBuilder) ;;
  queryBuilder <- TypeORM.skip skip queryBuilder ;;
  res <- getManyAndCount db queryBuilder ;;
  Resolved (mkPage (filter_map entity (fst res)) (snd res)).

Definition findAllDropdown (db : Database) (userId : Z)
  (fields : list string) (keyword : option string)
  : Promise (list BlogEntity.t) :=
  let queryBuilder := getQueryBuilder userId fields keyword in
  let selectedColumns := map (fun field => "blog." ++ field) fields in
  queryBuilder <-
    TypeORM.take (JS.of_Z 5) (select (Some selectedColumns) queryBuilder) ;;
  rows <- getMany db queryBuilder ;;
  Resolved (filter_map entity rows).

(** [repository.merge(blog, updateData)] *)
Definition merge (blog updateData : BlogEntity.Partial.t)
  : BlogEntity.Partial.t :=
  BlogEntity.Partial.merge blog updateData.

(** The column values [save] writes over a stored row: those the entity
    object defines. *)
Definition persist (row : BlogEntity.t) (e : BlogEntity.Partial.t)
  : BlogEntity.t :=
  BlogEntity.mk
    (BlogEntity.id row)
    (or_else (BlogEntity.Partial.title e) (BlogEntity.title row))
    (or_else (BlogEntity.Partial.content e) (BlogEntity.content row))
    (or_else (BlogEntity.Partial.published e) (BlogEntity.published row))
    (BlogEntity.createdAt row)
    (BlogEntity.updatedAt row)
    (join_column (BlogEntity.Partial.author e) (BlogEntity.author row)).

Definition same_columns (a b : BlogEntity.t) : bool :=
  (BlogEntity.title a =? BlogEntity.title b)%string
  && (BlogEntity.content a =? BlogEntity.content b)%string
  && Bool.eqb (BlogEntity.published a) (BlogEntity.published b)
  && option_Z_eqb (BlogEntity.author a) (BlogEntity.author b).

Definition touch (now : Z) (b : BlogEntity.t) : BlogEntity.t :=
  BlogEntity.mk (BlogEntity.id b) (BlogEntity.title b) (BlogEntity.content b)
                (BlogEntity.published b) (BlogEntity.createdAt b) now
                (BlogEntity.author b).

Definition with_blogs (db : Database) (l : list BlogEntity.t) : Database :=
  mkDatabase (engine db) (clock db) (tags db) l (drafts db) (comments db)
             (likes db) (blogTags db).

(** [repository.save(blog)]: an entity whose id names a stored row is
    written over that row, the columns that differ being updated together
    with the update timestamp; any other entity is inserted.  The entity
    answered is given by the properties its caller set: the timestamps a
    write fills in are those of the stored row, and are stated of it. *)
Definition save (db : Database) (blog : BlogEntity.Partial.t)
  : Promise BlogEntity.Partial.t * Database :=
  let stored :=
    match BlogEntity.Partial.id blog with
    | Some i => find (fun b => BlogEntity.id b =? i) (blogs db)
    | None => None
    end in
  match stored with
  | Some row =>
      let row' := persist row blog in
      if same_columns row row' then (Resolved blog, db)
      else
        (Resolved blog,
         with_blogs db
           (map (fun b => if BlogEntity.id b =? BlogEntity.id row
                          then touch (clock db) (persist b blog) else b)
                (blogs db)))
  | None =>
      match BlogEntity.Partial.title blog, BlogEntity.Partial.content blog
      with
      | Some t, Some c =>
          let i := or_else (BlogEntity.Partial.id blog)
                           (next_id (map BlogEntity.id (blogs db))) in
          let row :=
            BlogEntity.mk i t c
              (or_else (BlogEntity.Partial.published blog) false)
              (clock db) (clock db)
              (join_column (BlogEntity.Partial.author blog) None) in
          (Resolved
             (BlogEntity.Partial.mk (Some i) (Some t) (Some c)
                (Some (BlogEntity.published row))
                (BlogEntity.Partial.author blog)),
           with_blogs db (blogs db ++ [row]))
      | _, _ => (Rejected driver_not_null, db)
      end
  end.

(** [repository.create(entityLike)]: a new entity object with the given
    properties. *)
Definition create (entityLike : BlogEntity.Partial.t)
  : BlogEntity.Partial.t :=
  BlogEntity.Partial.merge BlogEntity.Partial.empty entityLike.

(** [repository.remove(blog)]: the row with the entity's id is deleted and
    the entity object is handed back without its id.  The relations to
    [BlogEntity] of drafts, likes and blog tags are declared
    [onDelete: 'CASCADE'], so the rows that refer to the blog go with it;
    so do the comments (modelled from the spec: the comment entity is not
    among the sources). *)
Definition remove (db : Database) (blog : BlogEntity.Partial.t)
  : Promise BlogEntity.Partial.t * Database :=
  match BlogEntity.Partial.id blog with
  | Some i =>
      (Resolved
         (BlogEntity.Partial.mk None
            (BlogEntity.Partial.title blog) (BlogEntity.Partial.content blog)
            (BlogEntity.Partial.published blog)
            (BlogEntity.Partial.author blog)),
       mkDatabase (engine db) (clock db) (tags db)
         (filter (fun b => negb (BlogEntity.id b =? i)) (blogs db))
         (filter (fun d => negb (refers_to (DraftEntity.blog d) i))
                 (drafts db))
         (filter (fun c => negb (refers_to (CommentEntity.blog c) i))
                 (comments db))
         (filter (fun l => negb (refers_to (LikeEntity.blog l) i))
                 (likes db))
         (filter (fun bt => negb (refers_to (BlogTagEntity.blog bt) i))
                 (blogTags db)))
  | None => (Rejected subject_without_identifier, db)
  end.

End BlogRepository.

(* ================================================================== *)
(** * draft: repository *)
(* ================================================================== *)

Module DraftRepository.
Import TypeORM.

Definition entity (r : Row) : option DraftEntity.t :=
  match r with RDraft d => Some d | _ => None end.

(** The entity object [findOne] builds with [relations: ['blog']]: the
    selected columns and the blog the draft refers to; the creator is not
    loaded. *)
Definition hydrate (db : Database) (d : DraftEntity.t)
  : DraftEntity.Partial.t :=
  DraftEntity.Partial.mk
    (Some (DraftEntity.id d)) (Some (DraftEntity.content d))
    (match DraftEntity.blog d with
     | Some k =>
         option_map BlogRepository.hydrate
           (find (fun b => BlogEntity.id b =? k) (blogs db))
     | None => None
     end)
    None.

(** The row [findOne({ where: { id, createdBy: { id: userId } } })]
    selects. *)
Definition findRow (db : Database) (userId id : Z) : option DraftEntity.t :=
  find (fun d => (DraftEntity.id d =? id)
                 && refers_to (DraftEntity.createdBy d) userId)
       (drafts db).

Definition findById (db : Database) (userId id : Z)
  : Promise (option DraftEntity.Partial.t) :=
  Resolved (option_map (hydrate db) (findRow db userId id)).

Definition getQueryBuilder (userId : Z) (fields : list string)
  (keyword : option string) : SelectQueryBuilder :=
  let queryBuilder := createQueryBuilder Drafts "draft" in
  let queryBuilder :=
    if JS.truthy keyword then
      forEach
        (fun field index qb =>
           if Nat.eqb index 0
           then where_ (Like ("draft." ++ field) "keyword")
                       (keyword_param keyword) qb
           else orWhere (Like ("draft." ++ field) "keyword")
                        (keyword_param keyword) qb)
        fields 0%nat queryBuilder
    else queryBuilder in
  andWhere (Equals "draft.createdBy.id" "userId") [("userId", SInt userId)]
           queryBuilder.

Definition getAll (db : Database) (userId : Z) (skip take : JS.number)
  (searchTerm : option string) : Promise (Page DraftEntity.t) :=
  let queryBuilder := getQueryBuilder userId ["content"] searchTerm in
  let queryBuilder :=
    addSelect ["blog.id"; "blog.title"]
              (innerJoin "draft.blog" "blog" queryBuilder) in
  let queryBuilder :=
    if JS.truthy searchTerm
    then orWhere (Like "blog.title" "keyword") (keyword_param searchTerm)
                 queryBuilder
    else queryBuilder in
  let queryBuilder :=
    addSelect ["draft.createdAt"]
              (orderBy "draft.createdAt" DESC queryBuilder) in
  queryBuilder <- TypeORM.take take (select None queryBuilder) ;;
  queryBuilder <- TypeORM.skip skip queryBuilder ;;
  res <- getManyAndCount db queryBuilder ;;
  Resolved (mkPage (filter_map entity (fst res)) (snd res)).

Definition findAllDropdown (db : Database) (userId : Z)
  (fields : list string) (keyword : option string)
  : Promise (list DraftEntity.t) :=
  let queryBuilder := getQueryBuilder userId fields keyword in
  let selectedColumns := map (fun field => "draft." ++ field) fields in
  queryBuilder <-
    TypeORM.take (JS.of_Z 5) (select (Some selectedColumns) queryBuilder) ;;
  rows <- getMany db queryBuilder ;;
  Resolved (filter_map entity rows).

Definition getDraftsByBlogId (db : Database) (userId blogId : Z)
  (skip take : JS.number) (searchTerm : option string)
  : Promise (Page DraftEntity.t) :=
  let fields := ["content"] in
  let queryBuilder := createQueryBuilder Drafts "draft" in
  let queryBuilder :=
    andWhere (Equals "draft.createdBy.id" "userId")
             [("userId", SInt userId)] queryBuilder in
  let queryBuilder :=
    andWhere (Equals "draft.blog.id" "blogId") [("blogId", SInt blogId)]
             queryBuilder in
  let queryBuilder :=
    if JS.truthy searchTerm then
      andWhereBrackets
        (fun qb =>
           forEach
             (fun field _ qb =>
                orWhere (Like ("draft." ++ field) "keyword")
                        (keyword_param searchTerm) qb)
             fields 0%nat qb)
        queryBuilder
    else queryBuilder in
  let queryBuilder :=
    addSelect ["draft.createdAt"]
              (orderBy "draft.createdAt" DESC queryBuilder) in
  queryBuilder <- TypeORM.take take (select None queryBuilder) ;;
  queryBuilder <- TypeORM.skip skip queryBuilder ;;
  res <- getManyAndCount db queryBuilder ;;
  Resolved (mkPage (filter_map entity (fst res)) (snd res)).

(** [repository.merge(draft, updateData)] *)
Definition merge (draft updateData : DraftEntity.Partial.t)
  : DraftEntity.Partial.t :=
  DraftEntity.Partial.merge draft updateData.

(** The blog join column an entity object asks for. *)
Definition blog_column (rel : option BlogEntity.Partial.t)
  (stored : option Z) : option Z :=
  match rel with
  | Some b =>
      match BlogEntity.Partial.id b with
      | Some k => Some k
      | None => stored
      end
  | None => stored
  end.

Definition persist (row : DraftEntity.t) (e : DraftEntity.Partial.t)
  : DraftEntity.t :=
  DraftEntity.mk
    (DraftEntity.id row)
    (or_else (DraftEntity.Partial.content e)
                            (DraftEntity.content row))
    (DraftEntity.createdAt row)
    (DraftEntity.updatedAt row)
    (blog_column (DraftEntity.Partial.blog e) (DraftEntity.blog row))
    (join_column (DraftEntity.Partial.createdBy e)
                                (DraftEntity.createdBy row)).

Definition same_columns (a b : DraftEntity.t) : bool :=
  (DraftEntity.content a =? DraftEntity.content b)%string
  && option_Z_eqb (DraftEntity.blog a) (DraftEntity.blog b)
  && option_Z_eqb (DraftEntity.createdBy a)
                                 (DraftEntity.createdBy b).

Definition touch (now : Z) (d : DraftEntity.t) : DraftEntity.t :=
  DraftEntity.mk (DraftEntity.id d) (DraftEntity.content d)
                 (DraftEntity.createdAt d) now (DraftEntity.blog d)
                 (DraftEntity.createdBy d).

Definition with_drafts (db : Database) (l : list DraftEntity.t) : Database :=
  mkDatabase (engine db) (clock db) (tags db) (blogs db) l (comments db)
             (likes db) (blogTags db).

(** The blog a row is about to refer to exists. *)
Definition blog_exists (db : Database) (fk : option Z) : bool :=
  match fk with
  | Some k => existsb (fun b => BlogEntity.id b =? k) (blogs db)
  | None => true
  end.

(** [repository.save(draft)]: as for blogs; the write fails when it
    changes the blog join column to the id of no blog. *)
Definition save (db : Database) (draft : DraftEntity.Partial.t)
  : Promise DraftEntity.Partial.t * Database :=
  let stored :=
    match DraftEntity.Partial.id draft with
    | Some i => find (fun d => DraftEntity.id d =? i) (drafts db)
    | None => None
    end in
  match stored with
  | Some row =>
      let row' := persist row draft in
      if same_columns row row' then (Resolved draft, db)
      else if option_Z_eqb (DraftEntity.blog row) (DraftEntity.blog row')
              || blog_exists db (DraftEntity.blog row') then
        (Resolved draft,
         with_drafts db
           (map (fun d => if DraftEntity.id d =? DraftEntity.id row
                          then touch (clock db) (persist d draft) else d)
                (drafts db)))
      else (Rejected driver_foreign_key, db)
  | None =>
      match DraftEntity.Partial.content draft with
      | Some c =>
          let i := or_else (DraftEntity.Partial.id draft)
                     (next_id (map DraftEntity.id (drafts db))) in
          let row :=
            DraftEntity.mk i c (clock db) (clock db)
              (blog_column (DraftEntity.Partial.blog draft) None)
              (join_column
                 (DraftEntity.Partial.createdBy draft) None) in
          if blog_exists db (DraftEntity.blog row) then
            (Resolved
               (DraftEntity.Partial.mk (Some i) (Some c)
                  (DraftEntity.Partial.blog draft)
                  (DraftEntity.Partial.createdBy draft)),
             with_drafts db (drafts db ++ [row]))
          else (Rejected driver_foreign_key, db)
      | None => (Rejected driver_not_null, db)
      end
  end.

(** [repository.create(entityLike)] *)
Definition create (entityLike : DraftEntity.Partial.t)
  : DraftEntity.Partial.t :=
  DraftEntity.Partial.merge
    (DraftEntity.Partial.mk None None None None) entityLike.

(** [repository.remove(draft)]: no entity refers to a draft, so only the
    row itself goes. *)
Definition remove (db : Database) (draft : DraftEntity.Partial.t)
  : Promise DraftEntity.Partial.t * Database :=
  match DraftEntity.Partial.id draft with
  | Some i =>
      (Resolved
         (DraftEntity.Partial.mk None
            (DraftEntity.Partial.content draft)
            (DraftEntity.Partial.blog draft)
            (DraftEntity.Partial.createdBy draft)),
       with_drafts db
         (filter (fun d => negb (DraftEntity.id d =? i)) (drafts db)))
  | None => (Rejected subject_without_identifier, db)
  end.

End DraftRepository.

(* ================================================================== *)
(** * comment: repository *)
(* ================================================================== *)

Module CommentRepository.
Import TypeORM.

Definition entity (r : Row) : option CommentEntity.t :=
  match r with RComment x => Some x | _ => None end.

(** The row [findOne({ where: { id, user: { id: userId } } })]
    selects. *)
Definition findRow (db : Database) (userId id : Z) : option CommentEntity.t :=
  find (fun x => (CommentEntity.id x =? id)
                 && refers_to (CommentEntity.user x) userId)
       (comments db).

(** [findById(userId, id)]; the entity is given by its row. *)
Definition findById (db : Database) (userId id : Z)
  : Promise (option CommentEntity.t) :=
  Resolved (findRow db userId id).

Definition getQueryBuilder (userId : Z) (fields : list string)
  (keyword : option string) : SelectQueryBuilder :=
  let queryBuilder := createQueryBuilder Comments "comment" in
  let queryBuilder :=
    if JS.truthy keyword then
      forEach
        (fun field index qb =>
           if Nat.eqb index 0
           then where_ (Like ("comment." ++ field) "keyword")
                       (keyword_param keyword) qb
           else orWhere (Like ("comment." ++ field) "keyword")
                        (keyword_param keyword) qb)
        fields 0%nat queryBuilder
    else queryBuilder in
  andWhere (Equals "comment.user.id" "userId") [("userId", SInt userId)]
           queryBuilder.

Definition getAll (db : Database) (userId : Z) (skip take : JS.number)
  (searchTerm : option string) : Promise (Page CommentEntity.t) :=
  let queryBuilder := getQueryBuilder userId ["content"] searchTerm in
  let queryBuilder :=
    addSelect ["blog.id"; "blog.title"]
              (innerJoin "comment.blog" "blog" queryBuilder) in
  let queryBuilder :=
    if JS.truthy searchTerm
    then orWhere (Like "blog.title" "keyword") (keyword_param searchTerm)
                 queryBuilder
    else queryBuilder in
  let queryBuilder :=
    addSelect ["comment.createdAt"]
              (orderBy "comment.createdAt" DESC queryBuilder) in
  queryBuilder <- TypeORM.take take (select None queryBuilder) ;;
  queryBuilder <- TypeORM.skip skip queryBuilder ;;
  res <- getManyAndCount db queryBuilder ;;
  Resolved (mkPage (filter_map entity (fst res)) (snd res)).

Definition findAllDropdown (db : Database) (userId : Z)
  (fields : list string) (keyword : option string)
  : Promise (list CommentEntity.t) :=
  let queryBuilder := getQueryBuilder userId fields keyword in
  let selectedColumns := map (fun field => "comment." ++ field) fields in
  queryBuilder <-
    TypeORM.take (JS.of_Z 5) (select (Some selectedColumns) queryBuilder) ;;
  rows <- getMany db queryBuilder ;;
  Resolved (filter_map entity rows).

Definition getCommentsByBlogId (db : Database) (userId blogId : Z)
  (skip take : JS.number) (searchTerm : option string)
  : Promise (Page CommentEntity.t) :=
  let fields : list string := ["content"] in
  let queryBuilder := createQueryBuilder Comments "comment" in
  let queryBuilder :=
    andWhere (Equals "comment.user.id" "userId")
             [("userId", SInt userId)] queryBuilder in
  let queryBuilder :=
    andWhere (Equals "comment.blog.id" "blogId") [("blogId", SInt blogId)]
             queryBuilder in
  let queryBuilder :=
    if JS.truthy searchTerm then
      andWhereBrackets
        (fun qb =>
           forEach
             (fun field _ qb =>
                orWhere (Like ("comment." ++ field) "keyword")
                        (keyword_param searchTerm) qb)
             fields 0%nat qb)
        queryBuilder
    else queryBuilder in
  let queryBuilder :=
    addSelect ["comment.createdAt"]
              (orderBy "comment.createdAt" DESC queryBuilder) in
  queryBuilder <- TypeORM.take take (select None queryBuilder) ;;
  queryBuilder <- TypeORM.skip skip queryBuilder ;;
  res <- getManyAndCount db queryBuilder ;;
  Resolved (mkPage (filter_map entity (fst res)) (snd res)).

End CommentRepository.

(* ================================================================== *)
(** * like: repository *)
(* ================================================================== *)

Module LikeRepository.
Import TypeORM.

Definition entity (r : Row) : option LikeEntity.t :=
  match r with RLike x => Some x | _ => None end.

(** The row [findOne({ where: { id, user: { id: userId } } })]
    selects. *)
Definition findRow (db : Database) (userId id : Z) : option LikeEntity.t :=
  find (fun x => (LikeEntity.id x =? id)
                 && refers_to (LikeEntity.user x) userId)
       (likes db).

(** [findById(userId, id)]; the entity is given by its row. *)
Definition findById (db : Database) (userId id : Z)
  : Promise (option LikeEntity.t) :=
  Resolved (findRow db userId id).

Definition getQueryBuilder (userId : Z) (fields : list string)
  (keyword : option string) : SelectQueryBuilder :=
  let queryBuilder := createQueryBuilder Likes "like" in
  let queryBuilder :=
    if JS.truthy keyword then
      forEach
        (fun field index qb =>
           if Nat.eqb index 0
           then where_ (Like ("like." ++ field) "keyword")
                       (keyword_param keyword) qb
           else orWhere (Like ("like." ++ field) "keyword")
                        (keyword_param keyword) qb)
        fields 0%nat queryBuilder
    else queryBuilder in
  andWhere (Equals "like.user.id" "userId") [("userId", SInt userId)]
           queryBuilder.

Definition getAll (db : Database) (userId : Z) (skip take : JS.number)
  (searchTerm : option string) : Promise (Page LikeEntity.t) :=
  let queryBuilder := getQueryBuilder userId [] searchTerm in
  let queryBuilder :=
    addSelect ["blog.id"; "blog.title"]
              (innerJoin "like.blog" "blog" queryBuilder) in
  let queryBuilder :=
    if JS.truthy searchTerm
    then orWhere (Like "blog.title" "keyword") (keyword_param searchTerm)
                 queryBuilder
    else queryBuilder in
  let queryBuilder :=
    addSelect ["like.createdAt"]
              (orderBy "like.createdAt" DESC queryBuilder) in
  queryBuilder <- TypeORM.take take (select None queryBuilder) ;;
  queryBuilder <- TypeORM.skip skip queryBuilder ;;
  res <- getManyAndCount db queryBuilder ;;
  Resolved (mkPage (filter_map entity (fst res)) (snd res)).

Definition findAllDropdown (db : Database) (userId : Z)
  (fields : list string) (keyword : option string)
  : Promise (list LikeEntity.t) :=
  let queryBuilder := getQueryBuilder userId fields keyword in
  let selectedColumns := map (fun field => "like." ++ field) fields in
  queryBuilder <-
    TypeORM.take (JS.of_Z 5) (select (Some selectedColumns) queryBuilder) ;;
  rows <- getMany db queryBuilder ;;
  Resolved (filter_map entity rows).

Definition getLikesByBlogId (db : Database) (userId blogId : Z)
  (skip take : JS.number) (searchTerm : option string)
  : Promise (Page LikeEntity.t) :=
  let fields : list string := [] in
  let queryBuilder := createQueryBuilder Likes "like" in
  let queryBuilder :=
    andWhere (Equals "like.user.id" "userId")
             [("userId", SInt userId)] queryBuilder in
  let queryBuilder :=
    andWhere (Equals "like.blog.id" "blogId") [("blogId", SInt blogId)]
             queryBuilder in
  let queryBuilder :=
    if JS.truthy searchTerm then
      andWhereBrackets
        (fun qb =>
           forEach
             (fun field _ qb =>
                orWhere (Like ("like." ++ field) "keyword")
                        (keyword_param searchTerm) qb)
             fields 0%nat qb)
        queryBuilder
    else queryBuilder in
  let queryBuilder :=
    addSelect ["like.createdAt"]
              (orderBy "like.createdAt" DESC queryBuilder) in
  queryBuilder <- TypeORM.take take (select None queryBuilder) ;;
  queryBuilder <- TypeORM.skip skip queryBuilder ;;
  res <- getManyAndCount db queryBuilder ;;
  Resolved (mkPage (filter_map entity (fst res)) (snd res)).

(** [repository.create(entityLike)] *)
Definition create (entityLike : LikeEntity.Partial.t)
  : LikeEntity.Partial.t :=
  LikeEntity.Partial.merge LikeEntity.Partial.empty entityLike.

Definition persist (row : LikeEntity.t) (e : LikeEntity.Partial.t)
  : LikeEntity.t :=
  LikeEntity.mk
    (LikeEntity.id row)
    (LikeEntity.createdAt row)
    (LikeEntity.updatedAt row)
    (DraftRepository.blog_column (LikeEntity.Partial.blog e)
                                 (LikeEntity.blog row))
    (join_column (LikeEntity.Partial.user e) (LikeEntity.user row)).

Definition same_columns (a b : LikeEntity.t) : bool :=
  option_Z_eqb (LikeEntity.blog a) (LikeEntity.blog b)
  && option_Z_eqb (LikeEntity.user a) (LikeEntity.user b).

Definition touch (now : Z) (l : LikeEntity.t) : LikeEntity.t :=
  LikeEntity.mk (LikeEntity.id l) (LikeEntity.createdAt l) now
                (LikeEntity.blog l) (LikeEntity.user l).

Definition with_likes (db : Database) (l : list LikeEntity.t) : Database :=
  mkDatabase (engine db) (clock db) (tags db) (blogs db) (drafts db)
             (comments db) l (blogTags db).

(** [repository.save(like)]: as for drafts.  Nothing in the entity makes
    the pair of blog and user unique. *)
Definition save (db : Database) (like : LikeEntity.Partial.t)
  : Promise LikeEntity.Partial.t * Database :=
  let stored :=
    match LikeEntity.Partial.id like with
    | Some i => find (fun l => LikeEntity.id l =? i) (likes db)
    | None => None
    end in
  match stored with
  | Some row =>
      let row' := persist row like in
      if same_columns row row' then (Resolved like, db)
      else if option_Z_eqb (LikeEntity.blog row) (LikeEntity.blog row')
              || DraftRepository.blog_exists db (LikeEntity.blog row') then
        (Resolved like,
         with_likes db
           (map (fun l => if LikeEntity.id l =? LikeEntity.id row
                          then touch (clock db) (persist l like) else l)
                (likes db)))
      else (Rejected driver_foreign_key, db)
  | None =>
      let i := or_else (LikeEntity.Partial.id like)
                 (next_id (map LikeEntity.id (likes db))) in
      let row :=
        LikeEntity.mk i (clock db) (clock db)
          (DraftRepository.blog_column (LikeEntity.Partial.blog like) None)
          (join_column (LikeEntity.Partial.user like) None) in
      if DraftRepository.blog_exists db (LikeEntity.blog row) then
        (Resolved
           (LikeEntity.Partial.mk (Some i) (LikeEntity.Partial.blog like)
              (LikeEntity.Partial.user like)),
         with_likes db (likes db ++ [row]))
      else (Rejected driver_foreign_key, db)
  end.

End LikeRepository.

(* ================================================================== *)
(** * blog-tag: repository *)
(* ================================================================== *)

Module BlogTagRepository.
Import TypeORM.

Definition entity (r : Row) : option BlogTagEntity.t :=
  match r with RBlogTag x => Some x | _ => None end.

(** [findById(id)]; the entity is given by its row. *)
Definition findById (db : Database) (id : Z)
  : Promise (option BlogTagEntity.t) :=
  Resolved (find (fun x => BlogTagEntity.id x =? id) (blogTags db)).

Definition getQueryBuilder (fields : list string) (keyword : option string)
  : SelectQueryBuilder :=
  let queryBuilder := createQueryBuilder BlogTags "blogTag" in
  if JS.truthy keyword then
    forEach
      (fun field index qb =>
         if Nat.eqb index 0
         then where_ (Like ("blogTag." ++ field) "keyword")
                     (keyword_param keyword) qb
         else orWhere (Like ("blogTag." ++ field) "keyword")
                      (keyword_param keyword) qb)
      fields 0%nat queryBuilder
  else queryBuilder.

Definition getAll (db : Database) (skip take : JS.number)
  (searchTerm : option string) : Promise (Page BlogTagEntity.t) :=
  let queryBuilder := getQueryBuilder [] searchTerm in
  let queryBuilder :=
    addSelect ["blog.id"; "blog.title"]
              (innerJoin "blogTag.blog" "blog" queryBuilder) in
  let queryBuilder :=
    if JS.truthy searchTerm
    then orWhere (Like "blog.title" "keyword") (keyword_param searchTerm)
                 queryBuilder
    else queryBuilder in
  let queryBuilder :=
    addSelect ["tag.id"; "tag.name"]
              (innerJoin "blogTag.tag" "tag" queryBuilder) in
  let queryBuilder :=
    if JS.truthy searchTerm
    then orWhere (Like "tag.name" "keyword") (keyword_param searchTerm)
                 queryBuilder
    else queryBuilder in
  let queryBuilder :=
    addSelect ["blogTag.createdAt"]
              (orderBy "blogTag.createdAt" DESC queryBuilder) in
  queryBuilder <- TypeORM.take take (select None queryBuilder) ;;
  queryBuilder <- TypeORM.skip skip queryBuilder ;;
  res <- getManyAndCount db queryBuilder ;;
  Resolved (mkPage (filter_map entity (fst res)) (snd res)).

Definition findAllDropdown (db : Database) (fields : list string)
  (keyword : option string) : Promise (list BlogTagEntity.t) :=
  let queryBuilder := getQueryBuilder fields keyword in
  let selectedColumns := map (fun field => "blogTag." ++ field) fields in
  queryBuilder <-
    TypeORM.take (JS.of_Z 5) (select (Some selectedColumns) queryBuilder) ;;
  rows <- getMany db queryBuilder ;;
  Resolved (filter_map entity rows).

Definition getBlogTagsByBlogId (db : Database) (blogId : Z)
  (skip take : JS.number) (searchTerm : option string)
  : Promise (Page BlogTagEntity.t) :=
  let fields : list string := [] in
  let queryBuilder := createQueryBuilder BlogTags "blogTag" in
  let queryBuilder :=
    andWhere (Equals "blogTag.blog.id" "blogId") [("blogId", SInt blogId)]
             queryBuilder in
  let queryBuilder :=
    addSelect ["tag.id"; "tag.name"]
              (innerJoin "blogTag.tag" "tag" queryBuilder) in
  let queryBuilder :=
    if JS.truthy searchTerm then
      andWhereBrackets
        (fun qb =>
           let qb := orWhere (Like "tag.name" "keyword")
                             (keyword_param searchTerm) qb in
           forEach
             (fun field _ qb =>
                orWhere (Like ("blogTag." ++ field) "keyword")
                        (keyword_param searchTerm) qb)
             fields 0%nat qb)
        queryBuilder
    else queryBuilder in
  let queryBuilder :=
    addSelect ["blogTag.createdAt"]
              (orderBy "blogTag.createdAt" DESC queryBuilder) in
  queryBuilder <- TypeORM.take take (select None queryBuilder) ;;
  queryBuilder <- TypeORM.skip skip queryBuilder ;;
  res <- getManyAndCount db queryBuilder ;;
  Resolved (mkPage (filter_map entity (fst res)) (snd res)).

Definition getBlogTagsByTagId (db : Database) (tagId : Z)
  (skip take : JS.number) (searchTerm : option string)
  : Promise (Page BlogTagEntity.t) :=
  let fields : list string := [] in
  let queryBuilder := createQueryBuilder BlogTags "blogTag" in
  let queryBuilder :=
    andWhere (Equals "blogTag.tag.id" "tagId") [("tagId", SInt tagId)]
             queryBuilder in
  let queryBuilder :=
    addSelect ["blog.id"; "blog.title"]
              (innerJoin "blogTag.blog" "blog" queryBuilder) in
  let queryBuilder :=
    if JS.truthy searchTerm then
      andWhereBrackets
        (fun qb =>
           let qb := orWhere (Like "blog.title" "keyword")
                             (keyword_param searchTerm) qb in
           forEach
             (fun field _ qb =>
                orWhere (Like ("blogTag." ++ field) "keyword")
                        (keyword_param searchTerm) qb)
             fields 0%nat qb)
        queryBuilder
    else queryBuilder in
  let queryBuilder :=
    addSelect ["blogTag.createdAt"]
              (orderBy "blogTag.createdAt" DESC queryBuilder) in
  queryBuilder <- TypeORM.take take (select None queryBuilder) ;;
  queryBuilder <- TypeORM.skip skip queryBuilder ;;
  res <- getManyAndCount db queryBuilder ;;
  Resolved (mkPage (filter_map entity (fst res)) (snd res)).

End BlogTagRepository.

(* ================================================================== *)
(** * Services *)
(* ================================================================== *)

(** [return value;] inside [try]. *)
Definition return_value {A : Type} (a : A) : TryBlock A := Returns (Resolved a).

(** The methods [TagRepository] inherits from [Repository<TagEntity>]. *)
Module Repository_TagEntity.

(** The entity object of a row: the two timestamps are declared
    [select: false]. *)
Definition hydrate (t : TagEntity.t) : TagEntity.Partial.t :=
  TagEntity.Partial.mk (Some (TagEntity.id t)) (Some (TagEntity.name t)).

(** [repository.merge(tag, updateData)] *)
Definition merge (tag updateData : TagEntity.Partial.t)
  : TagEntity.Partial.t :=
  TagEntity.Partial.mk
    (merge_column (TagEntity.Partial.id tag)
                  (TagEntity.Partial.id updateData))
    (merge_column (TagEntity.Partial.name tag)
                  (TagEntity.Partial.name updateData)).

(** [repository.create(entityLike)] *)
Definition create (entityLike : TagEntity.Partial.t) : TagEntity.Partial.t :=
  merge TagEntity.Partial.empty entityLike.

Definition persist (row : TagEntity.t) (e : TagEntity.Partial.t)
  : TagEntity.t :=
  TagEntity.mk (TagEntity.id row)
               (or_else (TagEntity.Partial.name e) (TagEntity.name row))
               (TagEntity.createdAt row) (TagEntity.updatedAt row).

Definition same_columns (a b : TagEntity.t) : bool :=
  (TagEntity.name a =? TagEntity.name b)%string.

Definition touch (now : Z) (t : TagEntity.t) : TagEntity.t :=
  TagEntity.mk (TagEntity.id t) (TagEntity.name t) (TagEntity.createdAt t)
               now.

Definition with_tags (db : Database) (l : list TagEntity.t) : Database :=
  mkDatabase (engine db) (clock db) l (blogs db) (drafts db) (comments db)
             (likes db) (blogTags db).

(** [repository.save(tag)]: as for blogs.  The name column is indexed but
    not declared unique. *)
Definition save (db : Database) (tag : TagEntity.Partial.t)
  : Promise TagEntity.Partial.t * Database :=
  let stored :=
    match TagEntity.Partial.id tag with
    | Some i => find (fun t => TagEntity.id t =? i) (tags db)
    | None => None
    end in
  match stored with
  | Some row =>
      let row' := persist row tag in
      if same_columns row row' then (Resolved tag, db)
      else
        (Resolved tag,
         with_tags db
           (map (fun t => if TagEntity.id t =? TagEntity.id row
                          then touch (clock db) (persist t tag) else t)
                (tags db)))
  | None =>
      match TagEntity.Partial.name tag with
      | Some n =>
          let i := or_else (TagEntity.Partial.id tag)
                           (next_id (map TagEntity.id (tags db))) in
          (Resolved (TagEntity.Partial.mk (Some i) (Some n)),
           with_tags db (tags db ++ [TagEntity.mk i n (clock db) (clock db)]))
      | None => (Rejected driver_not_null, db)
      end
  end.

(** [repository.remove(tag)]: the relation of [BlogTagEntity] to the tag
    is declared [onDelete: 'CASCADE'], so the blog tags of the tag go with
    it. *)
Definition remove (db : Database) (tag : TagEntity.Partial.t)
  : Promise TagEntity.Partial.t * Database :=
  match TagEntity.Partial.id tag with
  | Some i =>
      (Resolved (TagEntity.Partial.mk None (TagEntity.Partial.name tag)),
       mkDatabase (engine db) (clock db)
         (filter (fun t => negb (TagEntity.id t =? i)) (tags db))
         (blogs db) (drafts db) (comments db) (likes db)
         (filter (fun bt => negb (refers_to (BlogTagEntity.tag bt) i))
                 (blogTags db)))
  | None => (Rejected subject_without_identifier, db)
  end.

End Repository_TagEntity.

(** [CreateTagDto] *)
Record CreateTagDto : Type := mkCreateTagDto { ct_name : string }.

(** [UpdateTagDto]: the name is optional. *)
Record UpdateTagDto : Type := mkUpdateTagDto { ut_name : option string }.

Module TagService.

Definition getAllTags (db : Database) (skip take : JS.number)
  (search : option string) : Promise (Page TagEntity.t) :=
  try_catch_throw
    (return_await (TagRepository.getAll db skip take search))
    rethrow_bad_request.

Definition getTagById (db : Database) (id : Z) : Promise TagEntity.t :=
  try_catch_throw
    (await_in_try (TagRepository.findById db id) (fun tag =>
       match tag with
       | None => Throws (new_NotFoundException "TagEntity not found")
       | Some tag => return_value tag
       end))
    rethrow_bad_request.

Definition findAllDropdownData (db : Database) (fields : list string)
  (keyword : option string) : Promise (list TagEntity.t) :=
  try_catch_throw
    (return_ (TagRepository.findAllDropdown db fields keyword))
    rethrow_bad_request.

Definition createTag (db : Database) (createTagDto : CreateTagDto)
  : Promise TagEntity.Partial.t * Database :=
  let tag :=
    Repository_TagEntity.create
      (TagEntity.Partial.mk None (Some (ct_name createTagDto))) in
  let '(saved, db') := Repository_TagEntity.save db tag in
  (try_catch_throw (return_ saved) rethrow_bad_request, db').

Definition updateTag (db : Database) (id : Z) (updateTagDto : UpdateTagDto)
  : Promise TagEntity.Partial.t * Database :=
  let '(block, db') :=
    match getTagById db id with
    | Rejected e => (Throws e, db)
    | Resolved tag =>
        let updateData :=
          TagEntity.Partial.mk None (ut_name updateTagDto) in
        let tag :=
          Repository_TagEntity.merge (Repository_TagEntity.hydrate tag)
                                     updateData in
        let '(saved, db') := Repository_TagEntity.save db tag in
        (return_ saved, db')
    end in
  (try_catch_throw block rethrow_bad_request, db').

Definition deleteTag (db : Database) (id : Z) : Promise unit * Database :=
  let '(block, db') :=
    match getTagById db id with
    | Rejected e => (Throws e, db)
    | Resolved tag =>
        let '(removed, db') :=
          Repository_TagEntity.remove db (Repository_TagEntity.hydrate tag) in
        (await_in_try removed (fun _ => return_value tt), db')
    end in
  (try_catch_throw block rethrow_bad_request, db').

End TagService.

(** [UpdateBlogDto]: every property optional. *)
Record UpdateBlogDto : Type := mkUpdateBlogDto {
  ub_title : option string;
  ub_content : option string;
  ub_published : option bool
}.

(** [CreateBlogDto]: every property required. *)
Record CreateBlogDto : Type := mkCreateBlogDto {
  cb_title : string;
  cb_content : string;
  cb_published : bool
}.

Module BlogService.

Definition getAllBlogs (db : Database) (userId : Z) (skip take : JS.number)
  (search : option string) : Promise (Page BlogEntity.t) :=
  try_catch_throw
    (return_await (BlogRepository.getAll db userId skip take search))
    rethrow_bad_request.

Definition getBlogById (db : Database) (userId id : Z)
  : Promise BlogEntity.Partial.t :=
  try_catch_throw
    (await_in_try (BlogRepository.findById db userId id) (fun blog =>
       match blog with
       | None => Throws (new_NotFoundException "BlogEntity not found")
       | Some blog => return_value blog
       end))
    rethrow_bad_request.

Definition updateBlog (db : Database) (userId id : Z)
  (updateBlogDto : UpdateBlogDto)
  : Promise BlogEntity.Partial.t * Database :=
  let '(block, db') :=
    match getBlogById db userId id with
    | Rejected e => (Throws e, db)
    | Resolved blog =>
        let updateData :=
          BlogEntity.Partial.mk None
            (ub_title updateBlogDto)
            (ub_content updateBlogDto)
            (ub_published updateBlogDto)
            (Some (UserEntity.Partial.mk (Some userId))) in
        let blog := BlogRepository.merge blog updateData in
        let '(saved, db') := BlogRepository.save db blog in
        (return_ saved, db')
    end in
  (try_catch_throw block rethrow_bad_request, db').

Definition findAllDropdownData (db : Database) (userId : Z)
  (fields : list string) (keyword : option string)
  : Promise (list BlogEntity.t) :=
  try_catch_throw
    (return_ (BlogRepository.findAllDropdown db userId fields keyword))
    rethrow_bad_request.

Definition createBlog (db : Database) (userId : Z)
  (createBlogDto : CreateBlogDto)
  : Promise BlogEntity.Partial.t * Database :=
  let blog :=
    BlogRepository.create
      (BlogEntity.Partial.mk None
         (Some (cb_title createBlogDto))
         (Some (cb_content createBlogDto))
         (Some (cb_published createBlogDto))
         (Some (UserEntity.Partial.mk (Some userId)))) in
  let '(saved, db') := BlogRepository.save db blog in
  (try_catch_throw (return_ saved) rethrow_bad_request, db').

Definition deleteBlog (db : Database) (userId id : Z)
  : Promise unit * Database :=
  let '(block, db') :=
    match getBlogById db userId id with
    | Rejected e => (Throws e, db)
    | Resolved blog =>
        let '(removed, db') := BlogRepository.remove db blog in
        (await_in_try removed (fun _ => return_value tt), db')
    end in
  (try_catch_throw block rethrow_bad_request, db').

End BlogService.

(** [UpdateDraftDto]: every property optional. *)
Record UpdateDraftDto : Type := mkUpdateDraftDto {
  ud_blogId : option Z;
  ud_content : option string
}.

(** [CreateDraftDto]: every property required. *)
Record CreateDraftDto : Type := mkCreateDraftDto {
  cd_blogId : Z;
  cd_content : string
}.

Module DraftService.

Definition getAllDrafts (db : Database) (userId : Z) (skip take : JS.number)
  (search : option string) : Promise (Page DraftEntity.t) :=
  try_catch_throw
    (return_await (DraftRepository.getAll db userId skip take search))
    rethrow_bad_request.

Definition getDraftById (db : Database) (userId id : Z)
  : Promise DraftEntity.Partial.t :=
  try_catch_throw
    (await_in_try (DraftRepository.findById db userId id) (fun draft =>
       match draft with
       | None => Throws (new_NotFoundException "DraftEntity not found")
       | Some draft => return_value draft
       end))
    rethrow_bad_request.

Definition updateDraft (db : Database) (userId id : Z)
  (updateDraftDto : UpdateDraftDto)
  : Promise DraftEntity.Partial.t * Database :=
  let '(block, db') :=
    match getDraftById db userId id with
    | Rejected e => (Throws e, db)
    | Resolved draft =>
        let updateData :=
          DraftEntity.Partial.mk None
            (ud_content updateDraftDto)
            (Some (BlogEntity.Partial.mk (ud_blogId updateDraftDto)
                     None None None None))
            (Some (UserEntity.Partial.mk (Some userId))) in
        let draft := DraftRepository.merge draft updateData in
        let '(saved, db') := DraftRepository.save db draft in
        (return_ saved, db')
    end in
  (try_catch_throw block rethrow_bad_request, db').

Definition findAllDropdownData (db : Database) (userId : Z)
  (fields : list string) (keyword : option string)
  : Promise (list DraftEntity.t) :=
  try_catch_throw
    (return_ (DraftRepository.findAllDropdown db userId fields keyword))
    rethrow_bad_request.

Definition getDraftsByBlogId (db : Database) (userId blogId : Z)
  (skip take : JS.number) (search : option string)
  : Promise (Page DraftEntity.t) :=
  try_catch_throw
    (return_await
       (DraftRepository.getDraftsByBlogId db userId blogId skip take search))
    rethrow_bad_request.

Definition createDraft (db : Database) (userId : Z)
  (createDraftDto : CreateDraftDto)
  : Promise DraftEntity.Partial.t * Database :=
  let draft :=
    DraftRepository.create
      (DraftEntity.Partial.mk None
         (Some (cd_content createDraftDto))
         (Some (BlogEntity.Partial.mk (Some (cd_blogId createDraftDto))
                  None None None None))
         (Some (UserEntity.Partial.mk (Some userId)))) in
  let '(saved, db') := DraftRepository.save db draft in
  (try_catch_throw (return_ saved) rethrow_bad_request, db').

Definition deleteDraft (db : Database) (userId id : Z)
  : Promise unit * Database :=
  let '(block, db') :=
    match getDraftById db userId id with
    | Rejected e => (Throws e, db)
    | Resolved draft =>
        let '(removed, db') := DraftRepository.remove db draft in
        (await_in_try removed (fun _ => return_value tt), db')
    end in
  (try_catch_throw block rethrow_bad_request, db').

End DraftService.

Module CommentService.

Definition getCommentById (db : Database) (userId id : Z)
  : Promise CommentEntity.t :=
  try_catch_throw
    (await_in_try (CommentRepository.findById db userId id) (fun comment =>
       match comment with
       | None => Throws (new_NotFoundException "CommentEntity not found")
       | Some comment => return_value comment
       end))
    rethrow_bad_request.

End CommentService.


Module LikeService.

Definition getLikeById (db : Database) (userId id : Z)
  : Promise LikeEntity.t :=
  try_catch_throw
    (await_in_try (LikeRepository.findById db userId id) (fun like =>
       match like with
       | None => Throws (new_NotFoundException "LikeEntity not found")
       | Some like => return_value like
       end))
    rethrow_bad_request.


End LikeService.

(* ================================================================== *)
(** * Controllers *)
(* ================================================================== *)

(** A handler parameter [@Query(name) p = d]: the default when the query
    string has no such parameter, the parameter's text otherwise. *)
Definition query_default (q : option string) (d : Z) : JS.value :=
  match q with
  | None => JS.VNumber (JS.of_Z d)
  | Some s => JS.VString s
  end.

(** [s.split(',')] *)
Fixpoint split_comma (s : string) : list string :=
  match s with
  | EmptyString => [EmptyString]
  | String c r =>
      if Ascii.eqb c "," then EmptyString :: split_comma r
      else match split_comma r with
           | h :: t => String c h :: t
           | [] => [String c EmptyString]
           end
  end.

Module TagController.

(** [const pageNumber = Math.max(1, Number(page));] *)
Definition pageNumber (page : option string) : JS.number :=
  JS.Math_max (JS.of_Z 1) (JS.Number (query_default page 1)).

(** [const itemsPerPage = Math.max(1, Number(limit));] *)
Definition itemsPerPage (limit : option string) : JS.number :=
  JS.Math_max (JS.of_Z 1) (JS.Number (query_default limit 10)).

(** [const skip = (pageNumber - 1) * itemsPerPage;] *)
Definition skip (page limit : option string) : JS.number :=
  JS.mul (JS.sub (pageNumber page) (JS.of_Z 1)) (itemsPerPage limit).

Definition getAllTags (db : Database) (page limit search : option string)
  : Promise (Page TagEntity.t) :=
  TagService.getAllTags db (skip page limit) (itemsPerPage limit) search.

Definition getTagDropdownData (db : Database)
  (fields keyword : option string) : Promise (list TagEntity.t) :=
  let fieldArray :=
    if JS.truthy fields then split_comma (template fields)
    else ["id"; "name"] in
  TagService.findAllDropdownData db fieldArray keyword.

End TagController.

Module BlogController.

Definition getAllBlogs (db : Database) (req_user_userId : Z)
  (page limit search : option string) : Promise (Page BlogEntity.t) :=
  let pageNumber :=
    JS.Math_max (JS.of_Z 1) (JS.Number (query_default page 1)) in
  let itemsPerPage :=
    JS.Math_max (JS.of_Z 1) (JS.Number (query_default limit 10)) in
  let skip := JS.mul (JS.sub pageNumber (JS.of_Z 1)) itemsPerPage in
  BlogService.getAllBlogs db req_user_userId skip itemsPerPage search.

Definition getBlogDropdownData (db : Database) (req_user_userId : Z)
  (fields keyword : option string) : Promise (list BlogEntity.t) :=
  let fieldArray :=
    if JS.truthy fields then split_comma (template fields)
    else ["id"; "title"] in
  BlogService.findAllDropdownData db req_user_userId fieldArray keyword.

End BlogController.

(* ================================================================== *)
(** * Notions used by the statements *)
(* ================================================================== *)


(** LIMIT n / OFFSET n as printed: absent for zero. *)
Definition printed (n : nat) : option nat :=
  match n with O => None | S _ => Some n end.

(** The end of every list method: [take], [skip], [getManyAndCount]. *)
Definition paged (db : Database) (qb : TypeORM.SelectQueryBuilder)
  (skip take : JS.number) : Promise (list TypeORM.Row * nat) :=
  qb <- TypeORM.take take qb ;;
  qb <- TypeORM.skip skip qb ;;
  TypeORM.getManyAndCount db qb.

(** The WHERE clause of the tag list query on one row. *)
Definition tag_matches (eng : Engine) (search : option string)
  (t : TagEntity.t) : bool :=
  TypeORM.matches eng (TagRepository.getQueryBuilder ["name"] search)
                  [("tag", TypeORM.RTag t)].

(** The rows of the tag list query before LIMIT and OFFSET. *)
Definition tag_dataset (db : Database) (search : option string)
  : list TagEntity.t :=
  TypeORM.sort_by TagEntity.createdAt TypeORM.DESC
    (filter (tag_matches (engine db) search) (tags db)).

(** The builder of the tag list query before [take] and [skip]. *)
Definition tag_list_builder (search : option string)
  : TypeORM.SelectQueryBuilder :=
  TypeORM.select None
    (TypeORM.addSelect ["tag.createdAt"]
       (TypeORM.orderBy "tag.createdAt" TypeORM.DESC
          (TagRepository.getQueryBuilder ["name"] search))).

(** The fields the blog list query searches. *)
Definition blog_list_fields : list string := ["title"; "content"; "published"].

(** The WHERE clause of the blog list query on one row. *)
Definition blog_matches (eng : Engine) (userId : Z) (search : option string)
  (b : BlogEntity.t) : bool :=
  TypeORM.matches eng
    (BlogRepository.getQueryBuilder userId blog_list_fields search)
    [("blog", TypeORM.RBlog b)].

(** The rows of the blog list query before LIMIT and OFFSET. *)
Definition blog_dataset (db : Database) (userId : Z) (search : option string)
  : list BlogEntity.t :=
  TypeORM.sort_by BlogEntity.createdAt TypeORM.DESC
    (filter (blog_matches (engine db) userId search) (blogs db)).

(** The builder of the blog list query before [take] and [skip]. *)
Definition blog_list_builder (userId : Z) (search : option string)
  : TypeORM.SelectQueryBuilder :=
  TypeORM.select None
    (TypeORM.addSelect ["blog.createdAt"]
       (TypeORM.orderBy "blog.createdAt" TypeORM.DESC
          (BlogRepository.getQueryBuilder userId blog_list_fields search))).

(** The owner-scoped resources. *)
Inductive OwnedResource : Type := Blog | Draft | Comment | Like.

(** The stored records of an owner-scoped resource, each as its id and the
    user its ownership relation refers to. *)
Definition records (db : Database) (res : OwnedResource)
  : list (Z * option Z) :=
  match res with
  | Blog => map (fun b => (BlogEntity.id b, BlogEntity.author b)) (blogs db)
  | Draft =>
      map (fun d => (DraftEntity.id d, DraftEntity.createdBy d)) (drafts db)
  | Comment =>
      map (fun c => (CommentEntity.id c, CommentEntity.user c)) (comments db)
  | Like => map (fun l => (LikeEntity.id l, LikeEntity.user l)) (likes db)
  end.

(** What the caller of a service method observes of its promise. *)
Inductive Outcome : Type :=
| Data
| Raised (e : Error).

(** The observation of a settled promise. *)
Definition outcome {A : Type} (p : Promise A) : Outcome :=
  match p with
  | Resolved _ => Data
  | Rejected e => Raised e
  end.

(** The get-by-id method of the service of a resource. *)
Definition getById (db : Database) (res : OwnedResource) (userId id : Z)
  : Outcome :=
  match res with
  | Blog => outcome (BlogService.getBlogById db userId id)
  | Draft => outcome (DraftService.getDraftById db userId id)
  | Comment => outcome (CommentService.getCommentById db userId id)
  | Like => outcome (LikeService.getLikeById db userId id)
  end.

(** The message of the not-found condition of a resource. *)
Definition not_found_message (res : OwnedResource) : string :=
  match res with
  | Blog => "BlogEntity not found"
  | Draft => "DraftEntity not found"
  | Comment => "CommentEntity not found"
  | Like => "LikeEntity not found"
  end.

(** The stored blog with a given id. *)
Definition stored_blog (db : Database) (id : Z) : option BlogEntity.t :=
  find (fun b => BlogEntity.id b =? id) (blogs db).

(** The stored draft with a given id. *)
Definition stored_draft (db : Database) (id : Z) : option DraftEntity.t :=
  find (fun d => DraftEntity.id d =? id) (drafts db).

(** The promise is fulfilled. *)
Definition resolved {A : Type} (p : Promise A) : Prop :=
  exists a, p = Resolved a.


(** The callback the repositories pass to [fields.forEach]. *)
Definition search_callback (alias : string) (keyword : option string)
  (field : string) (index : nat) (qb : TypeORM.SelectQueryBuilder)
  : TypeORM.SelectQueryBuilder :=
  if Nat.eqb index 0
  then TypeORM.where_ (TypeORM.Like (alias ++ "." ++ field) "keyword")
                      (keyword_param keyword) qb
  else TypeORM.orWhere (TypeORM.Like (alias ++ "." ++ field) "keyword")
                       (keyword_param keyword) qb.

(** The clause [orWhere] adds for a field. *)
Definition or_like (alias : string) (field : string) : TypeORM.WhereClause :=
  (TypeORM.or_, TypeORM.Like (alias ++ "." ++ field) "keyword").

(** The WHERE clause of the tag dropdown query on one row. *)
Definition tag_dropdown_matches (eng : Engine) (fields : list string)
  (keyword : option string) (t : TagEntity.t) : bool :=
  TypeORM.matches eng (TagRepository.getQueryBuilder fields keyword)
                  [("tag", TypeORM.RTag t)].

(** A storage engine with a binary collation and the backslash as escape
    character of LIKE, which reads the rows of a statement without ORDER BY
    in table order. *)
Definition binary_engine : Engine :=
  mkEngine Ascii.eqb
           (Some (ascii_of_nat 92))
           (fun b => if b then "1" else "0")
           (fun t => NilZero.string_of_int (Z.to_int t))
           (fun _ _ _ => 0).

(** Two users: 1 (the caller in the examples) and 2. *)
Definition sample_db : Database :=
  mkDatabase binary_engine 100
    [TagEntity.mk 1 "Golang Basics" 10 10;
     TagEntity.mk 2 "Algorithms in Go" 20 20;
     TagEntity.mk 3 "Go" 30 30]
    [BlogEntity.mk 1 "Golang" "notes of user 2" false 10 10 (Some 2);
     BlogEntity.mk 2 "Mine" "text" true 20 20 (Some 1)]
    [DraftEntity.mk 1 "draft of user 2" 10 10 (Some 1) (Some 2);
     DraftEntity.mk 2 "draft of user 1" 20 20 (Some 2) (Some 1)]
    [CommentEntity.mk 1 "comment of user 2" 10 10 (Some 1) (Some 2)]
    [LikeEntity.mk 1 10 10 (Some 1) (Some 2)]
    [BlogTagEntity.mk 1 10 10 (Some 1) (Some 1);
     BlogTagEntity.mk 2 20 20 (Some 2) (Some 3)].

(** Seven tags, all matching the keyword "t". *)
Definition seven_tags : Database :=
  mkDatabase binary_engine 100
    (map (fun i => TagEntity.mk i "tag" i i) [1; 2; 3; 4; 5; 6; 7])
    [] [] [] [] [].


(** Every draft, like and blog tag that names a blog names a stored one. *)
Definition blog_references_hold (db : Database) : Prop :=
  (forall d, In d (drafts db) ->
             DraftRepository.blog_exists db (DraftEntity.blog d) = true)
  /\ (forall l, In l (likes db) ->
                DraftRepository.blog_exists db (LikeEntity.blog l) = true)
  /\ (forall bt, In bt (blogTags db) ->
                 DraftRepository.blog_exists db (BlogTagEntity.blog bt)
                 = true).

(** A natural number written in decimal, as in a query string. *)
Definition decimal (n : nat) : string :=
  NilEmpty.string_of_uint (Nat.to_uint n).

(** A decimal digit. *)
Definition is_dec (c : ascii) : bool :=
  (48 <=? nat_of_ascii c)%nat && (nat_of_ascii c <=? 57)%nat.

(** The caller's likes on stored blogs. *)
Definition own_like (db : Database) (userId : Z) (l : LikeEntity.t) : bool :=
  refers_to (LikeEntity.user l) userId
  && match LikeEntity.blog l with
     | Some k => DraftRepository.blog_exists db (Some k)
     | None => false
     end.


(** A number that is not negative: a finite one, or Infinity. *)
Definition not_negative (x : JS.number) : Prop :=
  x = JS.PosInf \/ exists r, x = JS.Fin r /\ (0 <= r)%Q.

(** The same database at another time. *)
Definition at_time (now : Z) (db : Database) : Database :=
  mkDatabase (engine db) now (tags db) (blogs db) (drafts db) (comments db)
             (likes db) (blogTags db).

(* ================================================================== *)
(** * Properties *)
(* ================================================================== *)

(** ** [Number] on sample texts *)

Example Number_examples :
  JS.StringToNumber "12" = JS.of_Z 12 /\
  JS.StringToNumber " 7 " = JS.of_Z 7 /\
  JS.StringToNumber EmptyString = JS.of_Z 0 /\
  JS.StringToNumber "-3" = JS.Fin (-3 # 1) /\
  JS.StringToNumber "1.5" = JS.Fin (3 # 2) /\
  JS.StringToNumber ".5e1" = JS.of_Z 5 /\
  JS.StringToNumber "1e2" = JS.of_Z 100 /\
  JS.StringToNumber "0x1f" = JS.of_Z 31 /\
  JS.StringToNumber "-Infinity" = JS.NegInf /\
  JS.StringToNumber "abc" = JS.NaN /\
  JS.StringToNumber "1e" = JS.NaN /\
  JS.StringToNumber "." = JS.NaN /\
  JS.StringToNumber "1 2" = JS.NaN /\
  JS.StringToNumber "-0x10" = JS.NaN.
Proof. vm_compute. repeat split. Qed.

(** ** Lists *)

Lemma filter_map_map {A B C : Type} (f : A -> B) (g : B -> option C) (l : list A) :
  TypeORM.filter_map g (map f l) = TypeORM.filter_map (fun a => g (f a)) l.
Proof.
  induction l as [|a l IH]; simpl; [reflexivity|].
  destruct (g (f a)); rewrite IH; reflexivity.
Qed.

Lemma filter_map_Some {A : Type} (l : list A) :
  TypeORM.filter_map (fun a => Some a) l = l.
Proof. induction l; simpl; congruence. Qed.

Lemma filter_map_total {A B : Type} (f : A -> B) (l : list A) :
  TypeORM.filter_map (fun a => Some (f a)) l = map f l.
Proof. induction l; simpl; congruence. Qed.

Lemma filter_map_ext {A B : Type} (f g : A -> option B) (l : list A) :
  (forall a, f a = g a) -> TypeORM.filter_map f l = TypeORM.filter_map g l.
Proof.
  intros E. induction l as [|a l IH]; simpl; [reflexivity|].
  rewrite E, IH. reflexivity.
Qed.

Lemma filter_map_In {A B : Type} (f : A -> option B) (l : list A) (b : B) :
  In b (TypeORM.filter_map f l) -> exists a, In a l /\ f a = Some b.
Proof.
  induction l as [|a l IH]; simpl; [tauto|].
  destruct (f a) eqn:E.
  - intros [<-|H]; [exists a; auto|].
    destruct (IH H) as (a' & Ha & Hf). exists a'; auto.
  - intros H. destruct (IH H) as (a' & Ha & Hf). exists a'; auto.
Qed.


Lemma filter_comp_map {A B : Type} (f : A -> B) (p : B -> bool) (l : list A) :
  filter p (map f l) = map f (filter (fun a => p (f a)) l).
Proof.
  induction l as [|a l IH]; simpl; [reflexivity|].
  destruct (p (f a)); simpl; rewrite IH; reflexivity.
Qed.

Lemma window_map {A B : Type} (f : A -> B) limit offset (l : list A) :
  TypeORM.window limit offset (map f l) = map f (TypeORM.window limit offset l).
Proof.
  unfold TypeORM.window.
  destruct offset, limit; rewrite ?skipn_map, ?firstn_map; reflexivity.
Qed.

Lemma firstn_incl {A : Type} n (l : list A) x : In x (firstn n l) -> In x l.
Proof.
  intros H. rewrite <- (firstn_skipn n l). apply in_or_app. left. exact H.
Qed.

Lemma skipn_incl {A : Type} n (l : list A) x : In x (skipn n l) -> In x l.
Proof.
  intros H. rewrite <- (firstn_skipn n l). apply in_or_app. right. exact H.
Qed.

Lemma window_In {A : Type} limit offset (l : list A) x :
  In x (TypeORM.window limit offset l) -> In x l.
Proof.
  unfold TypeORM.window. intros H.
  assert (In x (match offset with Some k => skipn k l | None => l end)) as H'.
  { destruct limit; [eapply firstn_incl; eauto | exact H]. }
  destruct offset; [eapply skipn_incl; eauto | exact H'].
Qed.


(** ** Sorting *)

Lemma insert_by_map {A B : Type} (f : A -> B) (key : B -> Z) o (x : A) (l : list A) :
  TypeORM.insert_by key o (f x) (map f l)
  = map f (TypeORM.insert_by (fun a => key (f a)) o x l).
Proof.
  induction l as [|y l IH]; simpl; [reflexivity|].
  destruct o; match goal with |- context [if ?c then _ else _] => destruct c end;
    simpl; rewrite ?IH; reflexivity.
Qed.

Lemma sort_by_map {A B : Type} (f : A -> B) (key : B -> Z) o (l : list A) :
  TypeORM.sort_by key o (map f l)
  = map f (TypeORM.sort_by (fun a => key (f a)) o l).
Proof.
  unfold TypeORM.sort_by.
  induction l as [|x l IH]; simpl; [reflexivity|].
  rewrite IH. apply insert_by_map.
Qed.

Lemma insert_by_perm {A : Type} (key : A -> Z) o (x : A) (l : list A) :
  Permutation (TypeORM.insert_by key o x l) (x :: l).
Proof.
  induction l as [|y l IH]; simpl; [reflexivity|].
  match goal with |- context [if ?c then _ else _] => destruct c end.
  - reflexivity.
  - rewrite IH. apply perm_swap.
Qed.

Lemma sort_by_perm {A : Type} (key : A -> Z) o (l : list A) :
  Permutation (TypeORM.sort_by key o l) l.
Proof.
  unfold TypeORM.sort_by.
  induction l as [|x l IH]; simpl; [reflexivity|].
  rewrite insert_by_perm. constructor. exact IH.
Qed.

Lemma sort_by_In {A : Type} (key : A -> Z) o (l : list A) x :
  In x (TypeORM.sort_by key o l) <-> In x l.
Proof.
  split; apply Permutation_in; [|symmetry]; apply sort_by_perm.
Qed.



(** ** Numbers *)

Lemma as_nat_of_nat (n : nat) : JS.as_nat (JS.of_nat n) = Some n.
Proof.
  unfold JS.as_nat, JS.of_nat, JS.of_Z, inject_Z. simpl Qnum. simpl Qden.
  rewrite Z.mod_1_r, Z.div_1_r, Nat2Z.id.
  replace (0 <=? Z.of_nat n) with true; [reflexivity|].
  symmetry. apply Z.leb_le. lia.
Qed.

Lemma isNaN_of_nat (n : nat) : JS.isNaN (JS.of_nat n) = false.
Proof. reflexivity. Qed.

Lemma row_count_of_nat (n : nat) :
  TypeORM.row_count (Some (JS.of_nat n)) = Some (printed n).
Proof.
  unfold TypeORM.row_count. rewrite as_nat_of_nat. destruct n; reflexivity.
Qed.

(** ** LIKE with a keyword free of wildcards is a prefix test *)

Lemma like_percent (ceq : ascii -> ascii -> bool) esc (s : string) :
  like ceq esc "%" s = true.
Proof.
  induction s as [|c s IH]; [reflexivity|].
  simpl in *. exact IH.
Qed.

Lemma like_prefix (ceq : ascii -> ascii -> bool) esc (k s : string) :
  no_wildcard esc k = true ->
  like ceq esc (k ++ "%") s = starts_with ceq k s.
Proof.
  revert s. induction k as [|a k IH]; intros s H.
  - apply like_percent.
  - simpl in H. apply andb_prop in H as [H Hk]. apply andb_prop in H as [H He].
    apply andb_prop in H as [Hp Hu].
    apply negb_true_iff in Hp, Hu, He.
    change (String a k ++ "%") with (String a (k ++ "%")).
    cbn [like starts_with]. rewrite Hp, Hu, He.
    destruct s as [|c s]; [reflexivity|].
    rewrite IH by assumption. reflexivity.
Qed.

(** ** Running a builder through take, skip and getManyAndCount *)

Lemma paged_resolves db qb scope (s t : nat) :
  TypeORM.scope_of qb = Some scope ->
  TypeORM.statement_ok qb scope = true ->
  paged db qb (JS.of_nat s) (JS.of_nat t)
  = Resolved
      (TypeORM.filter_map (TypeORM.main_row qb)
         (TypeORM.window (printed t) (printed s) (TypeORM.matching db qb)),
       length (TypeORM.matching db qb)).
Proof.
  intros Hs Hok.
  unfold paged, TypeORM.take, TypeORM.skip. rewrite !isNaN_of_nat.
  cbn [await].
  unfold TypeORM.getManyAndCount, TypeORM.getMany.
  change (TypeORM.scope_of _) with (TypeORM.scope_of qb). rewrite Hs.
  change (TypeORM.statement_ok _ scope) with (TypeORM.statement_ok qb scope).
  rewrite Hok.
  cbn [TypeORM.take_ TypeORM.skip_]. rewrite !row_count_of_nat.
  reflexivity.
Qed.

(** A builder without joins: each joined row is the main row alone. *)
Lemma joined_rows_no_join db qb :
  TypeORM.joinAttributes qb = [] ->
  TypeORM.joined_rows db qb
  = map (fun r => [(TypeORM.mainAlias qb, r)])
        (TypeORM.rows_of db (TypeORM.mainTable qb)).
Proof.
  intros H. unfold TypeORM.joined_rows. rewrite H.
  induction (TypeORM.rows_of db (TypeORM.mainTable qb)) as [|r l IH];
    [reflexivity|].
  simpl in *. rewrite IH. reflexivity.
Qed.

Lemma assoc_head {A : Type} (k : string) (v : A) l :
  TypeORM.assoc k ((k, v) :: l) = Some v.
Proof. simpl. rewrite String.eqb_refl. reflexivity. Qed.

(** ** The tag list query *)

Lemma tag_getAll_paged db skip take search :
  TagRepository.getAll db skip take search
  = (res <- paged db (tag_list_builder search) skip take ;;
     Resolved (mkPage (TypeORM.filter_map TagRepository.entity (fst res))
                      (snd res))).
Proof.
  unfold TagRepository.getAll, paged, tag_list_builder.
  destruct (TypeORM.take take _) as [qb|e]; [|reflexivity].
  cbn [await].
  destruct (TypeORM.skip skip qb) as [qb'|e]; reflexivity.
Qed.

Lemma tag_list_builder_ok search :
  TypeORM.scope_of (tag_list_builder search) = Some [("tag", TypeORM.Tags)]
  /\ TypeORM.statement_ok (tag_list_builder search) [("tag", TypeORM.Tags)]
     = true.
Proof.
  unfold tag_list_builder, TagRepository.getQueryBuilder.
  destruct (JS.truthy search); split; reflexivity.
Qed.

Lemma tag_matching db search :
  TypeORM.matching db (tag_list_builder search)
  = map (fun t => [("tag", TypeORM.RTag t)]) (tag_dataset db search).
Proof.
  unfold TypeORM.matching.
  rewrite joined_rows_no_join
    by (unfold tag_list_builder, TagRepository.getQueryBuilder;
        destruct (JS.truthy search); reflexivity).
  replace (TypeORM.mainTable (tag_list_builder search)) with TypeORM.Tags
    by (unfold tag_list_builder, TagRepository.getQueryBuilder;
        destruct (JS.truthy search); reflexivity).
  replace (TypeORM.mainAlias (tag_list_builder search)) with "tag"
    by (unfold tag_list_builder, TagRepository.getQueryBuilder;
        destruct (JS.truthy search); reflexivity).
  cbn [TypeORM.rows_of]. rewrite map_map.
  rewrite filter_comp_map.
  replace (TypeORM.ordered (engine db) (tag_list_builder search))
    with (TypeORM.sort_by
            (fun env => TypeORM.sort_key (TypeORM.value_of env "tag.createdAt"))
            TypeORM.DESC)
    by (unfold tag_list_builder, TagRepository.getQueryBuilder;
        destruct (JS.truthy search); reflexivity).
  rewrite sort_by_map.
  unfold tag_dataset, tag_matches, tag_list_builder,
    TagRepository.getQueryBuilder.
  destruct (JS.truthy search); reflexivity.
Qed.

Lemma tag_getAll_window db (s t : nat) search :
  TagRepository.getAll db (JS.of_nat s) (JS.of_nat t) search
  = Resolved
      (mkPage (TypeORM.window (printed t) (printed s) (tag_dataset db search))
              (length (tag_dataset db search))).
Proof.
  rewrite tag_getAll_paged.
  destruct (tag_list_builder_ok search) as [Hs Hok].
  rewrite (paged_resolves _ _ _ _ _ Hs Hok). cbn [await fst snd].
  rewrite tag_matching, length_map, window_map, !filter_map_map.
  rewrite (filter_map_ext _ (fun a => Some (TypeORM.RTag a))).
  - rewrite filter_map_total, filter_map_map. cbn [TagRepository.entity].
    rewrite filter_map_Some. reflexivity.
  - intros a. unfold tag_list_builder, TagRepository.getQueryBuilder.
    destruct (JS.truthy search); reflexivity.
Qed.

(** ** The blog list query *)

Lemma blog_getAll_paged db userId skip take search :
  BlogRepository.getAll db userId skip take search
  = (res <- paged db (blog_list_builder userId search) skip take ;;
     Resolved (mkPage (TypeORM.filter_map BlogRepository.entity (fst res))
                      (snd res))).
Proof.
  unfold BlogRepository.getAll, paged, blog_list_builder.
  destruct (TypeORM.take take _) as [qb|e]; [|reflexivity].
  cbn [await].
  destruct (TypeORM.skip skip qb) as [qb'|e]; reflexivity.
Qed.

Ltac blog_builder_cases search :=
  unfold blog_list_builder, BlogRepository.getQueryBuilder, blog_list_fields;
  destruct (JS.truthy search); reflexivity.

Lemma blog_list_builder_ok userId search :
  TypeORM.scope_of (blog_list_builder userId search)
  = Some [("blog", TypeORM.Blogs)]
  /\ TypeORM.statement_ok (blog_list_builder userId search)
       [("blog", TypeORM.Blogs)] = true.
Proof. split; blog_builder_cases search. Qed.

Lemma blog_matching db userId search :
  TypeORM.matching db (blog_list_builder userId search)
  = map (fun b => [("blog", TypeORM.RBlog b)]) (blog_dataset db userId search).
Proof.
  unfold TypeORM.matching.
  rewrite joined_rows_no_join by blog_builder_cases search.
  replace (TypeORM.mainTable (blog_list_builder userId search))
    with TypeORM.Blogs by blog_builder_cases search.
  replace (TypeORM.mainAlias (blog_list_builder userId search))
    with "blog" by blog_builder_cases search.
  cbn [TypeORM.rows_of]. rewrite map_map.
  rewrite filter_comp_map.
  replace (TypeORM.ordered (engine db) (blog_list_builder userId search))
    with (TypeORM.sort_by
            (fun env => TypeORM.sort_key (TypeORM.value_of env "blog.createdAt"))
            TypeORM.DESC)
    by blog_builder_cases search.
  rewrite sort_by_map.
  unfold blog_dataset, blog_matches, blog_list_builder,
    BlogRepository.getQueryBuilder, blog_list_fields.
  destruct (JS.truthy search); reflexivity.
Qed.

Lemma blog_getAll_window db userId (s t : nat) search :
  BlogRepository.getAll db userId (JS.of_nat s) (JS.of_nat t) search
  = Resolved
      (mkPage (TypeORM.window (printed t) (printed s)
                 (blog_dataset db userId search))
              (length (blog_dataset db userId search))).
Proof.
  rewrite blog_getAll_paged.
  destruct (blog_list_builder_ok userId search) as [Hs Hok].
  rewrite (paged_resolves _ _ _ _ _ Hs Hok). cbn [await fst snd].
  rewrite blog_matching, length_map, window_map, !filter_map_map.
  rewrite (filter_map_ext _ (fun a => Some (TypeORM.RBlog a))).
  - rewrite filter_map_total, filter_map_map. cbn [BlogRepository.entity].
    rewrite filter_map_Some. reflexivity.
  - intros a. blog_builder_cases search.
Qed.

(** ** Two consecutive pages *)






(** ** What every returned row satisfies *)

Lemma join_row_extends db joins :
  forall env env', TypeORM.join_row db joins env = Some env' ->
                   exists ext, env' = (env ++ ext)%list.
Proof.
  induction joins as [|[property alias] joins IH]; intros env env' H.
  - simpl in H. injection H as <-. exists []. symmetry. apply app_nil_r.
  - simpl in H.
    destruct (TypeORM.split_dot property) as [parent [rel|]]; [|discriminate].
    destruct (TypeORM.assoc parent env) as [r|]; [|discriminate].
    destruct (TypeORM.relation (TypeORM.table_of r) rel) as [[target fk]|];
      [|discriminate].
    destruct (TypeORM.cell r fk) as [[| k | | |]|]; try discriminate.
    destruct (find _ _) as [r'|]; [|discriminate].
    destruct (IH _ _ H) as [ext ->].
    exists ((alias, r') :: ext). rewrite <- app_assoc. reflexivity.
Qed.

Lemma joined_rows_main db qb env :
  In env (TypeORM.joined_rows db qb) ->
  exists r ext,
    In r (TypeORM.rows_of db (TypeORM.mainTable qb))
    /\ env = (TypeORM.mainAlias qb, r) :: ext.
Proof.
  unfold TypeORM.joined_rows. intros H.
  apply filter_map_In in H as (r & Hr & Hj).
  apply join_row_extends in Hj as [ext ->].
  exists r, ext. split; [exact Hr | reflexivity].
Qed.

Lemma ordered_In eng qb (l : list TypeORM.Env) env :
  In env (TypeORM.ordered eng qb l) -> In env l.
Proof.
  unfold TypeORM.ordered.
  destruct (TypeORM.orderBys qb) as [|[col o] ?]; apply sort_by_In.
Qed.

Lemma getMany_rows_match db qb rows :
  TypeORM.getMany db qb = Resolved rows ->
  forall r, In r rows ->
  exists ext,
    In r (TypeORM.rows_of db (TypeORM.mainTable qb))
    /\ TypeORM.matches (engine db) qb ((TypeORM.mainAlias qb, r) :: ext) = true.
Proof.
  unfold TypeORM.getMany. intros H r Hr.
  destruct (TypeORM.scope_of qb); [|discriminate].
  destruct (TypeORM.statement_ok qb _); [|discriminate].
  destruct (TypeORM.row_count (TypeORM.take_ qb)) as [limit|]; [|discriminate].
  destruct (TypeORM.row_count (TypeORM.skip_ qb)) as [offset|]; [|discriminate].
  injection H as <-.
  apply filter_map_In in Hr as (env & Henv & Hmain).
  apply window_In in Henv. unfold TypeORM.matching in Henv.
  apply ordered_In in Henv. apply filter_In in Henv as [Hj Hm].
  apply joined_rows_main in Hj as (r' & ext & Hr' & ->).
  unfold TypeORM.main_row in Hmain. rewrite assoc_head in Hmain.
  injection Hmain as <-.
  exists ext. split; assumption.
Qed.

Lemma getMany_window db qb rows :
  TypeORM.getMany db qb = Resolved rows ->
  exists scope limit offset,
    TypeORM.scope_of qb = Some scope
    /\ TypeORM.statement_ok qb scope = true
    /\ TypeORM.row_count (TypeORM.take_ qb) = Some limit
    /\ TypeORM.row_count (TypeORM.skip_ qb) = Some offset
    /\ rows = TypeORM.filter_map (TypeORM.main_row qb)
               (TypeORM.window limit offset (TypeORM.matching db qb)).
Proof.
  unfold TypeORM.getMany. intros H.
  destruct (TypeORM.scope_of qb) as [scope|]; [|discriminate].
  destruct (TypeORM.statement_ok qb scope) eqn:Hok; [|discriminate].
  destruct (TypeORM.row_count (TypeORM.take_ qb)) as [limit|]; [|discriminate].
  destruct (TypeORM.row_count (TypeORM.skip_ qb)) as [offset|]; [|discriminate].
  exists scope, limit, offset. injection H as <-. repeat split. exact Hok.
Qed.


(** Taking a window leaves the rest of the builder as it was. *)
Lemma paged_rows_match db qb skip take rows n :
  paged db qb skip take = Resolved (rows, n) ->
  forall r, In r rows ->
  exists ext,
    In r (TypeORM.rows_of db (TypeORM.mainTable qb))
    /\ TypeORM.matches (engine db) qb ((TypeORM.mainAlias qb, r) :: ext) = true.
Proof.
  unfold paged, TypeORM.take, TypeORM.skip. intros H r Hr.
  destruct (JS.isNaN take); [discriminate|]. cbn [await] in H.
  destruct (JS.isNaN skip); [discriminate|]. cbn [await] in H.
  unfold TypeORM.getManyAndCount in H.
  destruct (TypeORM.getMany db _) as [rows'|e] eqn:E; [|discriminate].
  cbn [await] in H. injection H as <- <-.
  exact (getMany_rows_match _ _ _ E r Hr).
Qed.

(** The entities of a page come from rows of the page. *)
Lemma page_rows {A : Type} (entity : TypeORM.Row -> option A) db qb skip take
  (page : Page A) :
  (res <- paged db qb skip take ;;
   Resolved (mkPage (TypeORM.filter_map entity (fst res)) (snd res)))
  = Resolved page ->
  forall x, In x (result page) ->
  exists r ext,
    entity r = Some x
    /\ In r (TypeORM.rows_of db (TypeORM.mainTable qb))
    /\ TypeORM.matches (engine db) qb ((TypeORM.mainAlias qb, r) :: ext) = true.
Proof.
  intros H x Hx.
  destruct (paged db qb skip take) as [[rows n]|e] eqn:E; [|discriminate].
  cbn [await fst snd] in H. injection H as <-. cbn [result] in Hx.
  apply filter_map_In in Hx as (r & Hr & He).
  destruct (paged_rows_match _ _ _ _ _ _ E r Hr) as (ext & Hin & Hm).
  exists r, ext. auto.
Qed.

(** ** Queries by parent id *)

Lemma paged_assoc {B : Type} db qb skip take
  (k : list TypeORM.Row * nat -> Promise B) :
  (qb1 <- TypeORM.take take qb ;;
   qb2 <- TypeORM.skip skip qb1 ;;
   res <- TypeORM.getManyAndCount db qb2 ;;
   k res)
  = (res <- paged db qb skip take ;; k res).
Proof.
  unfold paged.
  destruct (TypeORM.take take qb) as [qb1|e]; [|reflexivity]. cbn [await].
  destruct (TypeORM.skip skip qb1) as [qb2|e]; reflexivity.
Qed.

Lemma sql_equals_ref fk k :
  TypeORM.sql_equals (TypeORM.ref fk) (SInt k) = true -> fk = Some k.
Proof.
  destruct fk as [k'|]; simpl; [|discriminate].
  intros H. apply Z.eqb_eq in H. congruence.
Qed.

Lemma blogTags_by_blog db blogId skip take search page :
  BlogTagRepository.getBlogTagsByBlogId db blogId skip take search
  = Resolved page ->
  forall x, In x (result page) -> BlogTagEntity.blog x = Some blogId.
Proof.
  unfold BlogTagRepository.getBlogTagsByBlogId. intros H x Hx.
  rewrite paged_assoc in H.
  destruct (page_rows _ _ _ _ _ _ H x Hx) as (r & ext & He & _ & Hm). clear H.
  destruct r; try discriminate. injection He as ->.
  destruct (JS.truthy search); cbn in Hm.
  - apply andb_prop in Hm as [Hm _]. exact (sql_equals_ref _ _ Hm).
  - exact (sql_equals_ref _ _ Hm).
Qed.

Lemma blogTags_by_tag db tagId skip take search page :
  BlogTagRepository.getBlogTagsByTagId db tagId skip take search
  = Resolved page ->
  forall x, In x (result page) -> BlogTagEntity.tag x = Some tagId.
Proof.
  unfold BlogTagRepository.getBlogTagsByTagId. intros H x Hx.
  rewrite paged_assoc in H.
  destruct (page_rows _ _ _ _ _ _ H x Hx) as (r & ext & He & _ & Hm). clear H.
  destruct r; try discriminate. injection He as ->.
  destruct (JS.truthy search); cbn in Hm.
  - apply andb_prop in Hm as [Hm _]. exact (sql_equals_ref _ _ Hm).
  - exact (sql_equals_ref _ _ Hm).
Qed.

Lemma drafts_by_blog db userId blogId skip take search page :
  DraftRepository.getDraftsByBlogId db userId blogId skip take search
  = Resolved page ->
  forall x, In x (result page) ->
            DraftEntity.blog x = Some blogId
            /\ DraftEntity.createdBy x = Some userId.
Proof.
  unfold DraftRepository.getDraftsByBlogId. intros H x Hx.
  rewrite paged_assoc in H.
  destruct (page_rows _ _ _ _ _ _ H x Hx) as (r & ext & He & _ & Hm). clear H.
  destruct r; try discriminate. injection He as ->.
  destruct (JS.truthy search); cbn in Hm.
  - apply andb_prop in Hm as [Hm _]. apply andb_prop in Hm as [Hu Hb].
    split; apply sql_equals_ref; assumption.
  - apply andb_prop in Hm as [Hu Hb].
    split; apply sql_equals_ref; assumption.
Qed.

Lemma comments_by_blog db userId blogId skip take search page :
  CommentRepository.getCommentsByBlogId db userId blogId skip take search
  = Resolved page ->
  forall x, In x (result page) ->
            CommentEntity.blog x = Some blogId
            /\ CommentEntity.user x = Some userId.
Proof.
  unfold CommentRepository.getCommentsByBlogId. intros H x Hx.
  rewrite paged_assoc in H.
  destruct (page_rows _ _ _ _ _ _ H x Hx) as (r & ext & He & _ & Hm). clear H.
  destruct r; try discriminate. injection He as ->.
  destruct (JS.truthy search); cbn in Hm.
  - apply andb_prop in Hm as [Hm _]. apply andb_prop in Hm as [Hu Hb].
    split; apply sql_equals_ref; assumption.
  - apply andb_prop in Hm as [Hu Hb].
    split; apply sql_equals_ref; assumption.
Qed.

Lemma likes_by_blog db userId blogId skip take search page :
  LikeRepository.getLikesByBlogId db userId blogId skip take search
  = Resolved page ->
  forall x, In x (result page) ->
            LikeEntity.blog x = Some blogId
            /\ LikeEntity.user x = Some userId.
Proof.
  unfold LikeRepository.getLikesByBlogId. intros H x Hx.
  rewrite paged_assoc in H.
  destruct (page_rows _ _ _ _ _ _ H x Hx) as (r & ext & He & _ & Hm). clear H.
  destruct r; try discriminate. injection He as ->.
  destruct (JS.truthy search); cbn in Hm.
  - apply andb_prop in Hm as [Hm _]. apply andb_prop in Hm as [Hu Hb].
    split; apply sql_equals_ref; assumption.
  - apply andb_prop in Hm as [Hu Hb].
    split; apply sql_equals_ref; assumption.
Qed.

(** ** Dropdown queries *)


(** ** Lookups by id *)

Lemma find_all_false {A : Type} (f : A -> bool) (l : list A) :
  (forall x, In x l -> f x = false) -> find f l = None.
Proof.
  induction l as [|a l IH]; intros H; [reflexivity|].
  simpl. rewrite (H a (or_introl eq_refl)). apply IH.
  intros x Hx. apply H. right. exact Hx.
Qed.

Lemma refers_to_spec fk k : refers_to fk k = true <-> fk = Some k.
Proof.
  destruct fk as [k'|]; simpl.
  - rewrite Z.eqb_eq. split; congruence.
  - split; discriminate.
Qed.

Lemma refers_to_other fk k : fk <> Some k -> refers_to fk k = false.
Proof.
  intros H. destruct (refers_to fk k) eqn:E; [|reflexivity].
  apply refers_to_spec in E. contradiction.
Qed.

Lemma scoped_find_none {A : Type} (idf : A -> Z) (owner : A -> option Z)
  (l : list A) (u i : Z) :
  (forall o, In (i, o) (map (fun a => (idf a, owner a)) l) -> o <> Some u) ->
  find (fun a => (idf a =? i) && refers_to (owner a) u) l = None.
Proof.
  intros H. apply find_all_false. intros a Ha.
  destruct (idf a =? i) eqn:E; [|reflexivity]. simpl.
  apply refers_to_other. apply H.
  apply Z.eqb_eq in E. rewrite <- E.
  apply (in_map (fun a => (idf a, owner a))). exact Ha.
Qed.

Lemma getById_none db res u i :
  (forall o, In (i, o) (records db res) -> o <> Some u) ->
  getById db res u i
  = Raised (new_BadRequestException (not_found_message res) None).
Proof.
  intros H. destruct res; simpl in H; apply scoped_find_none in H;
    unfold getById.
  - unfold BlogService.getBlogById, BlogRepository.findById,
      BlogRepository.findRow. rewrite H. reflexivity.
  - unfold DraftService.getDraftById, DraftRepository.findById,
      DraftRepository.findRow. rewrite H. reflexivity.
  - unfold CommentService.getCommentById, CommentRepository.findById,
      CommentRepository.findRow. rewrite H. reflexivity.
  - unfold LikeService.getLikeById, LikeRepository.findById,
      LikeRepository.findRow. rewrite H. reflexivity.
Qed.

(** ** Updates *)

Lemma find_unique {A : Type} (idf : A -> Z) (l : list A) (x : A) :
  NoDup (map idf l) -> In x l ->
  find (fun a => idf a =? idf x) l = Some x.
Proof.
  induction l as [|a l IH]; intros Hnd Hx; [contradiction|].
  simpl in *. inversion Hnd as [|? ? Hnotin Hnd']; subst.
  destruct Hx as [->|Hx].
  - rewrite Z.eqb_refl. reflexivity.
  - destruct (idf a =? idf x) eqn:E.
    + apply Z.eqb_eq in E. exfalso. apply Hnotin. rewrite E.
      apply in_map. exact Hx.
    + apply IH; assumption.
Qed.

Lemma find_map_update {A : Type} (idf : A -> Z) (f : A -> A) (i j : Z)
  (l : list A) :
  (forall a, idf (f a) = idf a) ->
  find (fun a => idf a =? j) (map (fun a => if idf a =? i then f a else a) l)
  = option_map (fun a => if idf a =? i then f a else a)
               (find (fun a => idf a =? j) l).
Proof.
  intros Hf. induction l as [|a l IH]; [reflexivity|].
  simpl. destruct (idf a =? i) eqn:Ei.
  - rewrite Hf. destruct (idf a =? j); simpl; [rewrite Ei; reflexivity|].
    exact IH.
  - destruct (idf a =? j); simpl; [rewrite Ei; reflexivity|]. exact IH.
Qed.

Lemma find_map_update_other {A : Type} (idf : A -> Z) (f : A -> A) (i j : Z)
  (l : list A) :
  (forall a, idf (f a) = idf a) -> j <> i ->
  find (fun a => idf a =? j) (map (fun a => if idf a =? i then f a else a) l)
  = find (fun a => idf a =? j) l.
Proof.
  intros Hf Hji. rewrite find_map_update by exact Hf.
  destruct (find _ l) as [a|] eqn:E; [|reflexivity].
  apply find_some in E as [_ E]. apply Z.eqb_eq in E. simpl.
  replace (idf a =? i) with false; [reflexivity|].
  symmetry. apply Z.eqb_neq. congruence.
Qed.

Lemma option_Z_eqb_eq a b : option_Z_eqb a b = true -> a = b.
Proof.
  destruct a, b; simpl; try discriminate; try reflexivity.
  intros H. apply Z.eqb_eq in H. congruence.
Qed.

Lemma blog_same_columns a b :
  BlogRepository.same_columns a b = true ->
  BlogEntity.title a = BlogEntity.title b
  /\ BlogEntity.content a = BlogEntity.content b
  /\ BlogEntity.published a = BlogEntity.published b
  /\ BlogEntity.author a = BlogEntity.author b.
Proof.
  unfold BlogRepository.same_columns. intros H.
  apply andb_prop in H as [H Ha]. apply andb_prop in H as [H Hp].
  apply andb_prop in H as [Ht Hc].
  apply String.eqb_eq in Ht, Hc. apply Bool.eqb_prop in Hp.
  apply option_Z_eqb_eq in Ha. auto.
Qed.

(** What [updateBlog] asks [save] to write over the row [old]. *)
Lemma blog_persist_merge old userId dto :
  BlogEntity.author old = Some userId ->
  let updated :=
    BlogRepository.persist old
      (BlogRepository.merge (BlogRepository.hydrate old)
         (BlogEntity.Partial.mk None (ub_title dto) (ub_content dto)
            (ub_published dto)
            (Some (UserEntity.Partial.mk (Some userId))))) in
  BlogEntity.id updated = BlogEntity.id old
  /\ BlogEntity.title updated = or_else (ub_title dto) (BlogEntity.title old)
  /\ BlogEntity.content updated
     = or_else (ub_content dto) (BlogEntity.content old)
  /\ BlogEntity.published updated
     = or_else (ub_published dto) (BlogEntity.published old)
  /\ BlogEntity.createdAt updated = BlogEntity.createdAt old
  /\ BlogEntity.author updated = BlogEntity.author old.
Proof.
  intros Ha. destruct dto as [[t|] [c|] [p|]]; cbn; rewrite Ha; repeat split.
Qed.

Lemma updateBlog_found db userId id dto old :
  NoDup (map BlogEntity.id (blogs db)) ->
  BlogRepository.findRow db userId id = Some old ->
  exists e new,
    fst (BlogService.updateBlog db userId id dto) = Resolved e
    /\ stored_blog (snd (BlogService.updateBlog db userId id dto)) id
       = Some new
    /\ BlogEntity.id new = BlogEntity.id old
    /\ BlogEntity.title new = or_else (ub_title dto) (BlogEntity.title old)
    /\ BlogEntity.content new
       = or_else (ub_content dto) (BlogEntity.content old)
    /\ BlogEntity.published new
       = or_else (ub_published dto) (BlogEntity.published old)
    /\ BlogEntity.createdAt new = BlogEntity.createdAt old
    /\ BlogEntity.author new = BlogEntity.author old
    /\ (forall j, j <> id ->
          stored_blog (snd (BlogService.updateBlog db userId id dto)) j
          = stored_blog db j).
Proof.
  intros Hnd Hfind.
  pose proof Hfind as Hrow. unfold BlogRepository.findRow in Hrow.
  apply find_some in Hrow as [Hin Hp]. apply andb_prop in Hp as [Hid Hown].
  apply Z.eqb_eq in Hid. apply refers_to_spec in Hown.
  pose proof (find_unique BlogEntity.id _ _ Hnd Hin) as Hst.
  destruct (blog_persist_merge old userId dto Hown)
    as (Pid & Pt & Pc & Pp & Pca & Pa).
  unfold BlogService.updateBlog, BlogService.getBlogById,
    BlogRepository.findById.
  rewrite Hfind.
  cbn [option_map await_in_try return_value try_catch_throw].
  unfold BlogRepository.save.
  cbn [BlogRepository.merge BlogEntity.Partial.merge BlogEntity.Partial.id
       BlogRepository.hydrate merge_column].
  rewrite Hst.
  match goal with
  | |- context [BlogRepository.same_columns old ?r] =>
      change r with
        (BlogRepository.persist old
           (BlogRepository.merge (BlogRepository.hydrate old)
              (BlogEntity.Partial.mk None (ub_title dto) (ub_content dto)
                 (ub_published dto)
                 (Some (UserEntity.Partial.mk (Some userId))))));
      destruct (BlogRepository.same_columns old r) eqn:Esame
  end.
  - apply blog_same_columns in Esame as (St & Sc & Sp & Sa).
    cbn [return_ try_catch_throw fst snd]. eexists. exists old.
    split; [reflexivity|]. split.
    { unfold stored_blog. rewrite <- Hid. exact Hst. }
    repeat split; try congruence.
  - cbn [return_ try_catch_throw fst snd]. eexists. eexists.
    split; [reflexivity|]. split.
    { unfold stored_blog, BlogRepository.with_blogs. cbn [blogs].
      rewrite (find_map_update BlogEntity.id) by reflexivity.
      rewrite <- Hid, Hst. cbn [option_map]. rewrite Z.eqb_refl.
      reflexivity. }
    cbn [BlogRepository.touch BlogEntity.id BlogEntity.title
         BlogEntity.content BlogEntity.published BlogEntity.createdAt
         BlogEntity.author].
    repeat split; try assumption.
    intros j Hj. unfold stored_blog, BlogRepository.with_blogs. cbn [blogs].
    apply (find_map_update_other BlogEntity.id); [reflexivity | congruence].
Qed.

Lemma updateBlog_missing db userId id dto :
  BlogRepository.findRow db userId id = None ->
  BlogService.updateBlog db userId id dto
  = (Rejected (new_BadRequestException "BlogEntity not found" None), db).
Proof.
  intros H. unfold BlogService.updateBlog, BlogService.getBlogById,
    BlogRepository.findById. rewrite H. reflexivity.
Qed.

Lemma option_Z_eqb_refl a : option_Z_eqb a a = true.
Proof. destruct a; simpl; [apply Z.eqb_refl | reflexivity]. Qed.

Lemma draft_same_columns a b :
  DraftRepository.same_columns a b = true ->
  DraftEntity.content a = DraftEntity.content b
  /\ DraftEntity.blog a = DraftEntity.blog b
  /\ DraftEntity.createdBy a = DraftEntity.createdBy b.
Proof.
  unfold DraftRepository.same_columns. intros H.
  apply andb_prop in H as [H Hu]. apply andb_prop in H as [Hc Hb].
  apply String.eqb_eq in Hc. apply option_Z_eqb_eq in Hb, Hu. auto.
Qed.

(** The blog a draft was loaded with carries the id the draft stores. *)
Lemma hydrated_blog_id db old :
  match DraftEntity.Partial.blog (DraftRepository.hydrate db old) with
  | Some b => BlogEntity.Partial.id b = DraftEntity.blog old
  | None => True
  end.
Proof.
  unfold DraftRepository.hydrate. cbn [DraftEntity.Partial.blog].
  destruct (DraftEntity.blog old) as [k|]; [|exact I].
  destruct (find _ (blogs db)) as [b|] eqn:E; [|exact I].
  apply find_some in E as [_ E]. apply Z.eqb_eq in E.
  cbn. congruence.
Qed.

(** What [updateDraft] asks [save] to write over the row [old]. *)
Lemma draft_persist_merge db old userId dto :
  DraftEntity.createdBy old = Some userId ->
  let updated :=
    DraftRepository.persist old
      (DraftRepository.merge (DraftRepository.hydrate db old)
         (DraftEntity.Partial.mk None (ud_content dto)
            (Some (BlogEntity.Partial.mk (ud_blogId dto) None None None None))
            (Some (UserEntity.Partial.mk (Some userId))))) in
  DraftEntity.id updated = DraftEntity.id old
  /\ DraftEntity.content updated
     = or_else (ud_content dto) (DraftEntity.content old)
  /\ DraftEntity.blog updated
     = match ud_blogId dto with
       | Some b => Some b
       | None => DraftEntity.blog old
       end
  /\ DraftEntity.createdAt updated = DraftEntity.createdAt old
  /\ DraftEntity.createdBy updated = DraftEntity.createdBy old.
Proof.
  intros Hu. pose proof (hydrated_blog_id db old) as Hb.
  unfold DraftRepository.merge, DraftEntity.Partial.merge,
    DraftRepository.persist.
  destruct (DraftEntity.Partial.blog (DraftRepository.hydrate db old))
    as [hb|] eqn:E.
  - destruct hb as [hid ht hc hp ha]. cbn in Hb. subst hid.
    destruct dto as [[b|] [c|]]; cbn; rewrite Hu; repeat split;
      destruct (DraftEntity.blog old); reflexivity.
  - destruct dto as [[b|] [c|]]; cbn; rewrite Hu; repeat split.
Qed.

Lemma updateDraft_found db userId id dto old :
  NoDup (map DraftEntity.id (drafts db)) ->
  DraftRepository.findRow db userId id = Some old ->
  let r := DraftService.updateDraft db userId id dto in
  exists new,
    stored_draft (snd r) id = Some new
    /\ DraftEntity.id new = DraftEntity.id old
    /\ DraftEntity.createdAt new = DraftEntity.createdAt old
    /\ DraftEntity.createdBy new = DraftEntity.createdBy old
    /\ (ud_content dto = None ->
        DraftEntity.content new = DraftEntity.content old)
    /\ (ud_blogId dto = None -> DraftEntity.blog new = DraftEntity.blog old)
    /\ (resolved (fst r) ->
        DraftEntity.content new
        = or_else (ud_content dto) (DraftEntity.content old)
        /\ DraftEntity.blog new
           = match ud_blogId dto with
             | Some b => Some b
             | None => DraftEntity.blog old
             end)
    /\ (ud_blogId dto = None -> resolved (fst r))
    /\ (forall j, j <> id -> stored_draft (snd r) j = stored_draft db j).
Proof.
  intros Hnd Hfind.
  pose proof Hfind as Hrow. unfold DraftRepository.findRow in Hrow.
  apply find_some in Hrow as [Hin Hp]. apply andb_prop in Hp as [Hid Hown].
  apply Z.eqb_eq in Hid. apply refers_to_spec in Hown.
  pose proof (find_unique DraftEntity.id _ _ Hnd Hin) as Hst.
  destruct (draft_persist_merge db old userId dto Hown)
    as (Pid & Pc & Pb & Pca & Pu).
  unfold DraftService.updateDraft, DraftService.getDraftById,
    DraftRepository.findById.
  rewrite Hfind.
  cbn [option_map await_in_try return_value try_catch_throw].
  unfold DraftRepository.save.
  replace (DraftEntity.Partial.id (DraftRepository.merge _ _))
    with (Some (DraftEntity.id old)) by reflexivity.
  rewrite Hst.
  set (row' := DraftRepository.persist old _) in *.
  destruct (DraftRepository.same_columns old row') eqn:Esame.
  - apply draft_same_columns in Esame as (Sc & Sb & Su).
    cbn [return_ try_catch_throw fst snd]. exists old.
    split; [unfold stored_draft; rewrite <- Hid; exact Hst|].
    repeat split; try congruence.
    intros _. eexists. reflexivity.
  - destruct (option_Z_eqb (DraftEntity.blog old) (DraftEntity.blog row')
              || DraftRepository.blog_exists db (DraftEntity.blog row'))
      eqn:Efk.
    + cbn [return_ try_catch_throw fst snd]. eexists.
      split.
      { unfold stored_draft, DraftRepository.with_drafts. cbn [drafts].
        rewrite (find_map_update DraftEntity.id) by reflexivity.
        rewrite <- Hid, Hst. cbn [option_map]. rewrite Z.eqb_refl.
        reflexivity. }
      cbn [DraftRepository.touch DraftEntity.id DraftEntity.content
           DraftEntity.createdAt DraftEntity.blog DraftEntity.createdBy].
      fold row'.
      repeat split; try assumption;
        try solve [intros E; rewrite ?Pc, ?Pb, E; reflexivity];
        try solve [intros _; eexists; reflexivity].
      intros j Hj. unfold stored_draft, DraftRepository.with_drafts.
        cbn [drafts].
        apply (find_map_update_other DraftEntity.id);
          [reflexivity | congruence].
    + cbn [return_ try_catch_throw fst snd]. exists old.
      split; [unfold stored_draft; rewrite <- Hid; exact Hst|].
      repeat split; try reflexivity;
        try match goal with
            | H : resolved (Rejected _) |- _ => destruct H; discriminate
            end.
      intros E. exfalso. rewrite Pb, E, option_Z_eqb_refl in Efk.
        discriminate.
Qed.

Lemma updateDraft_missing db userId id dto :
  DraftRepository.findRow db userId id = None ->
  DraftService.updateDraft db userId id dto
  = (Rejected (new_BadRequestException "DraftEntity not found" None), db).
Proof.
  intros H. unfold DraftService.updateDraft, DraftService.getDraftById,
    DraftRepository.findById. rewrite H. reflexivity.
Qed.

(** ** The keyword conditions *)

Lemma repeat_shift {A : Type} (x : A) (n : nat) (l : list A) :
  (repeat x n ++ x :: l)%list = x :: (repeat x n ++ l)%list.
Proof. induction n as [|n IH]; simpl; [reflexivity|]. rewrite IH. reflexivity. Qed.

Lemma forEach_orWhere alias keyword fields :
  forall n qb,
    forEach (search_callback alias keyword) fields (S n) qb
    = TypeORM.mkQB (TypeORM.mainTable qb) (TypeORM.mainAlias qb)
        (TypeORM.joinAttributes qb)
        (TypeORM.wheres qb ++ map (or_like alias) fields)
        (repeat ("keyword", SText (template keyword ++ "%")) (length fields)
         ++ TypeORM.parameters qb)
        (TypeORM.selects qb) (TypeORM.orderBys qb) (TypeORM.take_ qb)
        (TypeORM.skip_ qb).
Proof.
  induction fields as [|f fields IH]; intros n qb.
  - simpl. rewrite app_nil_r. destruct qb; reflexivity.
  - cbn [forEach]. rewrite IH.
    cbn. rewrite <- app_assoc, repeat_shift. reflexivity.
Qed.

Lemma forEach_where alias keyword f fields qb :
  forEach (search_callback alias keyword) (f :: fields) 0%nat qb
  = TypeORM.mkQB (TypeORM.mainTable qb) (TypeORM.mainAlias qb)
      (TypeORM.joinAttributes qb)
      ((TypeORM.simple, TypeORM.Like (alias ++ "." ++ f) "keyword")
       :: map (or_like alias) fields)
      (repeat ("keyword", SText (template keyword ++ "%")) (length fields)
       ++ ("keyword", SText (template keyword ++ "%"))
       :: TypeORM.parameters qb)
      (TypeORM.selects qb) (TypeORM.orderBys qb) (TypeORM.take_ qb)
      (TypeORM.skip_ qb).
Proof. cbn [forEach]. rewrite forEach_orWhere. reflexivity. Qed.

Lemma param_of_keyword v n ps :
  TypeORM.param_of (repeat ("keyword", v) n ++ ("keyword", v) :: ps)%list
                   "keyword" = v.
Proof. unfold TypeORM.param_of. destruct n; reflexivity. Qed.




Lemma truthy_nonempty c k : JS.truthy (Some (String c k)) = true.
Proof. reflexivity. Qed.



(** ** The tag dropdown query *)


Lemma tag_findAllDropdown_rows db fields keyword rows :
  TagRepository.findAllDropdown db fields keyword = Resolved rows ->
  (exists l,
      Permutation l (filter (tag_dropdown_matches (engine db) fields keyword)
                            (tags db))
      /\ rows = firstn 5 l)
  /\ forallb (fun f => existsb (String.eqb f) (TypeORM.columns TypeORM.Tags))
             fields = true.
Proof.
  unfold TagRepository.findAllDropdown.
  cbn [TypeORM.take JS.isNaN JS.of_Z await].
  set (qb := TypeORM.mkQB _ _ _ _ _ _ _ _ _).
  assert (Hqb : TypeORM.mainTable qb = TypeORM.Tags
                /\ TypeORM.mainAlias qb = "tag"
                /\ TypeORM.joinAttributes qb = []
                /\ TypeORM.orderBys qb = []
                /\ TypeORM.take_ qb = Some (JS.of_Z 5)
                /\ TypeORM.skip_ qb = None
                /\ TypeORM.selects qb = map (fun f => "tag." ++ f) fields
                /\ (forall t, tag_dropdown_matches (engine db) fields keyword t
                    = TypeORM.matches (engine db) qb
                        [("tag", TypeORM.RTag t)])).
  { subst qb. unfold tag_dropdown_matches, TagRepository.getQueryBuilder.
    destruct (JS.truthy keyword); [|repeat split].
    destruct fields as [|f fields]; [repeat split|].
    change (forEach _ (f :: fields) 0%nat ?q)
      with (forEach (search_callback "tag" keyword) (f :: fields) 0%nat q).
    rewrite forEach_where. repeat split. }
  destruct Hqb as (Ht & Ha & Hj & Ho & Htk & Hsk & Hsel & Hm).
  destruct (TypeORM.getMany db qb) as [rs|e] eqn:E; [|discriminate].
  cbn [await]. intros H. injection H as <-.
  apply getMany_window in E
    as (scope & limit & offset & Hs & Hok & Hl & Hoff & ->).
  rewrite Htk in Hl. rewrite Hsk in Hoff.
  change (TypeORM.row_count (Some (JS.of_Z 5))) with (Some (Some 5%nat)) in Hl.
  change (TypeORM.row_count None) with (Some (@None nat)) in Hoff.
  injection Hl as <-. injection Hoff as <-.
  unfold TypeORM.scope_of in Hs. rewrite Hj, Ht, Ha in Hs.
  cbn [TypeORM.join_scope] in Hs. injection Hs as <-.
  split.
  - assert (Hrows :
        TypeORM.filter_map TagRepository.entity
          (TypeORM.filter_map (TypeORM.main_row qb)
             (TypeORM.window (Some 5%nat) None (TypeORM.matching db qb)))
        = firstn 5
            (TypeORM.sort_by
               (fun t =>
                  scan_rank (engine db) (TypeORM.statement_columns qb)
                    (TypeORM.parameters qb)
                    (TypeORM.env_cells [("tag", TypeORM.RTag t)]))
               TypeORM.ASC
               (filter (tag_dropdown_matches (engine db) fields keyword)
                       (tags db)))).
    { unfold TypeORM.matching, TypeORM.ordered. rewrite Ho.
      rewrite joined_rows_no_join by exact Hj. rewrite Ht, Ha.
      cbn [TypeORM.rows_of]. rewrite map_map, filter_comp_map.
      rewrite sort_by_map, window_map, filter_map_map.
      unfold TypeORM.main_row. rewrite Ha.
      rewrite (filter_map_ext _ (fun a => Some (TypeORM.RTag a)))
        by (intros a; apply assoc_head).
      rewrite filter_map_total, filter_map_map. cbn [TagRepository.entity].
      rewrite filter_map_Some. unfold TypeORM.window.
      rewrite (filter_ext _ (tag_dropdown_matches (engine db) fields keyword))
        by (intros t; symmetry; apply Hm).
      reflexivity. }
    rewrite Hrows. eexists. split; [apply sort_by_perm | reflexivity].
  - unfold TypeORM.statement_ok in Hok.
    apply andb_prop in Hok as [Hok _]. apply andb_prop in Hok as [_ Hsels].
    rewrite Hsel in Hsels.
    rewrite forallb_forall in *. intros f Hf.
    exact (Hsels ("tag." ++ f) (in_map (fun f => "tag." ++ f) _ _ Hf)).
Qed.


(** ** Sample data *)

(** ** Owner-scoped lists *)

Lemma blog_list_without_keyword_owned db userId skip take search page :
  JS.truthy search = false ->
  BlogRepository.getAll db userId skip take search = Resolved page ->
  forall b, In b (result page) -> BlogEntity.author b = Some userId.
Proof.
  unfold BlogRepository.getAll, BlogRepository.getQueryBuilder.
  intros Hs H b Hb. rewrite Hs in H.
  rewrite paged_assoc in H.
  destruct (page_rows _ _ _ _ _ _ H b Hb) as (r & ext & He & _ & Hm). clear H.
  destruct r; try discriminate. injection He as ->.
  cbn in Hm. exact (sql_equals_ref _ _ Hm).
Qed.

(** The WHERE clause of the blog list query under a keyword, as SQL reads
    it: the ownership condition is joined to the last field only. *)
Lemma blog_list_condition eng userId c k b :
  let pattern := SText (String c k ++ "%") in
  blog_matches eng userId (Some (String c k)) b
  = TypeORM.sql_like eng (SText (BlogEntity.title b)) pattern
    || (TypeORM.sql_like eng (SText (BlogEntity.content b)) pattern
        || (TypeORM.sql_like eng (SBool (BlogEntity.published b)) pattern
            && refers_to (BlogEntity.author b) userId)).
Proof.
  unfold blog_matches, blog_list_fields, BlogRepository.getQueryBuilder.
  rewrite truthy_nonempty. cbn -[TypeORM.sql_like append].
  destruct (BlogEntity.author b); reflexivity.
Qed.

(** C1.  With caller 1 and keyword "Go", the blog list returns the blog of
    user 2 whose title starts with "Go"; with keyword "1" the blog dropdown
    (default fields id and title) returns the blog of user 2 whose id is 1;
    the draft and like lists of caller 1 return the draft and the like of
    user 2 on a blog whose title starts with "Go".  The ownership condition
    is appended to the keyword conditions as [... OR c AND owner], so it
    binds to the last keyword condition only. *)
Theorem keyword_search_returns_rows_of_other_users :
  (exists page b,
      BlogController.getAllBlogs sample_db 1 None None (Some "Go")
      = Resolved page
      /\ In b (result page) /\ BlogEntity.author b = Some 2)
  /\ (exists rows b,
         BlogController.getBlogDropdownData sample_db 1 None (Some "1")
         = Resolved rows
         /\ In b rows /\ BlogEntity.author b = Some 2)
  /\ (exists page d,
         DraftService.getAllDrafts sample_db 1 (JS.of_nat 0) (JS.of_nat 10)
           (Some "Go") = Resolved page
         /\ In d (result page) /\ DraftEntity.createdBy d = Some 2)
  /\ (exists page l,
         LikeRepository.getAll sample_db 1 (JS.of_nat 0) (JS.of_nat 10)
           (Some "Go") = Resolved page
         /\ In l (result page) /\ LikeEntity.user l = Some 2)
  /\ TypeORM.wheres
       (BlogRepository.getQueryBuilder 1 ["id"; "title"] (Some "1"))
     = [(TypeORM.simple, TypeORM.Like "blog.id" "keyword");
        (TypeORM.or_, TypeORM.Like "blog.title" "keyword");
        (TypeORM.and_, TypeORM.Equals "blog.author.id" "userId")].
Proof.
  split; [|split; [|split; [|split]]].
  - eexists. eexists. split; [vm_compute; reflexivity|].
    split; [simpl; left; reflexivity | reflexivity].
  - eexists. eexists. split; [vm_compute; reflexivity|].
    split; [simpl; left; reflexivity | reflexivity].
  - eexists. eexists. split; [vm_compute; reflexivity|].
    split; [simpl; left; reflexivity | reflexivity].
  - eexists. eexists. split; [vm_compute; reflexivity|].
    split; [simpl; left; reflexivity | reflexivity].
  - reflexivity.
Qed.

(** ** C2 *)

(** C2.  For each owner-scoped resource (blog, draft, comment, like): when
    the record with id [i] exists and belongs to another user than the
    caller [u], and no record has id [j], get-by-id of [i] and get-by-id of
    [j] have the same outcome for [u]: the same raised error (the bad
    request carrying the not-found message) and no data. *)
Theorem get_by_id_of_foreign_record_as_of_missing_id :
  forall (db : Database) (res : OwnedResource) (u i j : Z) (owner : option Z),
    In (i, owner) (records db res) ->
    owner <> Some u ->
    (forall o, In (i, o) (records db res) -> o = owner) ->
    (forall o, ~ In (j, o) (records db res)) ->
    getById db res u i = getById db res u j
    /\ getById db res u i
       = Raised (new_BadRequestException (not_found_message res) None).
Proof.
  intros db res u i j owner Hin Hother Huniq Hmissing.
  assert (Hi : getById db res u i
               = Raised (new_BadRequestException (not_found_message res) None)).
  { apply getById_none. intros o Ho. rewrite (Huniq o Ho). exact Hother. }
  assert (Hj : getById db res u j
               = Raised (new_BadRequestException (not_found_message res) None)).
  { apply getById_none. intros o Ho. exfalso. exact (Hmissing o Ho). }
  split; [congruence | exact Hi].
Qed.

Lemma get_by_id_of_foreign_record_witness :
  In (1, Some 2) (records sample_db Blog)
  /\ getById sample_db Blog 1 1 = getById sample_db Blog 1 7.
Proof.
  split; [left; reflexivity|].
  apply (get_by_id_of_foreign_record_as_of_missing_id
           sample_db Blog 1 1 7 (Some 2)).
  - left; reflexivity.
  - discriminate.
  - simpl. intros o [H|[H|[]]]; congruence.
  - simpl. intros o [H|[H|[]]]; discriminate.
Defined.

(** ** C3 *)

Ltac case_matches :=
  repeat match goal with
         | |- context [match ?x with _ => _ end] => destruct x
         | |- context [if ?x then _ else _] => destruct x
         end.

Lemma blog_save_other_tables db e :
  let db' := snd (BlogRepository.save db e) in
  tags db' = tags db /\ drafts db' = drafts db /\ comments db' = comments db
  /\ likes db' = likes db /\ blogTags db' = blogTags db.
Proof. unfold BlogRepository.save. case_matches; repeat split. Qed.

Lemma updateBlog_other_tables db userId id dto :
  let db' := snd (BlogService.updateBlog db userId id dto) in
  tags db' = tags db /\ drafts db' = drafts db /\ comments db' = comments db
  /\ likes db' = likes db /\ blogTags db' = blogTags db.
Proof.
  unfold BlogService.updateBlog.
  destruct (BlogService.getBlogById db userId id) as [blog|e];
    [|repeat split].
  pose proof (blog_save_other_tables db
                (BlogRepository.merge blog
                   (BlogEntity.Partial.mk None (ub_title dto) (ub_content dto)
                      (ub_published dto)
                      (Some (UserEntity.Partial.mk (Some userId)))))) as H.
  destruct (BlogRepository.save db _) as [p db'']. exact H.
Qed.

(** C3.  An update of a blog or of a draft first looks the record up under
    the caller's ownership: when there is none, the update raises the bad
    request carrying the not-found message and the database is unchanged.
    When there is one ([old]), the stored record after the update keeps its
    id, creation time and owner, and every field the caller left out (title,
    content, published flag of a blog; content and blog of a draft) has its
    prior stored value; a field the caller gave has the given value once the
    update has succeeded, which it does whenever the caller leaves the
    draft's blog out; the records with another id are untouched. *)
Theorem update_keeps_fields_not_provided :
  forall (db : Database) (userId id : Z),
    NoDup (map BlogEntity.id (blogs db)) ->
    NoDup (map DraftEntity.id (drafts db)) ->
    (forall dto : UpdateBlogDto,
        match BlogRepository.findRow db userId id with
        | None =>
            BlogService.updateBlog db userId id dto
            = (Rejected (new_BadRequestException "BlogEntity not found" None),
               db)
        | Some old =>
            let r := BlogService.updateBlog db userId id dto in
            exists e new,
              fst r = Resolved e
              /\ stored_blog (snd r) id = Some new
              /\ BlogEntity.id new = BlogEntity.id old
              /\ BlogEntity.title new
                 = or_else (ub_title dto) (BlogEntity.title old)
              /\ BlogEntity.content new
                 = or_else (ub_content dto) (BlogEntity.content old)
              /\ BlogEntity.published new
                 = or_else (ub_published dto) (BlogEntity.published old)
              /\ BlogEntity.createdAt new = BlogEntity.createdAt old
              /\ BlogEntity.author new = BlogEntity.author old
              /\ (forall j, j <> id -> stored_blog (snd r) j = stored_blog db j)
        end)
    /\ (forall dto : UpdateDraftDto,
           match DraftRepository.findRow db userId id with
           | None =>
               DraftService.updateDraft db userId id dto
               = (Rejected
                    (new_BadRequestException "DraftEntity not found" None),
                  db)
           | Some old =>
               let r := DraftService.updateDraft db userId id dto in
               exists new,
                 stored_draft (snd r) id = Some new
                 /\ DraftEntity.id new = DraftEntity.id old
                 /\ DraftEntity.createdAt new = DraftEntity.createdAt old
                 /\ DraftEntity.createdBy new = DraftEntity.createdBy old
                 /\ (ud_content dto = None ->
                     DraftEntity.content new = DraftEntity.content old)
                 /\ (ud_blogId dto = None ->
                     DraftEntity.blog new = DraftEntity.blog old)
                 /\ (resolved (fst r) ->
                     DraftEntity.content new
                     = or_else (ud_content dto) (DraftEntity.content old)
                     /\ DraftEntity.blog new
                        = match ud_blogId dto with
                          | Some b => Some b
                          | None => DraftEntity.blog old
                          end)
                 /\ (ud_blogId dto = None -> resolved (fst r))
                 /\ (forall j, j <> id ->
                       stored_draft (snd r) j = stored_draft db j)
           end).
Proof.
  intros db userId id Hblogs Hdrafts. split; intros dto.
  - destruct (BlogRepository.findRow db userId id) as [old|] eqn:E.
    + exact (updateBlog_found db userId id dto old Hblogs E).
    + exact (updateBlog_missing db userId id dto E).
  - destruct (DraftRepository.findRow db userId id) as [old|] eqn:E.
    + exact (updateDraft_found db userId id dto old Hdrafts E).
    + exact (updateDraft_missing db userId id dto E).
Qed.

Lemma NoDup_sample_blogs : NoDup (map BlogEntity.id (blogs sample_db)).
Proof.
  simpl. repeat constructor; simpl; intros H;
    repeat (destruct H as [H|H]; [discriminate|]); exact H.
Defined.

Lemma NoDup_sample_drafts : NoDup (map DraftEntity.id (drafts sample_db)).
Proof.
  simpl. repeat constructor; simpl; intros H;
    repeat (destruct H as [H|H]; [discriminate|]); exact H.
Defined.


Lemma update_keeps_fields_witness :
  NoDup (map BlogEntity.id (blogs sample_db))
  /\ NoDup (map DraftEntity.id (drafts sample_db))
  /\ exists e new,
       fst (BlogService.updateBlog sample_db 1 2
              (mkUpdateBlogDto (Some "Renamed") None None)) = Resolved e
       /\ stored_blog
            (snd (BlogService.updateBlog sample_db 1 2
                    (mkUpdateBlogDto (Some "Renamed") None None))) 2
          = Some new
       /\ BlogEntity.title new = "Renamed"
       /\ BlogEntity.content new = "text"
       /\ BlogEntity.published new = true.
Proof.
  split; [exact NoDup_sample_blogs|]. split; [exact NoDup_sample_drafts|].
  destruct (proj1 (update_keeps_fields_not_provided sample_db 1 2
                     NoDup_sample_blogs NoDup_sample_drafts)
                  (mkUpdateBlogDto (Some "Renamed") None None))
    as (e & new & He & Hs & _ & Ht & Hc & Hp & _).
  exists e, new. repeat split; assumption.
Defined.

(** ** C4 *)

Lemma awaited_failures_are_bad_requests db :
  (forall skip take search e,
      TagService.getAllTags db skip take search = Rejected e ->
      class e = BadRequestException)
  /\ (forall id e,
         TagService.getTagById db id = Rejected e ->
         class e = BadRequestException)
  /\ (forall userId id e,
         BlogService.getBlogById db userId id = Rejected e ->
         class e = BadRequestException).
Proof.
  split; [|split].
  - intros skip take search e. unfold TagService.getAllTags.
    destruct (TagRepository.getAll db skip take search); simpl;
      [discriminate|]. intros H. injection H as <-. reflexivity.
  - intros id e. unfold TagService.getTagById, TagRepository.findById.
    simpl. destruct (find _ _); simpl; [discriminate|].
    intros H. injection H as <-. reflexivity.
  - intros userId id e.
    unfold BlogService.getBlogById, BlogRepository.findById.
    simpl. destruct (BlogRepository.findRow _ _ _); simpl; [discriminate|].
    intros H. injection H as <-. reflexivity.
Qed.

(** C4.  A dropdown request naming a field the entity does not have: the
    repository's promise is rejected by the driver, the service returns that
    promise without awaiting it, so its [catch] never runs and the caller
    receives the driver's [QueryFailedError] itself, not a bad request.  The
    same holds for the blog dropdown, and for an update whose [save] is
    rejected: user 1 moving their draft 2 to a blog 99 that does not
    exist. *)
Theorem unawaited_failure_reaches_caller_unwrapped :
  (forall db : Database,
      TagController.getTagDropdownData db (Some "nosuch") None
      = Rejected TypeORM.unknown_column
      /\ BlogController.getBlogDropdownData db 1 (Some "nosuch") None
         = Rejected TypeORM.unknown_column)
  /\ DraftService.updateDraft sample_db 1 2 (mkUpdateDraftDto (Some 99) None)
     = (Rejected driver_foreign_key, sample_db)
  /\ class TypeORM.unknown_column = QueryFailedError
  /\ class driver_foreign_key = QueryFailedError
  /\ QueryFailedError <> BadRequestException.
Proof.
  split; [intros db; split; reflexivity|].
  split; [vm_compute; reflexivity|].
  repeat split. discriminate.
Qed.

(** ** C5 *)




(** ** C6 *)

(** C6.  The query builders bind the LIKE parameter to the keyword followed
    by [%], the keyword taken as it is, and compare every searched field
    against that parameter; so with keyword "%Go" the tag list returns a tag
    whose name does not start with "%Go", and the prefix rule fails for that
    keyword. *)
Theorem keyword_wildcards_are_not_escaped :
  (forall (c : ascii) (k f : string) (fields : list string),
      let keyword := Some (String c k) in
      let qb := TagRepository.getQueryBuilder (f :: fields) keyword in
      TypeORM.param_of (TypeORM.parameters qb) "keyword"
      = SText (String c k ++ "%")
      /\ TypeORM.wheres qb
         = (TypeORM.simple, TypeORM.Like ("tag." ++ f) "keyword")
           :: map (fun f => (TypeORM.or_,
                             TypeORM.Like ("tag." ++ f) "keyword"))
                  fields)
  /\ (forall (userId : Z) (c : ascii) (k f : string) (fields : list string),
         let keyword := Some (String c k) in
         let qb := BlogRepository.getQueryBuilder userId (f :: fields)
                     keyword in
         TypeORM.param_of (TypeORM.parameters qb) "keyword"
         = SText (String c k ++ "%")
         /\ TypeORM.wheres qb
            = ((TypeORM.simple, TypeORM.Like ("blog." ++ f) "keyword")
               :: map (fun f => (TypeORM.or_,
                                 TypeORM.Like ("blog." ++ f) "keyword"))
                      fields)
              ++ [(TypeORM.and_, TypeORM.Equals "blog.author.id" "userId")])%list
  /\ (exists page t,
         TagRepository.getAll sample_db (JS.of_nat 0) (JS.of_nat 10)
           (Some "%Go") = Resolved page
         /\ In t (result page)
         /\ starts_with (collation (engine sample_db)) "%Go"
                        (TagEntity.name t) = false).
Proof.
  split; [|split].
  - intros c k f fields keyword qb. subst qb keyword.
    unfold TagRepository.getQueryBuilder. rewrite truthy_nonempty.
    change (forEach _ (f :: fields) 0%nat ?q)
      with (forEach (search_callback "tag" (Some (String c k)))
                    (f :: fields) 0%nat q).
    rewrite forEach_where. cbn [TypeORM.parameters TypeORM.wheres].
    split; [apply param_of_keyword | reflexivity].
  - intros userId c k f fields keyword qb. subst qb keyword.
    unfold BlogRepository.getQueryBuilder. rewrite truthy_nonempty.
    change (forEach _ (f :: fields) 0%nat ?q)
      with (forEach (search_callback "blog" (Some (String c k)))
                    (f :: fields) 0%nat q).
    rewrite forEach_where.
    cbn [TypeORM.andWhere TypeORM.with_wheres TypeORM.parameters
         TypeORM.wheres TypeORM.setParameters].
    split; [|reflexivity].
    unfold TypeORM.param_of. cbn [TypeORM.assoc].
    change ("keyword" =? "userId")%string with false. cbv iota.
    apply param_of_keyword.
  - eexists. eexists. split; [vm_compute; reflexivity|].
    split; [simpl; right; left; reflexivity | reflexivity].
Qed.

(** ** C7 *)

Lemma pagination_defaults :
  TagController.pageNumber None = JS.of_Z 1
  /\ TagController.itemsPerPage None = JS.of_Z 10
  /\ TagController.skip None None = JS.of_Z 0.
Proof. repeat split. Qed.

Lemma Math_max_clamps (x : JS.number) :
  JS.isNaN x = false -> JS.geb (JS.Math_max (JS.of_Z 1) x) (JS.of_Z 1) = true.
Proof.
  destruct x as [| | |q]; try discriminate; try reflexivity.
  intros _. unfold JS.Math_max, JS.of_Z.
  destruct (Qle_bool (inject_Z 1) q) eqn:E; simpl; [exact E|].
  reflexivity.
Qed.

(** A large page size is passed on as it is. *)
Lemma large_limit_is_passed_on :
  TagController.itemsPerPage (Some "1000000") = JS.of_Z 1000000
  /\ TagController.skip (Some "3") (Some "1000000") = JS.of_Z 2000000.
Proof. split; reflexivity. Qed.

(** C7.  A page or limit parameter that is not numeric text, such as "abc":
    [Number] gives NaN, [Math.max(1, NaN)] is NaN, so the effective page
    number (resp. page size) is NaN, which is not at least 1, and the skip
    passed on is NaN as well; the list request then fails in the query
    builder. *)
Theorem non_numeric_page_is_not_clamped :
  TagController.pageNumber (Some "abc") = JS.NaN
  /\ JS.geb (TagController.pageNumber (Some "abc")) (JS.of_Z 1) = false
  /\ TagController.itemsPerPage (Some "abc") = JS.NaN
  /\ JS.geb (TagController.itemsPerPage (Some "abc")) (JS.of_Z 1) = false
  /\ TagController.skip (Some "abc") None = JS.NaN
  /\ (forall db : Database,
         TagController.getAllTags db (Some "abc") None None
         = Rejected
             (new_BadRequestException
                (message (TypeORM.not_a_number "skip")) None)).
Proof. repeat split. Qed.

(** ** C8 *)



(** ** C9 *)

(** C9.  Every row returned by a by-parent-id query refers to the given
    parent, whatever the keyword: blog-tags by blog id and by tag id, and
    the drafts, comments and likes by blog id, which in addition all belong
    to the caller. *)
Theorem by_parent_queries_stay_within_the_parent :
  forall (db : Database) (userId parentId : Z) (skip take : JS.number)
         (search : option string),
    (forall page,
        BlogTagRepository.getBlogTagsByBlogId db parentId skip take search
        = Resolved page ->
        forall x, In x (result page) -> BlogTagEntity.blog x = Some parentId)
    /\ (forall page,
           BlogTagRepository.getBlogTagsByTagId db parentId skip take search
           = Resolved page ->
           forall x, In x (result page) -> BlogTagEntity.tag x = Some parentId)
    /\ (forall page,
           DraftRepository.getDraftsByBlogId db userId parentId skip take
             search = Resolved page ->
           forall x, In x (result page) ->
                     DraftEntity.blog x = Some parentId
                     /\ DraftEntity.createdBy x = Some userId)
    /\ (forall page,
           CommentRepository.getCommentsByBlogId db userId parentId skip take
             search = Resolved page ->
           forall x, In x (result page) ->
                     CommentEntity.blog x = Some parentId
                     /\ CommentEntity.user x = Some userId)
    /\ (forall page,
           LikeRepository.getLikesByBlogId db userId parentId skip take
             search = Resolved page ->
           forall x, In x (result page) ->
                     LikeEntity.blog x = Some parentId
                     /\ LikeEntity.user x = Some userId).
Proof.
  intros db userId parentId skip take search.
  split; [|split; [|split; [|split]]]; intros page H.
  - exact (blogTags_by_blog _ _ _ _ _ _ H).
  - exact (blogTags_by_tag _ _ _ _ _ _ H).
  - exact (drafts_by_blog _ _ _ _ _ _ _ H).
  - exact (comments_by_blog _ _ _ _ _ _ _ H).
  - exact (likes_by_blog _ _ _ _ _ _ _ H).
Qed.

Lemma by_parent_queries_witness :
  BlogTagRepository.getBlogTagsByBlogId sample_db 1 (JS.of_nat 0)
    (JS.of_nat 10) (Some "Go")
  = Resolved (mkPage [BlogTagEntity.mk 1 10 10 (Some 1) (Some 1)] 1)
  /\ BlogTagEntity.blog (BlogTagEntity.mk 1 10 10 (Some 1) (Some 1)) = Some 1.
Proof.
  assert (H : BlogTagRepository.getBlogTagsByBlogId sample_db 1 (JS.of_nat 0)
                (JS.of_nat 10) (Some "Go")
              = Resolved (mkPage [BlogTagEntity.mk 1 10 10 (Some 1) (Some 1)]
                                 1)) by (vm_compute; reflexivity).
  split; [exact H|].
  exact (proj1 (by_parent_queries_stay_within_the_parent sample_db 1 1
                  (JS.of_nat 0) (JS.of_nat 10) (Some "Go"))
               _ H _ (or_introl eq_refl)).
Defined.

(** ** C10 *)



(* ================================================================== *)
(** * Further properties of the modules *)
(* ================================================================== *)

(** ** Created and deleted records *)

Lemma fold_max_bound (ids : list Z) (i : Z) :
  In i ids -> i <= fold_right Z.max 0 ids.
Proof.
  induction ids as [|a l IH]; intros H; [contradiction|].
  simpl in *. destruct H as [->|H]; [lia|]. specialize (IH H). lia.
Qed.

Lemma next_id_fresh (ids : list Z) : ~ In (next_id ids) ids.
Proof.
  intros H. apply fold_max_bound in H. unfold next_id in H. lia.
Qed.

Lemma find_app_fresh {A : Type} (p : A -> bool) (l : list A) (x : A) :
  (forall a, In a l -> p a = false) ->
  find p (l ++ [x])%list = if p x then Some x else None.
Proof.
  intros H. induction l as [|a l IH]; [reflexivity|].
  simpl. rewrite (H a) by (left; reflexivity).
  apply IH. intros b Hb. apply H. right. exact Hb.
Qed.

Lemma find_app_old {A : Type} (p : A -> bool) (l : list A) (x : A) :
  p x = false -> find p (l ++ [x])%list = find p l.
Proof.
  intros H. induction l as [|a l IH]; simpl.
  - rewrite H. reflexivity.
  - destruct (p a); [reflexivity | exact IH].
Qed.

Lemma fresh_id_differs {A : Type} (idf : A -> Z) (l : list A) (a : A) :
  In a l -> (idf a =? next_id (map idf l)) = false.
Proof.
  intros H. apply Z.eqb_neq. intros E.
  apply (next_id_fresh (map idf l)). rewrite <- E. apply in_map. exact H.
Qed.



Lemma find_filter_other {A : Type} (idf : A -> Z) (i j : Z) (l : list A) :
  j <> i ->
  find (fun a => idf a =? j) (filter (fun a => negb (idf a =? i)) l)
  = find (fun a => idf a =? j) l.
Proof.
  intros Hji. induction l as [|a l IH]; [reflexivity|].
  simpl. destruct (idf a =? i) eqn:Ei; simpl.
  - replace (idf a =? j) with false; [exact IH|].
    symmetry. apply Z.eqb_neq. apply Z.eqb_eq in Ei. congruence.
  - destruct (idf a =? j); [reflexivity | exact IH].
Qed.

Lemma find_filter_removed {A : Type} (idf : A -> Z) (p : A -> bool) (i : Z)
  (l : list A) :
  find (fun a => (idf a =? i) && p a)
       (filter (fun a => negb (idf a =? i)) l) = None.
Proof.
  apply find_all_false. intros a Ha. apply filter_In in Ha as [_ Ha].
  destruct (idf a =? i); [discriminate | reflexivity].
Qed.

Lemma filter_not_referring {A : Type} (fk : A -> option Z) (i : Z)
  (l : list A) (a : A) :
  In a (filter (fun a => negb (refers_to (fk a) i)) l)
  <-> In a l /\ fk a <> Some i.
Proof.
  rewrite filter_In. split; intros [Hin H]; split; try exact Hin.
  - intros E. rewrite (proj2 (refers_to_spec _ _) E) in H. discriminate.
  - rewrite refers_to_other by exact H. reflexivity.
Qed.

(** X2.  Deleting a blog looks it up under the caller's ownership: when
    there is none the bad request carrying the not-found message is raised
    and nothing is deleted.  Otherwise the blog is gone for every user, the
    blogs with another id are found as before, and of the drafts, likes and
    blog tags exactly those that refer to the blog are gone with it,
    whoever created them; the tags are as they were. *)
Theorem deleted_blog_is_gone_with_the_rows_that_refer_to_it :
  forall (db : Database) (userId id : Z),
    let r := BlogService.deleteBlog db userId id in
    match BlogRepository.findRow db userId id with
    | None =>
        r = (Rejected (new_BadRequestException "BlogEntity not found" None),
             db)
    | Some _ =>
        fst r = Resolved tt
        /\ stored_blog (snd r) id = None
        /\ (forall u,
              BlogService.getBlogById (snd r) u id
              = Rejected
                  (new_BadRequestException "BlogEntity not found" None))
        /\ (forall j, j <> id -> stored_blog (snd r) j = stored_blog db j)
        /\ (forall d, In d (drafts (snd r))
                      <-> In d (drafts db) /\ DraftEntity.blog d <> Some id)
        /\ (forall l, In l (likes (snd r))
                      <-> In l (likes db) /\ LikeEntity.blog l <> Some id)
        /\ (forall bt, In bt (blogTags (snd r))
                       <-> In bt (blogTags db)
                           /\ BlogTagEntity.blog bt <> Some id)
        /\ tags (snd r) = tags db
    end.
Proof.
  intros db userId id r. subst r.
  unfold BlogService.deleteBlog, BlogService.getBlogById,
    BlogRepository.findById.
  destruct (BlogRepository.findRow db userId id) as [old|] eqn:Hfind;
    [|reflexivity].
  unfold BlogRepository.findRow in Hfind.
  apply find_some in Hfind as [_ Hp]. apply andb_prop in Hp as [Hid _].
  apply Z.eqb_eq in Hid.
  cbn [option_map await_in_try return_value try_catch_throw
       BlogRepository.remove BlogRepository.hydrate BlogEntity.Partial.id
       fst snd].
  rewrite Hid. cbn [fst snd blogs drafts likes blogTags tags].
  split; [reflexivity|].
  split; [|split; [|split; [|split; [|split; [|split]]]]].
  - unfold stored_blog. cbn [blogs]. apply find_all_false.
    intros a Ha. apply filter_In in Ha as [_ Ha].
    destruct (BlogEntity.id a =? id); [discriminate | reflexivity].
  - intros u. unfold BlogRepository.findRow. cbn [blogs].
    rewrite (find_filter_removed BlogEntity.id). reflexivity.
  - intros j Hj. unfold stored_blog. cbn [blogs].
    apply (find_filter_other BlogEntity.id). exact Hj.
  - intros d. apply (filter_not_referring DraftEntity.blog).
  - intros l. apply (filter_not_referring LikeEntity.blog).
  - intros bt. apply (filter_not_referring BlogTagEntity.blog).
  - reflexivity.
Qed.

Lemma deleted_blog_witness :
  let r := BlogService.deleteBlog sample_db 2 1 in
  fst r = Resolved tt
  /\ stored_blog (snd r) 1 = None
  /\ stored_blog (snd r) 2 = stored_blog sample_db 2
  /\ drafts (snd r)
     = [DraftEntity.mk 2 "draft of user 1" 20 20 (Some 2) (Some 1)]
  /\ BlogService.deleteBlog sample_db 1 1
     = (Rejected (new_BadRequestException "BlogEntity not found" None),
        sample_db).
Proof.
  intros r.
  pose proof (deleted_blog_is_gone_with_the_rows_that_refer_to_it
                sample_db 2 1) as H.
  pose proof (deleted_blog_is_gone_with_the_rows_that_refer_to_it
                sample_db 1 1) as H'.
  cbv zeta in H, H'.
  change (BlogRepository.findRow sample_db 2 1)
    with (Some (BlogEntity.mk 1 "Golang" "notes of user 2" false 10 10
                  (Some 2))) in H.
  change (BlogRepository.findRow sample_db 1 1) with (@None BlogEntity.t)
    in H'.
  cbv beta iota in H, H'.
  destruct H as (H1 & H2 & _ & H3 & _).
  split; [exact H1|]. split; [exact H2|].
  split; [apply H3; discriminate|]. split; [reflexivity | exact H'].
Defined.



(** ** References to blogs *)

Lemma blog_exists_In db k :
  DraftRepository.blog_exists db (Some k) = true
  <-> In k (map BlogEntity.id (blogs db)).
Proof.
  unfold DraftRepository.blog_exists. rewrite existsb_exists, in_map_iff.
  split; intros (b & H1 & H2).
  - exists b. apply Z.eqb_eq in H2. auto.
  - exists b. split; [exact H2 | apply Z.eqb_eq; exact H1].
Qed.

Lemma references_transfer db db' :
  (forall k, In k (map BlogEntity.id (blogs db)) ->
             In k (map BlogEntity.id (blogs db'))) ->
  drafts db' = drafts db -> likes db' = likes db ->
  blogTags db' = blogTags db ->
  blog_references_hold db -> blog_references_hold db'.
Proof.
  intros Hk Hd Hl Hbt (H1 & H2 & H3).
  assert (Hfk : forall fk, DraftRepository.blog_exists db fk = true ->
                           DraftRepository.blog_exists db' fk = true).
  { intros [k|] H; [|reflexivity].
    apply blog_exists_In. apply Hk. apply blog_exists_In. exact H. }
  unfold blog_references_hold. rewrite Hd, Hl, Hbt.
  repeat split; intros x Hx; apply Hfk; auto.
Qed.

Lemma blog_save_keeps_ids db e k :
  In k (map BlogEntity.id (blogs db)) ->
  In k (map BlogEntity.id (blogs (snd (BlogRepository.save db e)))).
Proof.
  intros Hk. unfold BlogRepository.save.
  destruct (match BlogEntity.Partial.id e with
            | Some i => find (fun b => BlogEntity.id b =? i) (blogs db)
            | None => None
            end) as [row|].
  - destruct (BlogRepository.same_columns row _); cbn [snd]; [exact Hk|].
    cbn [blogs BlogRepository.with_blogs]. rewrite map_map.
    erewrite map_ext; [exact Hk|].
    intros b. cbv beta.
    destruct (BlogEntity.id b =? BlogEntity.id row); reflexivity.
  - destruct (BlogEntity.Partial.title e), (BlogEntity.Partial.content e);
      cbn [snd]; try exact Hk.
    cbn [blogs BlogRepository.with_blogs]. rewrite map_app.
    apply in_or_app. left. exact Hk.
Qed.

Lemma blog_save_keeps_references db e :
  blog_references_hold db ->
  blog_references_hold (snd (BlogRepository.save db e)).
Proof.
  destruct (blog_save_other_tables db e) as (_ & Hd & _ & Hl & Hbt).
  apply references_transfer; try assumption.
  intros k. apply blog_save_keeps_ids.
Qed.

Lemma blog_remove_keeps_references db e :
  blog_references_hold db ->
  blog_references_hold (snd (BlogRepository.remove db e)).
Proof.
  intros (H1 & H2 & H3). unfold BlogRepository.remove.
  destruct (BlogEntity.Partial.id e) as [i|]; cbn [snd];
    [|repeat split; assumption].
  assert (Hfk : forall fk, fk <> Some i ->
            DraftRepository.blog_exists db fk = true ->
            DraftRepository.blog_exists
              (mkDatabase (engine db) (clock db) (tags db)
                 (filter (fun b => negb (BlogEntity.id b =? i)) (blogs db))
                 (filter (fun d => negb (refers_to (DraftEntity.blog d) i))
                         (drafts db))
                 (filter (fun c => negb (refers_to (CommentEntity.blog c) i))
                         (comments db))
                 (filter (fun l => negb (refers_to (LikeEntity.blog l) i))
                         (likes db))
                 (filter
                    (fun bt => negb (refers_to (BlogTagEntity.blog bt) i))
                    (blogTags db))) fk = true).
  { intros [k|] Hne H; [|reflexivity].
    unfold DraftRepository.blog_exists in *. cbn [blogs].
    apply existsb_exists in H as (b & Hin & Hid).
    apply existsb_exists. exists b. split; [|exact Hid].
    apply filter_In. split; [exact Hin|].
    apply Z.eqb_eq in Hid.
    replace (BlogEntity.id b =? i) with false; [reflexivity|].
    symmetry. apply Z.eqb_neq. congruence. }
  unfold blog_references_hold. cbn [drafts likes blogTags].
  repeat split; intros x Hx; apply filter_not_referring in Hx as [Hin Hne];
    apply Hfk; auto.
Qed.

Lemma draft_save_keeps_references db e :
  blog_references_hold db ->
  blog_references_hold (snd (DraftRepository.save db e)).
Proof.
  intros H. pose proof H as (H1 & H2 & H3). unfold DraftRepository.save.
  destruct (match DraftEntity.Partial.id e with
            | Some i => find (fun d => DraftEntity.id d =? i) (drafts db)
            | None => None
            end) as [row|] eqn:Hrow.
  - destruct (DraftRepository.same_columns row _); cbn [snd]; [exact H|].
    destruct (option_Z_eqb _ _ || _) eqn:Hc; cbn [snd]; [|exact H].
    assert (Hin : In row (drafts db)).
    { destruct (DraftEntity.Partial.id e); [|discriminate].
      apply find_some in Hrow. apply Hrow. }
    assert (Hnew : forall d, In d (drafts db) ->
              DraftRepository.blog_exists db
                (DraftRepository.blog_column (DraftEntity.Partial.blog e)
                   (DraftEntity.blog d)) = true).
    { intros d Hd. cbn [DraftRepository.persist DraftEntity.blog] in Hc.
      unfold DraftRepository.blog_column in *.
      destruct (DraftEntity.Partial.blog e) as [b|]; [|apply H1; exact Hd].
      destruct (BlogEntity.Partial.id b) as [k|]; [|apply H1; exact Hd].
      apply orb_prop in Hc as [Hc|Hc]; [|exact Hc].
      apply option_Z_eqb_eq in Hc. rewrite <- Hc. apply H1. exact Hin. }
    unfold blog_references_hold.
    cbn [drafts likes blogTags DraftRepository.with_drafts].
    split; [|split; assumption].
    intros d Hd. apply in_map_iff in Hd as (d0 & <- & Hd0).
    change (DraftRepository.blog_exists
              (DraftRepository.with_drafts db ?l)) with
      (DraftRepository.blog_exists db).
    destruct (DraftEntity.id d0 =? DraftEntity.id row).
    + cbn [DraftRepository.touch DraftRepository.persist DraftEntity.blog].
      apply Hnew. exact Hd0.
    + apply H1. exact Hd0.
  - destruct (DraftEntity.Partial.content e) as [c|]; cbn [snd]; [|exact H].
    cbn [DraftEntity.blog].
    destruct (DraftRepository.blog_exists db _) eqn:Hex; cbn [snd];
      [|exact H].
    unfold blog_references_hold.
    cbn [drafts likes blogTags DraftRepository.with_drafts].
    split; [|split; assumption].
    intros d Hd. apply in_app_or in Hd as [Hd|[<-|[]]].
    + apply H1. exact Hd.
    + exact Hex.
Qed.

Lemma draft_remove_keeps_references db e :
  blog_references_hold db ->
  blog_references_hold (snd (DraftRepository.remove db e)).
Proof.
  intros H. pose proof H as (H1 & H2 & H3). unfold DraftRepository.remove.
  destruct (DraftEntity.Partial.id e) as [i|]; cbn [snd]; [|exact H].
  unfold blog_references_hold.
  cbn [drafts likes blogTags DraftRepository.with_drafts].
  split; [|split; assumption].
  intros d Hd. apply filter_In in Hd as [Hd _]. apply H1. exact Hd.
Qed.

(** X4.  The writing operations of the blog and draft services keep the
    references to blogs whole: when every draft, like and blog tag that
    names a blog names a stored one, the same holds after creating,
    updating or deleting a blog and after creating, updating or deleting a
    draft, whatever the caller, the id and the data, and whether the
    operation succeeds or fails. *)
Theorem writes_keep_the_references_to_blogs :
  forall db : Database,
    blog_references_hold db ->
    (forall userId dto,
        blog_references_hold (snd (BlogService.createBlog db userId dto)))
    /\ (forall userId id dto,
           blog_references_hold
             (snd (BlogService.updateBlog db userId id dto)))
    /\ (forall userId id,
           blog_references_hold (snd (BlogService.deleteBlog db userId id)))
    /\ (forall userId dto,
           blog_references_hold (snd (DraftService.createDraft db userId dto)))
    /\ (forall userId id dto,
           blog_references_hold
             (snd (DraftService.updateDraft db userId id dto)))
    /\ (forall userId id,
           blog_references_hold
             (snd (DraftService.deleteDraft db userId id))).
Proof.
  intros db H.
  split; [|split; [|split; [|split; [|split]]]].
  - intros userId dto. unfold BlogService.createBlog.
    pose proof (blog_save_keeps_references db
      (BlogRepository.create
         (BlogEntity.Partial.mk None (Some (cb_title dto))
            (Some (cb_content dto)) (Some (cb_published dto))
            (Some (UserEntity.Partial.mk (Some userId))))) H) as Hs.
    destruct (BlogRepository.save db _) as [p db']. exact Hs.
  - intros userId id dto. unfold BlogService.updateBlog.
    destruct (BlogService.getBlogById db userId id) as [blog|e]; [|exact H].
    pose proof (blog_save_keeps_references db
      (BlogRepository.merge blog
         (BlogEntity.Partial.mk None (ub_title dto) (ub_content dto)
            (ub_published dto)
            (Some (UserEntity.Partial.mk (Some userId))))) H) as Hs.
    destruct (BlogRepository.save db _) as [p db']. exact Hs.
  - intros userId id. unfold BlogService.deleteBlog.
    destruct (BlogService.getBlogById db userId id) as [blog|e]; [|exact H].
    pose proof (blog_remove_keeps_references db blog H) as Hs.
    destruct (BlogRepository.remove db blog) as [p db']. exact Hs.
  - intros userId dto. unfold DraftService.createDraft.
    pose proof (draft_save_keeps_references db
      (DraftRepository.create
         (DraftEntity.Partial.mk None (Some (cd_content dto))
            (Some (BlogEntity.Partial.mk (Some (cd_blogId dto))
                     None None None None))
            (Some (UserEntity.Partial.mk (Some userId))))) H) as Hs.
    destruct (DraftRepository.save db _) as [p db']. exact Hs.
  - intros userId id dto. unfold DraftService.updateDraft.
    destruct (DraftService.getDraftById db userId id) as [draft|e];
      [|exact H].
    pose proof (draft_save_keeps_references db
      (DraftRepository.merge draft
         (DraftEntity.Partial.mk None (ud_content dto)
            (Some (BlogEntity.Partial.mk (ud_blogId dto) None None None None))
            (Some (UserEntity.Partial.mk (Some userId))))) H) as Hs.
    destruct (DraftRepository.save db _) as [p db']. exact Hs.
  - intros userId id. unfold DraftService.deleteDraft.
    destruct (DraftService.getDraftById db userId id) as [draft|e];
      [|exact H].
    pose proof (draft_remove_keeps_references db draft H) as Hs.
    destruct (DraftRepository.remove db draft) as [p db']. exact Hs.
Qed.

Lemma sample_references : blog_references_hold sample_db.
Proof.
  unfold blog_references_hold. simpl.
  repeat split; intros x Hx;
    repeat (destruct Hx as [<-|Hx]; [reflexivity|]); contradiction.
Defined.

Lemma writes_keep_the_references_witness :
  blog_references_hold sample_db
  /\ blog_references_hold (snd (BlogService.deleteBlog sample_db 2 1))
  /\ blog_references_hold
       (snd (DraftService.createDraft sample_db 1
               (mkCreateDraftDto 1 "on the blog of user 2"))).
Proof.
  split; [exact sample_references|].
  destruct (writes_keep_the_references_to_blogs sample_db sample_references)
    as (_ & _ & Hdel & Hcre & _).
  split; [apply Hdel | apply Hcre].
Defined.

(** ** Writes and the records of other users *)

Lemma find_unique_by {A : Type} (idf : A -> Z) (p : A -> bool) (l : list A)
  (x : A) :
  NoDup (map idf l) -> In x l -> p x = true ->
  (forall a, p a = true -> idf a = idf x) ->
  find p l = Some x.
Proof.
  intros Hnd Hx Hp Hid. induction l as [|a l IH]; [contradiction|].
  simpl in *. inversion Hnd as [|? ? Hnotin Hnd']; subst.
  destruct Hx as [->|Hx]; [rewrite Hp; reflexivity|].
  destruct (p a) eqn:Ea; [|apply IH; assumption].
  exfalso. apply Hnotin. rewrite (Hid a Ea). apply in_map. exact Hx.
Qed.

Lemma blog_findRow_stored db userId id old :
  NoDup (map BlogEntity.id (blogs db)) ->
  BlogRepository.findRow db userId id = Some old ->
  stored_blog db id = Some old /\ BlogEntity.id old = id
  /\ BlogEntity.author old = Some userId.
Proof.
  intros Hnd H. unfold BlogRepository.findRow in H.
  apply find_some in H as [Hin Hp]. apply andb_prop in Hp as [Hid Hown].
  apply Z.eqb_eq in Hid. apply refers_to_spec in Hown.
  split; [|split; assumption].
  unfold stored_blog. rewrite <- Hid.
  apply (find_unique BlogEntity.id); assumption.
Qed.

Lemma deleteBlog_database db userId id :
  snd (BlogService.deleteBlog db userId id)
  = match BlogRepository.findRow db userId id with
    | Some old => snd (BlogRepository.remove db (BlogRepository.hydrate old))
    | None => db
    end.
Proof.
  unfold BlogService.deleteBlog, BlogService.getBlogById,
    BlogRepository.findById.
  destruct (BlogRepository.findRow db userId id); reflexivity.
Qed.

(** X5.  No write of the blog service touches a blog of another user: a
    stored blog whose author is not the caller is stored unchanged, under
    its id, after the caller updates or deletes whatever id with whatever
    data, and after the caller creates a blog. *)
Theorem blog_writes_leave_the_blogs_of_other_users :
  forall (db : Database) (userId j : Z) (b : BlogEntity.t),
    NoDup (map BlogEntity.id (blogs db)) ->
    stored_blog db j = Some b ->
    BlogEntity.author b <> Some userId ->
    (forall id dto,
        stored_blog (snd (BlogService.updateBlog db userId id dto)) j = Some b)
    /\ (forall id,
           stored_blog (snd (BlogService.deleteBlog db userId id)) j = Some b)
    /\ (forall dto,
           stored_blog (snd (BlogService.createBlog db userId dto)) j
           = Some b).
Proof.
  intros db userId j b Hnd Hj Hb.
  assert (Hne : forall id old,
             BlogRepository.findRow db userId id = Some old -> j <> id).
  { intros id old Hfind ->.
    apply (blog_findRow_stored _ _ _ _ Hnd) in Hfind as (Hst & _ & Ha).
    congruence. }
  split; [|split].
  - intros id dto.
    destruct (BlogRepository.findRow db userId id) as [old|] eqn:Hfind.
    + destruct (updateBlog_found db userId id dto old Hnd Hfind)
        as (e & new & _ & _ & _ & _ & _ & _ & _ & _ & Hframe).
      rewrite Hframe; [exact Hj | exact (Hne _ _ Hfind)].
    + rewrite (updateBlog_missing _ _ _ _ Hfind). exact Hj.
  - intros id. rewrite deleteBlog_database.
    destruct (BlogRepository.findRow db userId id) as [old|] eqn:Hfind;
      [|exact Hj].
    pose proof (Hne _ _ Hfind) as Hji.
    apply (blog_findRow_stored _ _ _ _ Hnd) in Hfind as (_ & Hid & _).
    cbn [BlogRepository.remove BlogRepository.hydrate BlogEntity.Partial.id
         snd].
    unfold stored_blog. cbn [blogs].
    rewrite (find_filter_other BlogEntity.id) by congruence. exact Hj.
  - intros dto. unfold stored_blog in *.
    change (blogs (snd (BlogService.createBlog db userId dto)))
      with (blogs db
            ++ [BlogEntity.mk (next_id (map BlogEntity.id (blogs db)))
                  (cb_title dto) (cb_content dto) (cb_published dto)
                  (clock db) (clock db) (Some userId)])%list.
    rewrite find_app_old; [exact Hj|].
    cbn [BlogEntity.id]. apply Z.eqb_neq. intros E.
    apply find_some in Hj as [Hin Hid]. apply Z.eqb_eq in Hid.
    apply (next_id_fresh (map BlogEntity.id (blogs db))).
    rewrite E, <- Hid. apply in_map. exact Hin.
Qed.

Lemma blog_writes_leave_other_users_witness :
  stored_blog
    (snd (BlogService.updateBlog sample_db 1 1
            (mkUpdateBlogDto (Some "taken over") None None))) 1
  = Some (BlogEntity.mk 1 "Golang" "notes of user 2" false 10 10 (Some 2))
  /\ stored_blog (snd (BlogService.deleteBlog sample_db 1 1)) 1
     = Some (BlogEntity.mk 1 "Golang" "notes of user 2" false 10 10 (Some 2)).
Proof.
  assert (Hnd : NoDup (map BlogEntity.id (blogs sample_db))).
  { simpl. repeat constructor; simpl; intuition discriminate. }
  assert (Hst : stored_blog sample_db 1
                = Some (BlogEntity.mk 1 "Golang" "notes of user 2" false
                          10 10 (Some 2))) by reflexivity.
  assert (Hown : BlogEntity.author
                   (BlogEntity.mk 1 "Golang" "notes of user 2" false
                      10 10 (Some 2)) <> Some 1) by discriminate.
  destruct (blog_writes_leave_the_blogs_of_other_users
              sample_db 1 1 _ Hnd Hst Hown) as (Hu & Hd & _).
  split; [apply Hu | apply Hd].
Defined.

Lemma blog_same_columns_refl a b :
  BlogEntity.title a = BlogEntity.title b ->
  BlogEntity.content a = BlogEntity.content b ->
  BlogEntity.published a = BlogEntity.published b ->
  BlogEntity.author a = BlogEntity.author b ->
  BlogRepository.same_columns a b = true.
Proof.
  intros Ht Hc Hp Ha. unfold BlogRepository.same_columns.
  rewrite Ht, Hc, Hp, Ha, !String.eqb_refl, Bool.eqb_reflx,
    option_Z_eqb_refl. reflexivity.
Qed.

(** What [updateBlog] does to the database when the caller owns [old]. *)
Lemma updateBlog_steps db userId id dto old :
  NoDup (map BlogEntity.id (blogs db)) ->
  BlogRepository.findRow db userId id = Some old ->
  let merged :=
    BlogRepository.merge (BlogRepository.hydrate old)
      (BlogEntity.Partial.mk None (ub_title dto) (ub_content dto)
         (ub_published dto) (Some (UserEntity.Partial.mk (Some userId)))) in
  BlogService.updateBlog db userId id dto
  = (Resolved merged,
     if BlogRepository.same_columns old (BlogRepository.persist old merged)
     then db
     else BlogRepository.with_blogs db
            (map (fun b => if BlogEntity.id b =? BlogEntity.id old
                           then BlogRepository.touch (clock db)
                                  (BlogRepository.persist b merged)
                           else b)
                 (blogs db))).
Proof.
  intros Hnd Hfind merged.
  destruct (blog_findRow_stored _ _ _ _ Hnd Hfind) as (Hst & Hid & Hown).
  unfold BlogService.updateBlog, BlogService.getBlogById,
    BlogRepository.findById.
  rewrite Hfind.
  cbn [option_map await_in_try return_value try_catch_throw].
  fold merged. unfold BlogRepository.save.
  replace (BlogEntity.Partial.id merged) with (Some (BlogEntity.id old))
    by reflexivity.
  unfold stored_blog in Hst. rewrite <- Hid in Hst. rewrite Hst.
  destruct (BlogRepository.same_columns old _); reflexivity.
Qed.

(** X6.  Updating a blog again with the same data, at whatever later
    time, changes nothing more: the repeated call succeeds or fails as the
    first did and leaves every stored record as the first call left it,
    the time of the last update included, which stays that of the first
    call.  An update that provides no field changes nothing at all. *)
Theorem updating_a_blog_twice_is_updating_it_once :
  forall (db : Database) (userId id : Z) (dto : UpdateBlogDto) (later : Z),
    NoDup (map BlogEntity.id (blogs db)) ->
    let r := BlogService.updateBlog db userId id dto in
    let db1 := at_time later (snd r) in
    let r' := BlogService.updateBlog db1 userId id dto in
    snd r' = db1
    /\ (resolved (fst r') <-> resolved (fst r))
    /\ snd (BlogService.updateBlog db userId id
              (mkUpdateBlogDto None None None)) = db.
Proof.
  intros db userId id dto later Hnd r db1 r'. subst r' db1 r.
  destruct (BlogRepository.findRow db userId id) as [old|] eqn:Hfind.
  2:{ rewrite !(updateBlog_missing _ _ _ _ Hfind). cbn [snd fst].
      assert (Hfind' : BlogRepository.findRow (at_time later db) userId id
                       = None) by exact Hfind.
      rewrite (updateBlog_missing _ _ _ _ Hfind'). cbn [snd fst].
      split; [reflexivity|]. split; [tauto | reflexivity]. }
  destruct (blog_findRow_stored _ _ _ _ Hnd Hfind) as (Hst & Hid & Hown).
  rewrite (updateBlog_steps _ _ _ dto _ Hnd Hfind). cbn [snd fst].
  set (merged := BlogRepository.merge _ _).
  assert (Hres : forall (x : BlogEntity.Partial.t) (p : Promise _),
             p = Resolved x -> (resolved p <-> resolved (Resolved merged))).
  { intros x p ->. split; intros _; eexists; reflexivity. }
  split; [|split].
  - destruct (BlogRepository.same_columns old
                (BlogRepository.persist old merged)) eqn:Esame.
    + assert (Hnd' : NoDup (map BlogEntity.id (blogs (at_time later db))))
        by exact Hnd.
      assert (Hfind' : BlogRepository.findRow (at_time later db) userId id
                       = Some old) by exact Hfind.
      rewrite (updateBlog_steps _ _ _ dto _ Hnd' Hfind'). fold merged.
      rewrite Esame. reflexivity.
    + set (upd := fun b => if BlogEntity.id b =? BlogEntity.id old
                           then BlogRepository.touch (clock db)
                                  (BlogRepository.persist b merged)
                           else b).
      set (db1 := at_time later
                    (BlogRepository.with_blogs db (map upd (blogs db)))).
      set (new := BlogRepository.touch (clock db)
                    (BlogRepository.persist old merged)).
      assert (Hids : map BlogEntity.id (blogs db1)
                     = map BlogEntity.id (blogs db)).
      { unfold db1. cbn [blogs at_time BlogRepository.with_blogs].
        rewrite map_map. apply map_ext. intros b. unfold upd.
        destruct (BlogEntity.id b =? BlogEntity.id old); reflexivity. }
      assert (Hnd1 : NoDup (map BlogEntity.id (blogs db1)))
        by (rewrite Hids; exact Hnd).
      assert (Hin : In new (blogs db1)).
      { unfold db1. cbn [blogs at_time BlogRepository.with_blogs].
        apply in_map_iff. exists old. split.
        - unfold upd. rewrite Z.eqb_refl. reflexivity.
        - apply find_some in Hst. apply Hst. }
      assert (Hfind1 : BlogRepository.findRow db1 userId id = Some new).
      { unfold BlogRepository.findRow.
        apply (find_unique_by BlogEntity.id); try assumption.
        - cbn [new BlogRepository.touch BlogRepository.persist BlogEntity.id
               BlogEntity.author merged BlogRepository.merge
               BlogEntity.Partial.merge BlogEntity.Partial.author
               merge_relation join_column UserEntity.Partial.merge
               UserEntity.Partial.id merge_column refers_to].
          rewrite Hid, !Z.eqb_refl. reflexivity.
        - intros a Ha. apply andb_prop in Ha as [Ha _].
          apply Z.eqb_eq in Ha. cbn. congruence. }
      rewrite (updateBlog_steps _ _ _ dto _ Hnd1 Hfind1).
      assert (Hm : BlogRepository.merge (BlogRepository.hydrate new)
                     (BlogEntity.Partial.mk None (ub_title dto)
                        (ub_content dto) (ub_published dto)
                        (Some (UserEntity.Partial.mk (Some userId))))
                   = merged).
      { unfold merged, new.
        destruct dto as [[t|] [c|] [p|]]; reflexivity. }
      rewrite Hm.
      replace (BlogRepository.same_columns new
                 (BlogRepository.persist new merged)) with true;
        [reflexivity|].
      symmetry. apply blog_same_columns_refl; unfold new, merged;
        destruct dto as [[t|] [c|] [p|]]; reflexivity.
  - match goal with
    | |- context [BlogService.updateBlog ?d userId id dto] =>
        assert (Hr : exists x d',
                   BlogService.updateBlog d userId id dto = (Resolved x, d'))
    end.
    { destruct (BlogRepository.same_columns old
                  (BlogRepository.persist old merged)) eqn:Esame.
      - assert (Hnd' : NoDup (map BlogEntity.id (blogs (at_time later db))))
          by exact Hnd.
        assert (Hfind' : BlogRepository.findRow (at_time later db) userId id
                         = Some old) by exact Hfind.
        rewrite (updateBlog_steps _ _ _ dto _ Hnd' Hfind').
        eexists. eexists. reflexivity.
      - set (upd := fun b => if BlogEntity.id b =? BlogEntity.id old
                             then BlogRepository.touch (clock db)
                                    (BlogRepository.persist b merged)
                             else b).
        set (db1 := at_time later
                      (BlogRepository.with_blogs db (map upd (blogs db)))).
        set (new := BlogRepository.touch (clock db)
                      (BlogRepository.persist old merged)).
        assert (Hids : map BlogEntity.id (blogs db1)
                       = map BlogEntity.id (blogs db)).
        { unfold db1. cbn [blogs at_time BlogRepository.with_blogs].
          rewrite map_map. apply map_ext. intros b. unfold upd.
          destruct (BlogEntity.id b =? BlogEntity.id old); reflexivity. }
        assert (Hnd1 : NoDup (map BlogEntity.id (blogs db1)))
          by (rewrite Hids; exact Hnd).
        assert (Hin : In new (blogs db1)).
        { unfold db1. cbn [blogs at_time BlogRepository.with_blogs].
          apply in_map_iff. exists old. split.
          - unfold upd. rewrite Z.eqb_refl. reflexivity.
          - apply find_some in Hst. apply Hst. }
        assert (Hfind1 : BlogRepository.findRow db1 userId id = Some new).
        { unfold BlogRepository.findRow.
          apply (find_unique_by BlogEntity.id); try assumption.
          - cbn [new BlogRepository.touch BlogRepository.persist
                 BlogEntity.id BlogEntity.author merged BlogRepository.merge
                 BlogEntity.Partial.merge BlogEntity.Partial.author
                 merge_relation join_column UserEntity.Partial.merge
                 UserEntity.Partial.id merge_column refers_to].
            rewrite Hid, !Z.eqb_refl. reflexivity.
          - intros a Ha. apply andb_prop in Ha as [Ha _].
            apply Z.eqb_eq in Ha. cbn. congruence. }
        rewrite (updateBlog_steps _ _ _ dto _ Hnd1 Hfind1).
        eexists. eexists. reflexivity. }
    destruct Hr as (x & d' & ->). cbn [fst].
    apply (Hres x). reflexivity.
  - rewrite (updateBlog_steps _ _ _ _ _ Hnd Hfind). cbn [snd].
    replace (BlogRepository.same_columns old _) with true; [reflexivity|].
    symmetry. apply blog_same_columns_refl; try reflexivity.
    cbn. rewrite Hown. reflexivity.
Qed.

Lemma updating_a_blog_twice_witness :
  let dto := mkUpdateBlogDto (Some "Renamed") None (Some false) in
  let r := BlogService.updateBlog sample_db 1 2 dto in
  let db1 := at_time 200 (snd r) in
  clock db1 = 200
  /\ stored_blog db1 2
     = Some (BlogEntity.mk 2 "Renamed" "text" false 20 100 (Some 1))
  /\ snd (BlogService.updateBlog db1 1 2 dto) = db1.
Proof.
  assert (Hnd : NoDup (map BlogEntity.id (blogs sample_db))).
  { simpl. repeat constructor; simpl; intuition discriminate. }
  split; [reflexivity|]. split; [reflexivity|].
  apply (updating_a_blog_twice_is_updating_it_once sample_db 1 2 _ 200 Hnd).
Defined.

(** ** Lists without a keyword *)

Lemma sort_by_length {A : Type} (key : A -> Z) o (l : list A) :
  length (TypeORM.sort_by key o l) = length l.
Proof. apply Permutation_length. apply sort_by_perm. Qed.




(** ** Joined rows *)

Lemma getMany_envs db qb rows :
  TypeORM.getMany db qb = Resolved rows ->
  forall r, In r rows ->
  exists env,
    In env (TypeORM.joined_rows db qb)
    /\ TypeORM.main_row qb env = Some r
    /\ TypeORM.matches (engine db) qb env = true.
Proof.
  unfold TypeORM.getMany. intros H r Hr.
  destruct (TypeORM.scope_of qb); [|discriminate].
  destruct (TypeORM.statement_ok qb _); [|discriminate].
  destruct (TypeORM.row_count (TypeORM.take_ qb)) as [limit|]; [|discriminate].
  destruct (TypeORM.row_count (TypeORM.skip_ qb)) as [offset|]; [|discriminate].
  injection H as <-.
  apply filter_map_In in Hr as (env & Henv & Hmain).
  apply window_In in Henv. unfold TypeORM.matching in Henv.
  apply ordered_In in Henv. apply filter_In in Henv as [Hj Hm].
  exists env. auto.
Qed.

Lemma page_envs {A : Type} (entity : TypeORM.Row -> option A) db qb skip take
  (page : Page A) :
  (res <- paged db qb skip take ;;
   Resolved (mkPage (TypeORM.filter_map entity (fst res)) (snd res)))
  = Resolved page ->
  forall x, In x (result page) ->
  exists r env,
    entity r = Some x
    /\ In env (TypeORM.joined_rows db qb)
    /\ TypeORM.main_row qb env = Some r
    /\ TypeORM.matches (engine db) qb env = true.
Proof.
  intros H x Hx.
  destruct (paged db qb skip take) as [[rows n]|e] eqn:E; [|discriminate].
  cbn [await fst snd] in H. injection H as <-. cbn [result] in Hx.
  apply filter_map_In in Hx as (r & Hr & He).
  unfold paged, TypeORM.take, TypeORM.skip in E.
  destruct (JS.isNaN take); [discriminate|]. cbn [await] in E.
  destruct (JS.isNaN skip); [discriminate|]. cbn [await] in E.
  unfold TypeORM.getManyAndCount in E.
  destruct (TypeORM.getMany db _) as [rows'|e] eqn:E'; [|discriminate].
  cbn [await] in E. injection E as <- <-.
  destruct (getMany_envs _ _ _ E' r Hr) as (env & Hj & Hmain & Hm).
  exists r, env. auto.
Qed.

Lemma find_row_blog db k r :
  find (fun r' => TypeORM.row_id r' =? k) (TypeORM.rows_of db TypeORM.Blogs)
  = Some r ->
  exists b, r = TypeORM.RBlog b /\ In b (blogs db) /\ BlogEntity.id b = k.
Proof.
  intros H. apply find_some in H as [Hin Hid].
  cbn [TypeORM.rows_of] in Hin. apply in_map_iff in Hin as (b & <- & Hb).
  exists b. cbn in Hid. apply Z.eqb_eq in Hid. auto.
Qed.

Lemma find_row_tag db k r :
  find (fun r' => TypeORM.row_id r' =? k) (TypeORM.rows_of db TypeORM.Tags)
  = Some r ->
  exists t, r = TypeORM.RTag t /\ In t (tags db) /\ TagEntity.id t = k.
Proof.
  intros H. apply find_some in H as [Hin Hid].
  cbn [TypeORM.rows_of] in Hin. apply in_map_iff in Hin as (t & <- & Ht).
  exists t. cbn in Hid. apply Z.eqb_eq in Hid. auto.
Qed.

(** The joined rows of a query that joins [alias.blog] alone. *)
Lemma joined_with_blog db qb alias env :
  TypeORM.joinAttributes qb = [((alias ++ ".blog")%string, "blog")] ->
  TypeORM.mainAlias qb = alias ->
  TypeORM.split_dot (alias ++ ".blog") = (alias, Some "blog") ->
  TypeORM.relation (TypeORM.mainTable qb) "blog"
  = Some (TypeORM.Blogs, "blog.id") ->
  In env (TypeORM.joined_rows db qb) ->
  exists r b,
    env = [(alias, r); ("blog", TypeORM.RBlog b)]
    /\ In r (TypeORM.rows_of db (TypeORM.mainTable qb))
    /\ In b (blogs db)
    /\ TypeORM.cell r "blog.id" = Some (SInt (BlogEntity.id b)).
Proof.
  intros Hj Ha Hsplit Hrel H. unfold TypeORM.joined_rows in H.
  apply filter_map_In in H as (r & Hr & He).
  rewrite Hj, Ha in He. cbn [TypeORM.join_row] in He.
  rewrite Hsplit in He. rewrite assoc_head in He.
  replace (TypeORM.table_of r) with (TypeORM.mainTable qb) in He.
  2:{ clear - Hr. destruct (TypeORM.mainTable qb); cbn in Hr;
      apply in_map_iff in Hr as (x & <- & _); reflexivity. }
  rewrite Hrel in He.
  destruct (TypeORM.cell r "blog.id") as [[| k | | |]|] eqn:Hc;
    try discriminate.
  destruct (find _ _) as [r'|] eqn:Hf; [|discriminate].
  apply find_row_blog in Hf as (b & -> & Hb & <-).
  injection He as <-. exists r, b. auto.
Qed.

Lemma ref_int fk k : TypeORM.ref fk = SInt k -> fk = Some k.
Proof. destruct fk; simpl; congruence. Qed.

(** X8.  Without a keyword (none, or the empty text) the lists of drafts,
    comments and likes return rows of the caller only, and only rows whose
    blog is stored: the inner join on the blog leaves out a row that
    refers to no blog. *)
Theorem lists_without_keyword_return_the_callers_rows :
  forall (db : Database) (userId : Z) (skip take : JS.number)
         (search : option string),
    JS.truthy search = false ->
    (forall page,
        DraftRepository.getAll db userId skip take search = Resolved page ->
        forall x, In x (result page) ->
          DraftEntity.createdBy x = Some userId
          /\ exists b, In b (blogs db)
                       /\ DraftEntity.blog x = Some (BlogEntity.id b))
    /\ (forall page,
           CommentRepository.getAll db userId skip take search
           = Resolved page ->
           forall x, In x (result page) ->
             CommentEntity.user x = Some userId
             /\ exists b, In b (blogs db)
                          /\ CommentEntity.blog x = Some (BlogEntity.id b))
    /\ (forall page,
           LikeRepository.getAll db userId skip take search = Resolved page ->
           forall x, In x (result page) ->
             LikeEntity.user x = Some userId
             /\ exists b, In b (blogs db)
                          /\ LikeEntity.blog x = Some (BlogEntity.id b)).
Proof.
  intros db userId skip take search Hs.
  split; [|split]; intros page H x Hx.
  - unfold DraftRepository.getAll, DraftRepository.getQueryBuilder in H.
    rewrite Hs in H. rewrite paged_assoc in H.
    destruct (page_envs _ _ _ _ _ _ H x Hx) as (r & env & He & Hj & Hmain & Hm).
    clear H.
    apply (joined_with_blog db _ "draft") in Hj
      as (r' & b & -> & _ & Hb & Hc); try reflexivity.
    cbn in Hmain. injection Hmain as ->.
    destruct r; try discriminate. injection He as ->.
    cbn in Hm, Hc. injection Hc as Hc.
    split; [exact (sql_equals_ref _ _ Hm)|].
    exists b. split; [exact Hb | exact (ref_int _ _ Hc)].
  - unfold CommentRepository.getAll, CommentRepository.getQueryBuilder in H.
    rewrite Hs in H. rewrite paged_assoc in H.
    destruct (page_envs _ _ _ _ _ _ H x Hx) as (r & env & He & Hj & Hmain & Hm).
    clear H.
    apply (joined_with_blog db _ "comment") in Hj
      as (r' & b & -> & _ & Hb & Hc); try reflexivity.
    cbn in Hmain. injection Hmain as ->.
    destruct r; try discriminate. injection He as ->.
    cbn in Hm, Hc. injection Hc as Hc.
    split; [exact (sql_equals_ref _ _ Hm)|].
    exists b. split; [exact Hb | exact (ref_int _ _ Hc)].
  - unfold LikeRepository.getAll, LikeRepository.getQueryBuilder in H.
    rewrite Hs in H. rewrite paged_assoc in H.
    destruct (page_envs _ _ _ _ _ _ H x Hx) as (r & env & He & Hj & Hmain & Hm).
    clear H.
    apply (joined_with_blog db _ "like") in Hj
      as (r' & b & -> & _ & Hb & Hc); try reflexivity.
    cbn in Hmain. injection Hmain as ->.
    destruct r; try discriminate. injection He as ->.
    cbn in Hm, Hc. injection Hc as Hc.
    split; [exact (sql_equals_ref _ _ Hm)|].
    exists b. split; [exact Hb | exact (ref_int _ _ Hc)].
Qed.

Lemma lists_without_keyword_witness :
  exists page,
    DraftRepository.getAll sample_db 2 (JS.of_nat 0) (JS.of_nat 10) None
    = Resolved page
    /\ result page
       = [DraftEntity.mk 1 "draft of user 2" 10 10 (Some 1) (Some 2)]
    /\ forall x, In x (result page) -> DraftEntity.createdBy x = Some 2.
Proof.
  eexists. split; [vm_compute; reflexivity|]. split; [reflexivity|].
  intros x Hx.
  destruct (lists_without_keyword_return_the_callers_rows
              sample_db 2 (JS.of_nat 0) (JS.of_nat 10) None eq_refl)
    as (Hd & _).
  exact (proj1 (Hd _ eq_refl x Hx)).
Defined.

(** ** Dropdowns that search one field *)

Lemma dropdown_rows {A : Type} (entity : TypeORM.Row -> option A) db qb
  (rows : list A) :
  (qb' <- TypeORM.take (JS.of_Z 5) qb ;;
   rs <- TypeORM.getMany db qb' ;;
   Resolved (TypeORM.filter_map entity rs)) = Resolved rows ->
  forall x, In x rows ->
  exists r ext,
    entity r = Some x
    /\ TypeORM.matches (engine db) qb ((TypeORM.mainAlias qb, r) :: ext)
       = true.
Proof.
  cbn [TypeORM.take JS.isNaN JS.of_Z await]. intros H x Hx.
  destruct (TypeORM.getMany db _) as [rs|e] eqn:E; [|discriminate].
  cbn [await] in H. injection H as <-.
  apply filter_map_In in Hx as (r & Hr & He).
  destruct (getMany_rows_match _ _ _ E r Hr) as (ext & _ & Hm).
  exists r, ext. split; [exact He | exact Hm].
Qed.

(** X9.  A dropdown of blogs, drafts, comments or likes that searches a
    single field returns rows of the caller only, with and without a
    keyword: with one field the ownership condition is joined by AND to
    the only keyword condition. *)
Theorem one_field_dropdown_returns_the_callers_rows :
  forall (db : Database) (userId : Z) (field : string)
         (keyword : option string),
    (forall rows,
        BlogRepository.findAllDropdown db userId [field] keyword
        = Resolved rows ->
        forall x, In x rows -> BlogEntity.author x = Some userId)
    /\ (forall rows,
           DraftRepository.findAllDropdown db userId [field] keyword
           = Resolved rows ->
           forall x, In x rows -> DraftEntity.createdBy x = Some userId)
    /\ (forall rows,
           CommentRepository.findAllDropdown db userId [field] keyword
           = Resolved rows ->
           forall x, In x rows -> CommentEntity.user x = Some userId)
    /\ (forall rows,
           LikeRepository.findAllDropdown db userId [field] keyword
           = Resolved rows ->
           forall x, In x rows -> LikeEntity.user x = Some userId).
Proof.
  intros db userId field keyword.
  split; [|split; [|split]]; intros rows H x Hx.
  - unfold BlogRepository.findAllDropdown in H.
    destruct (dropdown_rows _ _ _ _ H x Hx) as (r & ext & He & Hm). clear H.
    destruct r; try discriminate. injection He as ->.
    unfold BlogRepository.getQueryBuilder in Hm.
    destruct (JS.truthy keyword); cbn in Hm;
      [apply andb_prop in Hm as [_ Hm]|]; exact (sql_equals_ref _ _ Hm).
  - unfold DraftRepository.findAllDropdown in H.
    destruct (dropdown_rows _ _ _ _ H x Hx) as (r & ext & He & Hm). clear H.
    destruct r; try discriminate. injection He as ->.
    unfold DraftRepository.getQueryBuilder in Hm.
    destruct (JS.truthy keyword); cbn in Hm;
      [apply andb_prop in Hm as [_ Hm]|]; exact (sql_equals_ref _ _ Hm).
  - unfold CommentRepository.findAllDropdown in H.
    destruct (dropdown_rows _ _ _ _ H x Hx) as (r & ext & He & Hm). clear H.
    destruct r; try discriminate. injection He as ->.
    unfold CommentRepository.getQueryBuilder in Hm.
    destruct (JS.truthy keyword); cbn in Hm;
      [apply andb_prop in Hm as [_ Hm]|]; exact (sql_equals_ref _ _ Hm).
  - unfold LikeRepository.findAllDropdown in H.
    destruct (dropdown_rows _ _ _ _ H x Hx) as (r & ext & He & Hm). clear H.
    destruct r; try discriminate. injection He as ->.
    unfold LikeRepository.getQueryBuilder in Hm.
    destruct (JS.truthy keyword); cbn in Hm;
      [apply andb_prop in Hm as [_ Hm]|]; exact (sql_equals_ref _ _ Hm).
Qed.

Lemma one_field_dropdown_witness :
  exists rows,
    BlogRepository.findAllDropdown sample_db 1 ["title"] (Some "Mi")
    = Resolved rows
    /\ rows = [BlogEntity.mk 2 "Mine" "text" true 20 20 (Some 1)]
    /\ BlogRepository.findAllDropdown sample_db 1 ["title"] (Some "Go")
       = Resolved []
    /\ forall x, In x rows -> BlogEntity.author x = Some 1.
Proof.
  eexists. split; [vm_compute; reflexivity|]. split; [reflexivity|].
  split; [vm_compute; reflexivity|].
  intros x Hx.
  destruct (one_field_dropdown_returns_the_callers_rows
              sample_db 1 "title" (Some "Mi")) as (Hb & _).
  exact (Hb _ eq_refl x Hx).
Defined.

(** ** The list of blog tags *)

(** The joined rows of the blog-tag list query. *)
Lemma joined_blog_tag db qb env :
  TypeORM.joinAttributes qb
  = [("blogTag.blog", "blog"); ("blogTag.tag", "tag")] ->
  TypeORM.mainAlias qb = "blogTag" ->
  TypeORM.mainTable qb = TypeORM.BlogTags ->
  In env (TypeORM.joined_rows db qb) ->
  exists x b t,
    env = [("blogTag", TypeORM.RBlogTag x); ("blog", TypeORM.RBlog b);
           ("tag", TypeORM.RTag t)]
    /\ In x (blogTags db) /\ In b (blogs db) /\ In t (tags db)
    /\ BlogTagEntity.blog x = Some (BlogEntity.id b)
    /\ BlogTagEntity.tag x = Some (TagEntity.id t).
Proof.
  intros Hj Ha Ht H. unfold TypeORM.joined_rows in H.
  apply filter_map_In in H as (r & Hr & He).
  rewrite Hj, Ha in He. rewrite Ht in Hr. cbn [TypeORM.rows_of] in Hr.
  apply in_map_iff in Hr as (x & <- & Hx).
  cbn [TypeORM.join_row] in He.
  change (TypeORM.split_dot "blogTag.blog") with ("blogTag", Some "blog") in He.
  change (TypeORM.split_dot "blogTag.tag") with ("blogTag", Some "tag") in He.
  cbn [TypeORM.assoc String.eqb Ascii.eqb Bool.eqb TypeORM.table_of
       TypeORM.relation] in He.
  change (TypeORM.cell (TypeORM.RBlogTag x) "blog.id")
    with (Some (TypeORM.ref (BlogTagEntity.blog x))) in He.
  destruct (BlogTagEntity.blog x) as [kb|] eqn:Eb; [|discriminate].
  cbn [TypeORM.ref] in He.
  destruct (find _ (TypeORM.rows_of db TypeORM.Blogs)) as [rb|] eqn:Hfb;
    [|discriminate].
  apply find_row_blog in Hfb as (b & -> & Hb & <-).
  cbn [app TypeORM.assoc String.eqb Ascii.eqb Bool.eqb TypeORM.table_of
       TypeORM.relation] in He.
  change (TypeORM.cell (TypeORM.RBlogTag x) "tag.id")
    with (Some (TypeORM.ref (BlogTagEntity.tag x))) in He.
  destruct (BlogTagEntity.tag x) as [kt|] eqn:Et; [|discriminate].
  cbn [TypeORM.ref] in He.
  destruct (find _ (TypeORM.rows_of db TypeORM.Tags)) as [rt|] eqn:Hft;
    [|discriminate].
  apply find_row_tag in Hft as (t & -> & Htg & <-).
  cbn [app] in He. injection He as <-.
  exists x, b, t. repeat split; auto.
Qed.

(** X10.  The list of blog tags holds only rows whose blog and whose tag
    are both stored, and a keyword is looked for in the title of the blog
    and in the name of the tag: under a non-empty keyword that holds no
    LIKE wildcard, every row returned has a blog whose title starts with
    the keyword or a tag whose name starts with it. *)
Theorem blog_tag_list_searches_blog_titles_and_tag_names :
  forall (db : Database) (skip take : JS.number) (search : option string)
         (page : Page BlogTagEntity.t),
    BlogTagRepository.getAll db skip take search = Resolved page ->
    forall x, In x (result page) ->
    exists b t,
      In b (blogs db) /\ In t (tags db)
      /\ BlogTagEntity.blog x = Some (BlogEntity.id b)
      /\ BlogTagEntity.tag x = Some (TagEntity.id t)
      /\ forall c k,
           search = Some (String c k) ->
           no_wildcard (like_escape (engine db)) (String c k) = true ->
           starts_with (collation (engine db)) (String c k)
                       (BlogEntity.title b)
           || starts_with (collation (engine db)) (String c k)
                          (TagEntity.name t) = true.
Proof.
  intros db skip take search page H x Hx.
  unfold BlogTagRepository.getAll, BlogTagRepository.getQueryBuilder in H.
  rewrite paged_assoc in H.
  destruct (page_envs _ _ _ _ _ _ H x Hx) as (r & env & He & Hj & Hmain & Hm).
  clear H.
  apply joined_blog_tag in Hj
    as (x' & b & t & -> & _ & Hb & Ht & Hxb & Hxt);
    try (destruct (JS.truthy search); reflexivity).
  replace (TypeORM.main_row _ _) with (Some (TypeORM.RBlogTag x')) in Hmain
    by (destruct (JS.truthy search); reflexivity).
  injection Hmain as <-. cbn in He. injection He as ->.
  exists b, t. repeat split; try assumption.
  intros c k -> Hk.
  rewrite truthy_nonempty in Hm.
  cbn -[TypeORM.sql_like append] in Hm.
  unfold TypeORM.sql_like in Hm. cbn [as_text] in Hm.
  rewrite !(like_prefix _ _ (String c k)) in Hm by exact Hk.
  exact Hm.
Qed.

Lemma blog_tag_list_witness :
  exists page,
    BlogTagRepository.getAll sample_db (JS.of_nat 0) (JS.of_nat 10) (Some "Mi")
    = Resolved page
    /\ result page = [BlogTagEntity.mk 2 20 20 (Some 2) (Some 3)]
    /\ forall x, In x (result page) ->
       exists b t,
         BlogTagEntity.blog x = Some (BlogEntity.id b)
         /\ BlogTagEntity.tag x = Some (TagEntity.id t)
         /\ starts_with Ascii.eqb "Mi" (BlogEntity.title b)
            || starts_with Ascii.eqb "Mi" (TagEntity.name t) = true.
Proof.
  eexists. split; [vm_compute; reflexivity|]. split; [reflexivity|].
  intros x Hx.
  destruct (blog_tag_list_searches_blog_titles_and_tag_names
              sample_db (JS.of_nat 0) (JS.of_nat 10) (Some "Mi") _ eq_refl
              x Hx) as (b & t & _ & _ & Hb & Ht & Hk).
  exists b, t. split; [exact Hb|]. split; [exact Ht|].
  exact (Hk "M"%char "i" eq_refl eq_refl).
Defined.

(** ** Page and limit parameters *)

Lemma Qred_of_inject_Z (z : Z) : Qred (inject_Z z) = inject_Z z.
Proof.
  unfold Qred, inject_Z.
  pose proof (Z.ggcd_correct_divisors z 1) as Hd.
  pose proof (Z.ggcd_gcd z 1) as Hg.
  destruct (Z.ggcd z 1) as [g [aa bb]]. cbn [fst snd] in *.
  rewrite Z.gcd_1_r in Hg. subst g. destruct Hd as [Ha Hb].
  rewrite Z.mul_1_l in Ha, Hb. subst aa bb. reflexivity.
Qed.

Lemma Qred_inject_Z (q : Q) (z : Z) : q == inject_Z z -> Qred q = inject_Z z.
Proof.
  intros H. rewrite (Qred_complete _ _ H). apply Qred_of_inject_Z.
Qed.

Lemma round_half_even_nonneg (n d : Z) :
  0 <= n -> 0 < d -> 0 <= JS.round_half_even n d.
Proof.
  intros Hn Hd. unfold JS.round_half_even.
  pose proof (Z.div_pos n d Hn Hd) as Hfl.
  cbv zeta. destruct (2 * (n mod d) ?= d); try destruct (Z.even (n / d)); lia.
Qed.

Lemma round_half_even_exact (k d : Z) :
  0 < d -> JS.round_half_even (k * d) d = k.
Proof.
  intros Hd. unfold JS.round_half_even. cbv zeta.
  rewrite Z.mod_mul, Z.div_mul by lia.
  destruct d; try lia. reflexivity.
Qed.

Lemma nearest_double_pos_not_negative (q : Q) :
  (0 <= q)%Q -> not_negative (JS.nearest_double_pos q).
Proof.
  intros Hq. unfold JS.nearest_double_pos. cbv zeta.
  assert (Hn : 0 <= Qnum q).
  { unfold Qle in Hq. simpl in Hq. lia. }
  match goal with
  | |- context [Z.max ?x (-1022)] => set (e := x)
  end.
  destruct (0 <=? Z.max e (-1022) - 52) eqn:Et.
  - apply Z.leb_le in Et.
    set (m := JS.round_half_even _ _).
    assert (Hm : 0 <= m).
    { apply round_half_even_nonneg; [exact Hn|].
      apply Z.mul_pos_pos; [lia|]. apply Z.pow_pos_nonneg; lia. }
    destruct (2 ^ 1024 <=? _); [left; reflexivity|].
    right. eexists. split; [reflexivity|].
    rewrite <- (Zle_Qle 0). apply Z.mul_nonneg_nonneg; [exact Hm|].
    apply Z.pow_nonneg. lia.
  - right. eexists. split; [reflexivity|].
    rewrite Qred_correct. unfold Qle. simpl.
    pose proof (round_half_even_nonneg (Qnum q * 2 ^ (- (Z.max e (-1022) - 52)))
                  (Z.pos (Qden q))) as Hm.
    assert (0 <= Qnum q * 2 ^ (- (Z.max e (-1022) - 52))).
    { apply Z.mul_nonneg_nonneg; [exact Hn|]. apply Z.pow_nonneg. lia. }
    lia.
Qed.

Lemma nearest_double_not_negative (q : Q) :
  (0 <= q)%Q -> not_negative (JS.nearest_double q).
Proof.
  intros Hq. unfold JS.nearest_double.
  destruct (Qnum q) eqn:En.
  - right. exists 0%Q. split; [reflexivity | apply Qle_refl].
  - apply nearest_double_pos_not_negative. exact Hq.
  - exfalso. unfold Qle in Hq. simpl in Hq. rewrite En in Hq. lia.
Qed.

Lemma nearest_double_zero (q : Q) :
  Qnum q = 0 -> JS.nearest_double q = JS.of_Z 0.
Proof. intros H. unfold JS.nearest_double. rewrite H. reflexivity. Qed.

Lemma Math_max_one_below (q : Q) :
  (q < 1)%Q -> JS.Math_max (JS.of_Z 1) (JS.Fin q) = JS.of_Z 1.
Proof.
  intros H. unfold JS.Math_max, JS.of_Z.
  destruct (Qle_bool (inject_Z 1) q) eqn:E; [|reflexivity].
  apply Qle_bool_iff in E. exfalso.
  apply (Qlt_irrefl 1%Q). eapply Qle_lt_trans; [exact E | exact H].
Qed.

Lemma Math_max_one_finite (q : Q) :
  exists m, JS.Math_max (JS.of_Z 1) (JS.Fin q) = JS.Fin m /\ (1 <= m)%Q.
Proof.
  unfold JS.Math_max, JS.of_Z.
  destruct (Qle_bool (inject_Z 1) q) eqn:E.
  - exists q. split; [reflexivity|]. apply Qle_bool_iff in E. exact E.
  - exists (inject_Z 1). split; [reflexivity | apply Qle_refl].
Qed.

Lemma not_negative_geb (x : JS.number) :
  not_negative x -> JS.geb x (JS.of_Z 0) = true.
Proof.
  intros [->|(r & -> & Hr)]; [reflexivity|].
  unfold JS.geb, JS.of_Z. apply Qle_bool_iff. exact Hr.
Qed.

(** X11.  Whatever text the page and limit parameters hold, as long as
    both read as finite numbers: the effective page number and page size
    are at least 1, and the offset is a number that is not negative, a
    finite one or Infinity (the product overflows for a page such as
    1e308), never NaN.  A page that reads as a number below 1 (zero, a
    negative number, the empty text) is the first page: its offset is 0.
    A limit that reads as a number below 1 (the empty text reads as 0)
    gives the page size 1, not the default. *)
Theorem numeric_page_and_limit_are_clamped :
  forall (page limit : option string) (p l : Q),
    JS.Number (query_default page 1) = JS.Fin p ->
    JS.Number (query_default limit 10) = JS.Fin l ->
    JS.geb (TagController.pageNumber page) (JS.of_Z 1) = true
    /\ JS.geb (TagController.itemsPerPage limit) (JS.of_Z 1) = true
    /\ JS.geb (TagController.skip page limit) (JS.of_Z 0) = true
    /\ JS.isNaN (TagController.skip page limit) = false
    /\ ((p < 1)%Q -> TagController.skip page limit = JS.of_Z 0)
    /\ ((l < 1)%Q -> TagController.itemsPerPage limit = JS.of_Z 1).
Proof.
  intros page limit p l Hp Hl.
  unfold TagController.skip, TagController.pageNumber,
    TagController.itemsPerPage.
  rewrite Hp, Hl.
  destruct (Math_max_one_finite p) as (m & Hm & Hm1).
  destruct (Math_max_one_finite l) as (n & Hn & Hn1).
  assert (Hskip : not_negative
                    (JS.mul (JS.sub (JS.Math_max (JS.of_Z 1) (JS.Fin p))
                                    (JS.of_Z 1))
                            (JS.Math_max (JS.of_Z 1) (JS.Fin l)))).
  { rewrite Hm, Hn. unfold JS.sub, JS.of_Z.
    assert (Hd : (0 <= m - inject_Z 1)%Q).
    { unfold Qminus. rewrite <- (Qplus_opp_r (inject_Z 1)).
      apply Qplus_le_compat; [exact Hm1 | apply Qle_refl]. }
    destruct (nearest_double_not_negative _ Hd) as [->|(r & -> & Hr)].
    - unfold JS.mul, JS.sign_mul.
      replace (n ?= 0)%Q with Gt; [left; reflexivity|].
      symmetry. apply Qgt_alt. eapply Qlt_le_trans; [|exact Hn1].
      reflexivity.
    - unfold JS.mul. apply nearest_double_not_negative.
      apply Qmult_le_0_compat; [exact Hr|].
      eapply Qle_trans; [|exact Hn1]. discriminate. }
  split; [|split; [|split; [|split; [|split]]]].
  - rewrite Hm. apply Qle_bool_iff. exact Hm1.
  - rewrite Hn. apply Qle_bool_iff. exact Hn1.
  - apply not_negative_geb. exact Hskip.
  - destruct Hskip as [->|(r & -> & _)]; reflexivity.
  - intros Hlt. rewrite (Math_max_one_below _ Hlt), Hn.
    unfold JS.mul. apply nearest_double_zero. reflexivity.
  - intros Hlt. apply Math_max_one_below. exact Hlt.
Qed.

Lemma numeric_page_and_limit_witness :
  TagController.skip (Some "-3") (Some "2.5") = JS.of_Z 0
  /\ TagController.skip (Some EmptyString) (Some "7") = JS.of_Z 0
  /\ TagController.itemsPerPage (Some EmptyString) = JS.of_Z 1
  /\ JS.geb (TagController.itemsPerPage (Some "2.5")) (JS.of_Z 1) = true
  /\ TagController.skip (Some "1e308") (Some "10") = JS.PosInf
  /\ JS.geb (TagController.skip (Some "1e308") (Some "10")) (JS.of_Z 0)
     = true.
Proof.
  destruct (numeric_page_and_limit_are_clamped
              (Some "-3") (Some "2.5") (-3 # 1)%Q (5 # 2)%Q eq_refl eq_refl)
    as (_ & Hl & _ & _ & H0 & _).
  destruct (numeric_page_and_limit_are_clamped
              (Some EmptyString) (Some "7") 0%Q 7%Q eq_refl eq_refl)
    as (_ & _ & _ & _ & H1 & _).
  destruct (numeric_page_and_limit_are_clamped
              None (Some EmptyString) 1%Q 0%Q eq_refl eq_refl)
    as (_ & _ & _ & _ & _ & H2).
  assert (E : exists q,
             JS.Number (query_default (Some "1e308") 1) = JS.Fin q)
    by (eexists; vm_compute; reflexivity).
  destruct E as [q E].
  destruct (numeric_page_and_limit_are_clamped
              (Some "1e308") (Some "10") q 10%Q E eq_refl)
    as (_ & _ & H3 & _).
  split; [apply H0; reflexivity|].
  split; [apply H1; reflexivity|].
  split; [apply H2; reflexivity|].
  split; [exact Hl|].
  split; [vm_compute; reflexivity | exact H3].
Defined.

(** ** Integers that are doubles *)

Lemma nearest_double_integer (z : Z) :
  0 <= z <= 2 ^ 53 -> JS.nearest_double (inject_Z z) = JS.of_Z z.
Proof.
  intros [H0 H53]. destruct z as [|n|n]; [reflexivity| |lia].
  unfold JS.nearest_double, inject_Z. cbn [Qnum].
  unfold JS.nearest_double_pos. cbv zeta. cbn [Qnum Qden].
  change (Z.log2 1) with 0. rewrite Z.sub_0_r.
  set (a := Z.log2 (Z.pos n)).
  assert (Ha0 : 0 <= a) by apply Z.log2_nonneg.
  assert (Hspec : 2 ^ a <= Z.pos n < 2 ^ Z.succ a)
    by (apply Z.log2_spec; lia).
  assert (Ha53 : a <= 53).
  { unfold a. rewrite <- (Z.log2_pow2 53) by lia.
    apply Z.log2_le_mono. exact H53. }
  replace (0 <=? a) with true by (symmetry; apply Z.leb_le; exact Ha0).
  replace (2 ^ a * 1 <=? Z.pos n) with true
    by (symmetry; apply Z.leb_le; lia).
  replace (Z.max a (-1022)) with a by lia.
  destruct (0 <=? a - 52) eqn:Et.
  - apply Z.leb_le in Et.
    assert (Hv : JS.round_half_even (Z.pos n) (1 * 2 ^ (a - 52))
                 * 2 ^ (a - 52) = Z.pos n).
    { assert (Ha : a = 52 \/ a = 53) by lia. destruct Ha as [Ha|Ha];
        rewrite Ha in *.
      - change (2 ^ (52 - 52)) with 1.
        rewrite <- (Z.mul_1_r (Z.pos n)) at 1.
        rewrite round_half_even_exact by lia. lia.
      - change (2 ^ (53 - 52)) with 2.
        assert (Hn : Z.pos n = 2 ^ 53).
        { change (Z.succ 53) with 54 in Hspec. lia. }
        rewrite Hn. change (2 ^ 53) with (2 ^ 52 * (1 * 2)) at 1.
        rewrite round_half_even_exact by lia. reflexivity. }
    rewrite Hv.
    replace (2 ^ 1024 <=? Z.pos n) with false; [reflexivity|].
    symmetry. apply Z.leb_gt.
    eapply Z.le_lt_trans; [exact H53|]. reflexivity.
  - apply Z.leb_gt in Et.
    rewrite <- (Z.mul_1_r (Z.pos n * 2 ^ (- (a - 52)))).
    rewrite round_half_even_exact by lia.
    unfold JS.of_Z. apply (f_equal JS.Fin). apply Qred_inject_Z.
    unfold Qeq, inject_Z. cbn [Qnum Qden].
    rewrite Z2Pos.id by (apply Z.pow_pos_nonneg; lia). lia.
Qed.
(** ** Page and limit written in decimal *)

Lemma uint_chars (d : Decimal.uint) :
  forallb is_dec (list_ascii_of_string (NilEmpty.string_of_uint d)) = true.
Proof. induction d; simpl; try exact IHd; reflexivity. Qed.

Lemma dec_not_space (c : ascii) : is_dec c = true -> JS.is_space c = false.
Proof.
  destruct c as [[] [] [] [] [] [] [] []]; try reflexivity; discriminate.
Qed.

Lemma trim_start_dec (s : list ascii) :
  match s with c :: _ => is_dec c = true | [] => True end ->
  JS.trim_start s = s.
Proof.
  destruct s as [|c r]; [reflexivity|]. intros H. simpl.
  rewrite (dec_not_space _ H). reflexivity.
Qed.

Lemma trim_dec (s : list ascii) : forallb is_dec s = true -> JS.trim s = s.
Proof.
  intros H. unfold JS.trim.
  rewrite (trim_start_dec s).
  2:{ destruct s as [|c r]; [exact I|]. simpl in H.
      apply andb_prop in H. apply H. }
  rewrite (trim_start_dec (rev s)); [apply rev_involutive|].
  destruct (rev s) as [|c r] eqn:E; [exact I|].
  rewrite forallb_forall in H. apply H. apply in_rev. rewrite E.
  left. reflexivity.
Qed.

Lemma span_digits_uint (d : Decimal.uint) :
  forall (acc len : nat),
    JS.span_digits 10 (Z.of_nat acc) len
      (list_ascii_of_string (NilEmpty.string_of_uint d))
    = (Z.of_nat (Nat.of_uint_acc d acc), (len + Decimal.nb_digits d)%nat, []).
Proof.
  induction d; intros acc len;
    cbn [NilEmpty.string_of_uint list_ascii_of_string JS.span_digits
         Nat.of_uint_acc Decimal.nb_digits];
    [rewrite Nat.add_0_r; reflexivity | ..];
    match goal with
    | |- context [JS.digit_val 10 ?c] =>
        let v := eval vm_compute in (JS.digit_val 10 c) in
        change (JS.digit_val 10 c) with v
    end;
    cbv beta iota;
    match goal with
    | |- JS.span_digits 10 ?a _ _ = (Z.of_nat (Nat.of_uint_acc _ ?n), _, _) =>
        replace a with (Z.of_nat n)
          by (rewrite Nat.tail_mul_spec; lia)
    end;
    rewrite IHd; rewrite Nat.add_succ_r; reflexivity.
Qed.

Lemma decimal_digits (n : nat) :
  (1 <= n)%nat ->
  exists c r,
    list_ascii_of_string (decimal n) = c :: r
    /\ JS.span_digits 10 0 0%nat (c :: r) = (Z.of_nat n, S (length r), [])
    /\ forallb is_dec (c :: r) = true.
Proof.
  intros Hn. unfold decimal.
  pose proof (span_digits_uint (Nat.to_uint n) 0 0) as Hs.
  pose proof (uint_chars (Nat.to_uint n)) as Hc.
  change (Nat.of_uint_acc (Nat.to_uint n) 0)
    with (Nat.of_uint (Nat.to_uint n)) in Hs.
  rewrite DecimalNat.Unsigned.of_to in Hs.
  destruct (list_ascii_of_string (NilEmpty.string_of_uint (Nat.to_uint n)))
    as [|c r] eqn:E.
  - exfalso. cbn in Hs. injection Hs as Hz _. lia.
  - exists c, r. split; [reflexivity|]. split; [|exact Hc].
    change (Z.of_nat 0) with 0 in Hs.
    assert (Hl : forall d acc len,
               snd (fst (JS.span_digits 10 acc len d)) = (len + length d)%nat
               \/ snd (JS.span_digits 10 acc len d) <> []).
    { clear. induction d as [|c d IH]; intros acc len; simpl.
      - left. lia.
      - destruct (JS.digit_val 10 c).
        + destruct (IH (acc * 10 + z) (S len)) as [H|H]; [left|right; exact H].
          rewrite H. lia.
        + right. discriminate. }
    destruct (Hl (c :: r) 0 0%nat) as [H|H];
      rewrite Hs in H; cbn [fst snd] in H; [|contradiction].
    rewrite Hs, H. reflexivity.
Qed.

Lemma non_decimal_dec (c : ascii) (r : list ascii) :
  forallb is_dec (c :: r) = true -> JS.non_decimal (c :: r) = None.
Proof.
  intros H. cbn [forallb] in H. apply andb_prop in H as [Hc Hr].
  destruct r as [|p r].
  - destruct c as [[] [] [] [] [] [] [] []]; try discriminate; reflexivity.
  - cbn [forallb] in Hr. apply andb_prop in Hr as [Hp _].
    destruct c as [[] [] [] [] [] [] [] []]; try discriminate Hc;
      try reflexivity.
    destruct p as [[] [] [] [] [] [] [] []]; try discriminate Hp;
      reflexivity.
Qed.

Lemma unsigned_literal_dec (c : ascii) (r : list ascii) (z : Z) :
  is_dec c = true ->
  0 <= z <= 2 ^ 53 ->
  JS.span_digits 10 0 0%nat (c :: r) = (z, S (length r), []) ->
  JS.unsigned_literal (c :: r) = JS.of_Z z.
Proof.
  intros Hc Hz Hs. unfold JS.unsigned_literal, JS.unsigned_decimal.
  rewrite Hs. cbn [negb Nat.eqb JS.exponent].
  replace (JS.list_ascii_eqb (c :: r) JS.Infinity_lit) with false.
  - change (0 - Z.of_nat 0) with 0. cbn [Qpower].
    rewrite (Qred_inject_Z _ z) by apply Qmult_1_r.
    apply nearest_double_integer. exact Hz.
  - destruct c as [[] [] [] [] [] [] [] []]; try discriminate Hc;
      reflexivity.
Qed.

(** [Number] of a natural number written in decimal, when the number is a
    double. *)
Lemma Number_decimal (n : nat) :
  Z.of_nat n <= 2 ^ 53 -> JS.StringToNumber (decimal n) = JS.of_nat n.
Proof.
  intros Hn. destruct n as [|n]; [reflexivity|].
  destruct (decimal_digits (S n)) as (c & r & E & Hs & Hc); [lia|].
  unfold JS.StringToNumber. rewrite E, (trim_dec _ Hc).
  pose proof (non_decimal_dec _ _ Hc) as Hnd.
  assert (Hc1 : is_dec c = true).
  { cbn [forallb] in Hc. apply andb_prop in Hc. apply Hc. }
  assert (Hz : 0 <= Z.of_nat (S n) <= 2 ^ 53) by (split; [lia | exact Hn]).
  pose proof (unsigned_literal_dec _ _ _ Hc1 Hz Hs) as Hu.
  destruct c as [[] [] [] [] [] [] [] []]; try discriminate Hc1;
    cbv beta iota; rewrite Hnd; exact Hu.
Qed.

Lemma Math_max_one_above (z : Z) :
  1 <= z -> JS.Math_max (JS.of_Z 1) (JS.of_Z z) = JS.of_Z z.
Proof.
  intros H. unfold JS.Math_max, JS.of_Z.
  replace (Qle_bool (inject_Z 1) (inject_Z z)) with true; [reflexivity|].
  symmetry. apply Qle_bool_iff. rewrite <- Zle_Qle. exact H.
Qed.

Lemma sub_of_Z (a b : Z) :
  0 <= a - b <= 2 ^ 53 ->
  JS.sub (JS.of_Z a) (JS.of_Z b) = JS.of_Z (a - b).
Proof.
  intros H. unfold JS.sub, JS.of_Z.
  replace (inject_Z a - inject_Z b)%Q with (inject_Z (a - b)).
  - apply nearest_double_integer. exact H.
  - unfold inject_Z, Qminus, Qplus, Qopp. cbn [Qnum Qden].
    apply f_equal2; [lia | reflexivity].
Qed.

Lemma mul_of_Z (a b : Z) :
  0 <= a * b <= 2 ^ 53 ->
  JS.mul (JS.of_Z a) (JS.of_Z b) = JS.of_Z (a * b).
Proof.
  intros H. unfold JS.mul, JS.of_Z.
  replace (inject_Z a * inject_Z b)%Q with (inject_Z (a * b))
    by reflexivity.
  apply nearest_double_integer. exact H.
Qed.

Lemma window_of_page {A : Type} (p l : nat) (rows : list A) :
  (1 <= l)%nat ->
  TypeORM.window (printed l) (printed ((p - 1) * l)) rows
  = firstn l (skipn ((p - 1) * l) rows).
Proof.
  intros Hl. unfold TypeORM.window, printed.
  destruct l as [|l]; [lia|].
  destruct ((p - 1) * S l)%nat; reflexivity.
Qed.

Lemma skip_of_decimal (p l : nat) :
  (1 <= p)%nat -> (1 <= l)%nat ->
  Z.of_nat p * Z.of_nat l <= 2 ^ 53 ->
  JS.mul
    (JS.sub (JS.Math_max (JS.of_Z 1) (JS.StringToNumber (decimal p)))
            (JS.of_Z 1))
    (JS.Math_max (JS.of_Z 1) (JS.StringToNumber (decimal l)))
  = JS.of_nat ((p - 1) * l)
  /\ JS.Math_max (JS.of_Z 1) (JS.StringToNumber (decimal l)) = JS.of_nat l.
Proof.
  intros Hp Hl Hsafe.
  assert (Hp53 : Z.of_nat p <= 2 ^ 53) by nia.
  assert (Hl53 : Z.of_nat l <= 2 ^ 53) by nia.
  rewrite !Number_decimal by assumption. unfold JS.of_nat.
  rewrite !Math_max_one_above by lia.
  rewrite sub_of_Z by lia. rewrite mul_of_Z by nia.
  split; [|reflexivity].
  f_equal. rewrite Nat2Z.inj_mul, Nat2Z.inj_sub by exact Hp. reflexivity.
Qed.

(** X12.  With the page number [p] and the page size [l] written in
    decimal in the query string, both at least 1 and their product at most
    [2 ^ 53] (so that the numbers the controller computes are doubles that
    hold them exactly), the tag list and the blog list answer with the
    rows [(p - 1) * l + 1] to [p * l] of their dataset (the matching rows,
    newest first) and with the number of rows of the whole dataset. *)
Theorem page_and_limit_in_decimal_select_the_window :
  forall (db : Database) (userId : Z) (p l : nat) (search : option string),
    (1 <= p)%nat -> (1 <= l)%nat ->
    Z.of_nat p * Z.of_nat l <= 2 ^ 53 ->
    TagController.getAllTags db (Some (decimal p)) (Some (decimal l)) search
    = Resolved
        (mkPage (firstn l (skipn ((p - 1) * l) (tag_dataset db search)))
                (length (tag_dataset db search)))
    /\ BlogController.getAllBlogs db userId (Some (decimal p))
         (Some (decimal l)) search
       = Resolved
           (mkPage
              (firstn l (skipn ((p - 1) * l) (blog_dataset db userId search)))
              (length (blog_dataset db userId search))).
Proof.
  intros db userId p l search Hp Hl Hsafe.
  destruct (skip_of_decimal p l Hp Hl Hsafe) as [Hskip Htake].
  split.
  - unfold TagController.getAllTags, TagController.skip,
      TagController.pageNumber, TagController.itemsPerPage, query_default.
    cbn [JS.Number]. rewrite Hskip, Htake.
    unfold TagService.getAllTags. rewrite tag_getAll_window.
    rewrite window_of_page by exact Hl. reflexivity.
  - unfold BlogController.getAllBlogs, query_default.
    cbn [JS.Number]. rewrite Hskip, Htake.
    unfold BlogService.getAllBlogs. rewrite blog_getAll_window.
    rewrite window_of_page by exact Hl. reflexivity.
Qed.

Lemma page_and_limit_in_decimal_witness :
  decimal 2 = "2" /\ decimal 3 = "3"
  /\ TagController.getAllTags seven_tags (Some "2") (Some "3") (Some "t")
     = Resolved
         (mkPage (map (fun i => TagEntity.mk i "tag" i i) [4; 3; 2]) 7).
Proof.
  split; [reflexivity|]. split; [reflexivity|].
  destruct (page_and_limit_in_decimal_select_the_window
              seven_tags 1 2 3 (Some "t")) as [H _];
    [lia | lia | discriminate |].
  exact H.
Defined.

(** ** Reading one record *)

(** X13.  Reading a blog, a draft, a comment or a like by its id either
    gives a stored record that has this id and belongs to the caller (the
    blog and the draft as the entity loaded from that row) or raises the bad
    request that carries the not-found message; there is no other
    outcome. *)
Theorem get_by_id_gives_a_record_of_the_caller :
  forall (db : Database) (userId id : Z),
    match BlogService.getBlogById db userId id with
    | Resolved e =>
        exists b, In b (blogs db) /\ BlogEntity.id b = id
                  /\ BlogEntity.author b = Some userId
                  /\ e = BlogRepository.hydrate b
    | Rejected err =>
        err = new_BadRequestException "BlogEntity not found" None
    end
    /\ match DraftService.getDraftById db userId id with
       | Resolved e =>
           exists d, In d (drafts db) /\ DraftEntity.id d = id
                     /\ DraftEntity.createdBy d = Some userId
                     /\ e = DraftRepository.hydrate db d
       | Rejected err =>
           err = new_BadRequestException "DraftEntity not found" None
       end
    /\ match CommentService.getCommentById db userId id with
       | Resolved c =>
           In c (comments db) /\ CommentEntity.id c = id
           /\ CommentEntity.user c = Some userId
       | Rejected err =>
           err = new_BadRequestException "CommentEntity not found" None
       end
    /\ match LikeService.getLikeById db userId id with
       | Resolved l =>
           In l (likes db) /\ LikeEntity.id l = id
           /\ LikeEntity.user l = Some userId
       | Rejected err =>
           err = new_BadRequestException "LikeEntity not found" None
       end.
Proof.
  intros db userId id. split; [|split; [|split]].
  - unfold BlogService.getBlogById, BlogRepository.findById,
      BlogRepository.findRow.
    destruct (find _ (blogs db)) as [b|] eqn:E; [|reflexivity].
    apply find_some in E as [Hin Hp]. apply andb_prop in Hp as [Hid Hown].
    apply Z.eqb_eq in Hid. apply refers_to_spec in Hown.
    exists b. auto.
  - unfold DraftService.getDraftById, DraftRepository.findById,
      DraftRepository.findRow.
    destruct (find _ (drafts db)) as [d|] eqn:E; [|reflexivity].
    apply find_some in E as [Hin Hp]. apply andb_prop in Hp as [Hid Hown].
    apply Z.eqb_eq in Hid. apply refers_to_spec in Hown.
    exists d. auto.
  - unfold CommentService.getCommentById, CommentRepository.findById,
      CommentRepository.findRow.
    destruct (find _ (comments db)) as [c|] eqn:E; [|reflexivity].
    apply find_some in E as [Hin Hp]. apply andb_prop in Hp as [Hid Hown].
    apply Z.eqb_eq in Hid. apply refers_to_spec in Hown.
    cbn. auto.
  - unfold LikeService.getLikeById, LikeRepository.findById,
      LikeRepository.findRow.
    destruct (find _ (likes db)) as [l|] eqn:E; [|reflexivity].
    apply find_some in E as [Hin Hp]. apply andb_prop in Hp as [Hid Hown].
    apply Z.eqb_eq in Hid. apply refers_to_spec in Hown.
    cbn. auto.
Qed.

(** ** The default fields of the tag dropdown *)

(** X14.  Without a fields parameter (none, or the empty text) the tag
    dropdown searches the id and the name and never fails: it answers with
    tags that the keyword condition on id and name keeps, and only such,
    all of them when they are at most five and otherwise the five that
    come first in the order the storage engine reads them, which the
    query, having no ORDER BY, does not fix.  Without a keyword (none, or
    the empty text) the condition keeps every tag. *)
Theorem default_tag_dropdown_searches_id_and_name :
  forall (db : Database) (fields keyword : option string),
    JS.truthy fields = false ->
    exists l,
      Permutation l
        (filter (tag_dropdown_matches (engine db) ["id"; "name"] keyword)
                (tags db))
      /\ TagController.getTagDropdownData db fields keyword
         = Resolved (firstn 5 l)
      /\ (JS.truthy keyword = false -> Permutation l (tags db)).
Proof.
  intros db fields keyword Hf.
  unfold TagController.getTagDropdownData. rewrite Hf.
  unfold TagService.findAllDropdownData.
  cbn [return_ try_catch_throw].
  destruct (TagRepository.findAllDropdown db ["id"; "name"] keyword)
    as [rows|e] eqn:E.
  - apply tag_findAllDropdown_rows in E as [(l & Hp & ->) _].
    exists l. split; [exact Hp|]. split; [reflexivity|].
    intros Hk. rewrite Hp.
    rewrite (filter_ext _ (fun _ => true)).
    + clear. induction (tags db) as [|t l IH]; simpl; [constructor|].
      constructor. exact IH.
    + intros t. unfold tag_dropdown_matches, TagRepository.getQueryBuilder.
      rewrite Hk. reflexivity.
  - exfalso. unfold TagRepository.findAllDropdown,
      TagRepository.getQueryBuilder in E.
    destruct (JS.truthy keyword); cbn in E; discriminate.
Qed.

Lemma default_tag_dropdown_witness :
  (exists rows,
      TagController.getTagDropdownData sample_db (Some EmptyString) (Some "2")
      = Resolved rows
      /\ Permutation rows [TagEntity.mk 2 "Algorithms in Go" 20 20])
  /\ (exists rows,
         TagController.getTagDropdownData sample_db None None = Resolved rows
         /\ Permutation rows (tags sample_db)).
Proof.
  split.
  - destruct (default_tag_dropdown_searches_id_and_name
                sample_db (Some EmptyString) (Some "2") eq_refl)
      as (l & Hp & H & _).
    exists (firstn 5 l). split; [exact H|].
    rewrite firstn_all2; [exact Hp|].
    rewrite (Permutation_length Hp). simpl. lia.
  - destruct (default_tag_dropdown_searches_id_and_name
                sample_db None None eq_refl) as (l & Hp & H & Hall).
    exists (firstn 5 l). split; [exact H|].
    rewrite firstn_all2; [exact (Hall eq_refl)|].
    rewrite (Permutation_length (Hall eq_refl)). simpl. lia.
Defined.

(** ** Drafts and the blogs they refer to *)

Lemma blog_exists_stored db k :
  DraftRepository.blog_exists db (Some k)
  = match stored_blog db k with Some _ => true | None => false end.
Proof.
  unfold DraftRepository.blog_exists, stored_blog.
  destruct (find _ (blogs db)) as [b|] eqn:Hb.
  - apply existsb_exists. exists b. apply find_some in Hb. exact Hb.
  - destruct (existsb _ (blogs db)) eqn:E; [|reflexivity].
    apply existsb_exists in E as (b & Hin & Hid).
    pose proof (find_none _ _ Hb b Hin) as Hn. cbv beta in Hn. congruence.
Qed.

(** X15.  Moving a draft of the caller to another blog checks that the
    blog exists and nothing more about it.  For the id of no stored blog
    the storage layer's foreign-key failure reaches the caller as it is,
    not as a bad request, and the draft stays as it was; for the id of a
    stored blog, whoever its author is, the update succeeds and the draft
    then refers to that blog, the caller still being its creator. *)
Theorem draft_update_checks_that_the_new_blog_exists :
  forall (db : Database) (userId id k : Z) (content : option string)
         (old : DraftEntity.t),
    NoDup (map DraftEntity.id (drafts db)) ->
    DraftRepository.findRow db userId id = Some old ->
    DraftEntity.blog old <> Some k ->
    let r := DraftService.updateDraft db userId id
               (mkUpdateDraftDto (Some k) content) in
    match stored_blog db k with
    | None => r = (Rejected driver_foreign_key, db)
    | Some _ =>
        resolved (fst r)
        /\ exists new,
             stored_draft (snd r) id = Some new
             /\ DraftEntity.blog new = Some k
             /\ DraftEntity.createdBy new = Some userId
             /\ DraftEntity.content new
                = or_else content (DraftEntity.content old)
    end.
Proof.
  intros db userId id k content old Hnd Hfind Hne r. subst r.
  pose proof Hfind as Hrow. unfold DraftRepository.findRow in Hrow.
  apply find_some in Hrow as [Hin Hp]. apply andb_prop in Hp as [Hid Hown].
  apply Z.eqb_eq in Hid. apply refers_to_spec in Hown.
  pose proof (find_unique DraftEntity.id _ _ Hnd Hin) as Hst.
  destruct (draft_persist_merge db old userId
              (mkUpdateDraftDto (Some k) content) Hown)
    as (Pid & Pc & Pb & Pca & Pu).
  cbn [ud_blogId ud_content] in Pc, Pb.
  unfold DraftService.updateDraft, DraftService.getDraftById,
    DraftRepository.findById.
  rewrite Hfind.
  cbn [option_map await_in_try return_value try_catch_throw].
  unfold DraftRepository.save.
  replace (DraftEntity.Partial.id (DraftRepository.merge _ _))
    with (Some (DraftEntity.id old)) by reflexivity.
  rewrite Hst.
  set (row' := DraftRepository.persist old _) in *.
  destruct (DraftRepository.same_columns old row') eqn:Esame.
  { apply draft_same_columns in Esame as (_ & Sb & _). congruence. }
  rewrite Pb.
  replace (option_Z_eqb (DraftEntity.blog old) (Some k)) with false.
  2:{ destruct (option_Z_eqb (DraftEntity.blog old) (Some k)) eqn:E;
        [|reflexivity].
      apply option_Z_eqb_eq in E. contradiction. }
  cbn [orb]. rewrite blog_exists_stored.
  destruct (stored_blog db k) as [b|]; [|reflexivity].
  cbn [return_ try_catch_throw fst snd].
  split; [eexists; reflexivity|].
  eexists. split.
  { unfold stored_draft, DraftRepository.with_drafts. cbn [drafts].
    rewrite (find_map_update DraftEntity.id) by reflexivity.
    rewrite <- Hid, Hst. cbn [option_map]. rewrite Z.eqb_refl.
    reflexivity. }
  cbn [DraftRepository.touch DraftEntity.blog DraftEntity.createdBy
       DraftEntity.content].
  fold row'. rewrite Pb, Pu, Pc. auto.
Qed.

Lemma draft_update_new_blog_witness :
  DraftService.updateDraft sample_db 1 2 (mkUpdateDraftDto (Some 7) None)
  = (Rejected driver_foreign_key, sample_db)
  /\ exists new,
       stored_draft
         (snd (DraftService.updateDraft sample_db 1 2
                 (mkUpdateDraftDto (Some 1) None))) 2 = Some new
       /\ DraftEntity.blog new = Some 1
       /\ stored_blog sample_db 1
          = Some (BlogEntity.mk 1 "Golang" "notes of user 2" false 10 10
                    (Some 2)).
Proof.
  assert (Hnd : NoDup (map DraftEntity.id (drafts sample_db))).
  { simpl. repeat constructor; simpl; intuition discriminate. }
  split.
  - apply (draft_update_checks_that_the_new_blog_exists
             sample_db 1 2 7 None _ Hnd eq_refl). discriminate.
  - destruct (draft_update_checks_that_the_new_blog_exists
                sample_db 1 2 1 None _ Hnd eq_refl) as (_ & new & H1 & H2 & _).
    { discriminate. }
    exists new. split; [exact H1|]. split; [exact H2 | reflexivity].
Defined.




(** ** The keyword of the like list *)

Lemma filter_map_count {A B : Type} (j : A -> option B) (m : B -> bool)
  (p : A -> bool) (l : list A) :
  (forall a, p a = true -> exists b, j a = Some b /\ m b = true) ->
  (length (filter p l) <= length (filter m (TypeORM.filter_map j l)))%nat.
Proof.
  intros H. induction l as [|a l IH]; simpl; [lia|].
  destruct (p a) eqn:Ep.
  - destruct (H a Ep) as (b & -> & Hm). simpl. rewrite Hm. simpl. lia.
  - destruct (j a) as [b|]; simpl; [|exact IH].
    destruct (m b); simpl; lia.
Qed.

Lemma filter_map_count_le {A B : Type} (j : A -> option B) (m : B -> bool)
  (p : A -> bool) (l : list A) :
  (forall a b, j a = Some b -> m b = true -> p a = true) ->
  (length (filter m (TypeORM.filter_map j l)) <= length (filter p l))%nat.
Proof.
  intros H. induction l as [|a l IH]; simpl; [lia|].
  destruct (j a) as [b|] eqn:Ej.
  - simpl. destruct (m b) eqn:Em.
    + rewrite (H a b Ej Em). simpl. lia.
    + destruct (p a); simpl; lia.
  - destruct (p a); simpl; lia.
Qed.

Lemma find_blog_row db k :
  find (fun r => TypeORM.row_id r =? k) (TypeORM.rows_of db TypeORM.Blogs)
  = option_map TypeORM.RBlog (stored_blog db k).
Proof.
  unfold stored_blog. cbn [TypeORM.rows_of].
  induction (blogs db) as [|b l IH]; [reflexivity|].
  simpl. destruct (BlogEntity.id b =? k); [reflexivity | exact IH].
Qed.

(** X17.  A keyword does not narrow the like list to the caller's likes
    that match it: the keyword condition on the blog title is joined by OR
    to the ownership condition.  So the total of the like list, under any
    keyword, counts every like of the caller on a stored blog; without a
    keyword (none, or the empty text) it is exactly their number. *)
Theorem keyword_keeps_every_like_of_the_caller :
  forall (db : Database) (userId : Z) (s t : nat) (search : option string)
         (page : Page LikeEntity.t),
    LikeRepository.getAll db userId (JS.of_nat s) (JS.of_nat t) search
    = Resolved page ->
    (length (filter (own_like db userId) (likes db)) <= total page)%nat
    /\ (JS.truthy search = false ->
        total page = length (filter (own_like db userId) (likes db))).
Proof.
  intros db userId s t search page H.
  unfold LikeRepository.getAll, LikeRepository.getQueryBuilder in H.
  rewrite paged_assoc in H.
  match type of H with
  | context [paged db ?q _ _] => set (qb := q) in H
  end.
  assert (Hs : TypeORM.scope_of qb
               = Some [("like", TypeORM.Likes); ("blog", TypeORM.Blogs)])
    by (subst qb; destruct (JS.truthy search); reflexivity).
  assert (Hok : TypeORM.statement_ok qb
                  [("like", TypeORM.Likes); ("blog", TypeORM.Blogs)] = true)
    by (subst qb; destruct (JS.truthy search); reflexivity).
  rewrite (paged_resolves _ _ _ _ _ Hs Hok) in H. cbn [await fst snd] in H.
  injection H as <-. cbn [total].
  unfold TypeORM.matching.
  replace (TypeORM.ordered (engine db) qb)
    with (TypeORM.sort_by
            (fun env =>
               TypeORM.sort_key (TypeORM.value_of env "like.createdAt"))
            TypeORM.DESC)
    by (subst qb; destruct (JS.truthy search); reflexivity).
  rewrite sort_by_length. unfold TypeORM.joined_rows.
  replace (TypeORM.mainTable qb) with TypeORM.Likes
    by (subst qb; destruct (JS.truthy search); reflexivity).
  replace (TypeORM.joinAttributes qb) with [("like.blog", "blog")]
    by (subst qb; destruct (JS.truthy search); reflexivity).
  replace (TypeORM.mainAlias qb) with "like"
    by (subst qb; destruct (JS.truthy search); reflexivity).
  cbn [TypeORM.rows_of]. rewrite filter_map_map.
  assert (Hjoin : forall l,
             TypeORM.join_row db [("like.blog", "blog")]
               [("like", TypeORM.RLike l)]
             = match LikeEntity.blog l with
               | Some k =>
                   option_map
                     (fun b => [("like", TypeORM.RLike l);
                                ("blog", TypeORM.RBlog b)])
                     (stored_blog db k)
               | None => None
               end).
  { intros l. cbn [TypeORM.join_row].
    change (TypeORM.split_dot "like.blog") with ("like", Some "blog").
    cbn [TypeORM.assoc String.eqb Ascii.eqb Bool.eqb TypeORM.table_of
         TypeORM.relation].
    change (TypeORM.cell (TypeORM.RLike l) "blog.id")
      with (Some (TypeORM.ref (LikeEntity.blog l))).
    destruct (LikeEntity.blog l) as [k|]; [|reflexivity].
    cbn [TypeORM.ref]. rewrite find_blog_row.
    destruct (stored_blog db k); reflexivity. }
  assert (Hle : (length (filter (own_like db userId) (likes db))
                 <= length
                      (filter (TypeORM.matches (engine db) qb)
                         (TypeORM.filter_map
                            (fun a =>
                               TypeORM.join_row db [("like.blog", "blog")]
                                 [("like", TypeORM.RLike a)])
                            (likes db))))%nat).
  { apply filter_map_count. intros l Hl.
    unfold own_like in Hl. apply andb_prop in Hl as [Hu Hb].
    rewrite Hjoin.
    destruct (LikeEntity.blog l) as [k|] eqn:Ek; [|discriminate].
    rewrite blog_exists_stored in Hb.
    destruct (stored_blog db k) as [b|] eqn:Eb; [|discriminate].
    eexists. split; [reflexivity|].
    apply refers_to_spec in Hu. subst qb.
    destruct (JS.truthy search); cbn -[TypeORM.sql_like]; rewrite Hu;
      cbn; rewrite Z.eqb_refl; reflexivity. }
  split; [exact Hle|].
  intros Hk. apply Nat.le_antisymm; [|exact Hle].
  apply filter_map_count_le. intros l env Hj Hm.
  rewrite Hjoin in Hj. unfold own_like.
  destruct (LikeEntity.blog l) as [k|] eqn:Ek; [|discriminate].
  rewrite blog_exists_stored.
  destruct (stored_blog db k) as [b|] eqn:Eb; [|discriminate].
  injection Hj as <-. subst qb. rewrite Hk in Hm. cbn in Hm.
  apply sql_equals_ref in Hm. rewrite Hm. cbn. rewrite Z.eqb_refl.
  reflexivity.
Qed.

Lemma keyword_keeps_every_like_witness :
  exists page,
    LikeRepository.getAll sample_db 2 (JS.of_nat 0) (JS.of_nat 10)
      (Some "no such title") = Resolved page
    /\ result page = likes sample_db
    /\ (1 <= total page)%nat.
Proof.
  eexists. split; [vm_compute; reflexivity|]. split; [reflexivity|].
  exact (proj1 (keyword_keeps_every_like_of_the_caller
                  sample_db 2 0 10 (Some "no such title") _ eq_refl)).
Defined.

(** ** Likes *)



(** ** The lists of a deleted parent *)

Lemma filter_all_false {A : Type} (p : A -> bool) (l : list A) :
  (forall a, In a l -> p a = false) -> filter p l = [].
Proof.
  induction l as [|a l IH]; intros H; [reflexivity|].
  simpl. rewrite (H a (or_introl eq_refl)). apply IH.
  intros x Hx. apply H. right. exact Hx.
Qed.

Lemma ordered_nil eng qb : TypeORM.ordered eng qb [] = [].
Proof.
  unfold TypeORM.ordered. destruct (TypeORM.orderBys qb) as [|[c o] l];
    reflexivity.
Qed.

Lemma window_nil {A : Type} limit offset :
  TypeORM.window limit offset (@nil A) = [].
Proof.
  unfold TypeORM.window.
  destruct offset as [k|], limit as [n|];
    rewrite ?skipn_nil, ?firstn_nil; reflexivity.
Qed.

(** A list query none of whose joined rows passes the WHERE clause. *)
Lemma page_of_no_match {A : Type} (entity : TypeORM.Row -> option A) db qb
  skip take (page : Page A) :
  (res <- paged db qb skip take ;;
   Resolved (mkPage (TypeORM.filter_map entity (fst res)) (snd res)))
  = Resolved page ->
  (forall env, In env (TypeORM.joined_rows db qb) ->
               TypeORM.matches (engine db) qb env = false) ->
  page = mkPage [] 0.
Proof.
  intros H Hno.
  unfold paged, TypeORM.take, TypeORM.skip in H.
  destruct (JS.isNaN take); [discriminate|]. cbn [await] in H.
  destruct (JS.isNaN skip); [discriminate|]. cbn [await] in H.
  unfold TypeORM.getManyAndCount, TypeORM.getMany in H.
  destruct (TypeORM.scope_of _); [|discriminate].
  destruct (TypeORM.statement_ok _ _); [|discriminate].
  destruct (TypeORM.row_count _) as [limit|]; [|discriminate].
  destruct (TypeORM.row_count _) as [offset|]; [|discriminate].
  cbn [await fst snd] in H. injection H as <-.
  match goal with
  | |- context [TypeORM.matching db ?q] =>
      assert (E : TypeORM.matching db q = [])
  end.
  { unfold TypeORM.matching.
    rewrite filter_all_false; [apply ordered_nil|]. exact Hno. }
  rewrite E, window_nil. reflexivity.
Qed.

Lemma sql_equals_other fk k :
  fk <> Some k -> TypeORM.sql_equals (TypeORM.ref fk) (SInt k) = false.
Proof.
  intros H. destruct (TypeORM.sql_equals _ _) eqn:E; [|reflexivity].
  apply sql_equals_ref in E. contradiction.
Qed.

(** X19.  Once a blog is deleted its lists are empty for every user and
    every keyword: the drafts, the likes and the blog tags listed by the
    id of the deleted blog are none, with total 0. *)
Theorem lists_of_a_deleted_blog_are_empty :
  forall (db : Database) (userId id : Z) (old : BlogEntity.t),
    BlogRepository.findRow db userId id = Some old ->
    let db' := snd (BlogService.deleteBlog db userId id) in
    forall (u : Z) (skip take : JS.number) (search : option string),
      (forall page,
          DraftRepository.getDraftsByBlogId db' u id skip take search
          = Resolved page -> page = mkPage [] 0)
      /\ (forall page,
             LikeRepository.getLikesByBlogId db' u id skip take search
             = Resolved page -> page = mkPage [] 0)
      /\ (forall page,
             BlogTagRepository.getBlogTagsByBlogId db' id skip take search
             = Resolved page -> page = mkPage [] 0).
Proof.
  intros db userId id old Hfind db' u skip take search.
  assert (Hdb : db' = snd (BlogRepository.remove db
                             (BlogRepository.hydrate old))).
  { unfold db'. rewrite deleteBlog_database, Hfind. reflexivity. }
  assert (Hid : BlogEntity.id old = id).
  { unfold BlogRepository.findRow in Hfind.
    apply find_some in Hfind as [_ Hp]. apply andb_prop in Hp as [Hp _].
    apply Z.eqb_eq in Hp. exact Hp. }
  cbn [BlogRepository.remove BlogRepository.hydrate BlogEntity.Partial.id
       snd] in Hdb.
  rewrite Hid in Hdb. clearbody db'.
  split; [|split]; intros page H.
  - unfold DraftRepository.getDraftsByBlogId in H. rewrite paged_assoc in H.
    apply (page_of_no_match _ _ _ _ _ _ H). intros env Henv.
    apply joined_rows_main in Henv as (r & ext & Hr & ->).
    replace (TypeORM.mainTable _) with TypeORM.Drafts in Hr
      by (destruct (JS.truthy search); reflexivity).
    cbn [TypeORM.rows_of] in Hr. apply in_map_iff in Hr as (d & <- & Hd).
    rewrite Hdb in Hd. cbn [drafts] in Hd.
    apply filter_not_referring in Hd as [_ Hd].
    apply sql_equals_other in Hd.
    destruct (JS.truthy search); cbn; cbn in Hd; rewrite Hd;
      rewrite ?andb_false_r; reflexivity.
  - unfold LikeRepository.getLikesByBlogId in H. rewrite paged_assoc in H.
    apply (page_of_no_match _ _ _ _ _ _ H). intros env Henv.
    apply joined_rows_main in Henv as (r & ext & Hr & ->).
    replace (TypeORM.mainTable _) with TypeORM.Likes in Hr
      by (destruct (JS.truthy search); reflexivity).
    cbn [TypeORM.rows_of] in Hr. apply in_map_iff in Hr as (d & <- & Hd).
    rewrite Hdb in Hd. cbn [likes] in Hd.
    apply filter_not_referring in Hd as [_ Hd].
    apply sql_equals_other in Hd.
    destruct (JS.truthy search); cbn; cbn in Hd; rewrite Hd;
      rewrite ?andb_false_r; reflexivity.
  - unfold BlogTagRepository.getBlogTagsByBlogId in H.
    rewrite paged_assoc in H.
    apply (page_of_no_match _ _ _ _ _ _ H). intros env Henv.
    apply joined_rows_main in Henv as (r & ext & Hr & ->).
    replace (TypeORM.mainTable _) with TypeORM.BlogTags in Hr
      by (destruct (JS.truthy search); reflexivity).
    cbn [TypeORM.rows_of] in Hr. apply in_map_iff in Hr as (d & <- & Hd).
    rewrite Hdb in Hd. cbn [blogTags] in Hd.
    apply filter_not_referring in Hd as [_ Hd].
    apply sql_equals_other in Hd.
    destruct (JS.truthy search); cbn; cbn in Hd; rewrite Hd;
      rewrite ?andb_false_r; reflexivity.
Qed.

Lemma lists_of_a_deleted_blog_witness :
  DraftRepository.getDraftsByBlogId sample_db 2 1 (JS.of_nat 0) (JS.of_nat 10)
    None
  = Resolved
      (mkPage [DraftEntity.mk 1 "draft of user 2" 10 10 (Some 1) (Some 2)] 1)
  /\ DraftRepository.getDraftsByBlogId
       (snd (BlogService.deleteBlog sample_db 2 1)) 2 1
       (JS.of_nat 0) (JS.of_nat 10) None
     = Resolved (mkPage [] 0).
Proof.
  split; [vm_compute; reflexivity|].
  assert (Hp : exists page,
             DraftRepository.getDraftsByBlogId
               (snd (BlogService.deleteBlog sample_db 2 1)) 2 1
               (JS.of_nat 0) (JS.of_nat 10) None = Resolved page)
    by (eexists; vm_compute; reflexivity).
  destruct Hp as [page Hp]. rewrite Hp. f_equal.
  exact (proj1 (lists_of_a_deleted_blog_are_empty sample_db 2 1 _ eq_refl
                  2 (JS.of_nat 0) (JS.of_nat 10) None) page Hp).
Defined.

(** ** Tags *)

(** The stored tag with a given id. *)
Lemma getTagById_stored db id :
  TagService.getTagById db id
  = match find (fun t => TagEntity.id t =? id) (tags db) with
    | Some t => Resolved t
    | None => Rejected (new_BadRequestException "TagEntity not found" None)
    end.
Proof.
  unfold TagService.getTagById, TagRepository.findById.
  destruct (find _ (tags db)); reflexivity.
Qed.

(** X20.  Creating a tag always succeeds, whether or not a tag of that
    name is stored already: the tag is appended under an id no stored tag
    has, it is then read back by that id with the name that was given, and
    the tags that were stored before are read as before. *)
Theorem created_tag_is_stored_whatever_its_name :
  forall (db : Database) (dto : CreateTagDto),
    let r := TagService.createTag db dto in
    exists i,
      fst r = Resolved (TagEntity.Partial.mk (Some i) (Some (ct_name dto)))
      /\ ~ In i (map TagEntity.id (tags db))
      /\ tags (snd r)
         = (tags db
            ++ [TagEntity.mk i (ct_name dto) (clock db) (clock db)])%list
      /\ TagService.getTagById (snd r) i
         = Resolved (TagEntity.mk i (ct_name dto) (clock db) (clock db))
      /\ (forall j, j <> i ->
            TagService.getTagById (snd r) j = TagService.getTagById db j).
Proof.
  intros db dto r. subst r.
  exists (next_id (map TagEntity.id (tags db))).
  split; [reflexivity|]. split; [apply next_id_fresh|].
  split; [reflexivity|].
  change (snd (TagService.createTag db dto))
    with (Repository_TagEntity.with_tags db
            (tags db
             ++ [TagEntity.mk (next_id (map TagEntity.id (tags db)))
                   (ct_name dto) (clock db) (clock db)])%list).
  split.
  - rewrite getTagById_stored.
    cbn [tags Repository_TagEntity.with_tags].
    rewrite find_app_fresh.
    + cbn [TagEntity.id]. rewrite Z.eqb_refl. reflexivity.
    + intros a Ha. apply fresh_id_differs. exact Ha.
  - intros j Hj. rewrite !getTagById_stored.
    cbn [tags Repository_TagEntity.with_tags].
    rewrite find_app_old; [reflexivity|].
    cbn [TagEntity.id]. apply Z.eqb_neq. congruence.
Qed.

Lemma created_tag_witness :
  let r := TagService.createTag sample_db (mkCreateTagDto "Go") in
  tags (snd r)
  = (tags sample_db ++ [TagEntity.mk 4 "Go" 100 100])%list
  /\ TagService.getTagById (snd r) 3 = Resolved (TagEntity.mk 3 "Go" 30 30)
  /\ TagService.getTagById (snd r) 4 = Resolved (TagEntity.mk 4 "Go" 100 100).
Proof.
  intros r. split; [reflexivity|].
  destruct (created_tag_is_stored_whatever_its_name sample_db
              (mkCreateTagDto "Go"))
    as (i & _ & Hfresh & _ & _ & Hframe).
  split; [|reflexivity].
  unfold r. rewrite Hframe; [reflexivity|].
  intros <-. apply Hfresh. simpl. right. right. left. reflexivity.
Defined.

Lemma deleteTag_database db id :
  TagService.deleteTag db id
  = match find (fun t => TagEntity.id t =? id) (tags db) with
    | Some old =>
        (Resolved tt,
         snd (Repository_TagEntity.remove db
                (Repository_TagEntity.hydrate old)))
    | None =>
        (Rejected (new_BadRequestException "TagEntity not found" None), db)
    end.
Proof.
  unfold TagService.deleteTag. rewrite getTagById_stored.
  destruct (find _ (tags db)); reflexivity.
Qed.

(** X21.  Deleting a tag raises the bad request carrying the not-found
    message when no tag has the id, and nothing is deleted.  Otherwise the
    tag is gone, the tags with another id are read as before, of the blog
    tags exactly those of the tag are gone with it, the blogs stay, and
    the list of blog tags by the id of the deleted tag is empty with total
    0 for every keyword. *)
Theorem deleted_tag_is_gone_with_its_blog_tags :
  forall (db : Database) (id : Z),
    let r := TagService.deleteTag db id in
    match find (fun t => TagEntity.id t =? id) (tags db) with
    | None =>
        r = (Rejected (new_BadRequestException "TagEntity not found" None),
             db)
    | Some _ =>
        fst r = Resolved tt
        /\ TagService.getTagById (snd r) id
           = Rejected (new_BadRequestException "TagEntity not found" None)
        /\ (forall j, j <> id ->
              TagService.getTagById (snd r) j = TagService.getTagById db j)
        /\ (forall bt, In bt (blogTags (snd r))
                       <-> In bt (blogTags db)
                           /\ BlogTagEntity.tag bt <> Some id)
        /\ blogs (snd r) = blogs db
        /\ (forall skip take search page,
              BlogTagRepository.getBlogTagsByTagId (snd r) id skip take search
              = Resolved page -> page = mkPage [] 0)
    end.
Proof.
  intros db id r. subst r. rewrite deleteTag_database.
  destruct (find (fun t => TagEntity.id t =? id) (tags db)) as [old|] eqn:Hf;
    [|reflexivity].
  apply find_some in Hf as [_ Hid]. apply Z.eqb_eq in Hid.
  cbn [Repository_TagEntity.remove Repository_TagEntity.hydrate
       TagEntity.Partial.id fst snd].
  rewrite Hid.
  split; [reflexivity|]. split; [|split; [|split; [|split]]].
  - rewrite getTagById_stored. cbn [tags].
    rewrite find_all_false; [reflexivity|].
    intros a Ha. apply filter_In in Ha as [_ Ha].
    destruct (TagEntity.id a =? id); [discriminate | reflexivity].
  - intros j Hj. rewrite !getTagById_stored. cbn [tags].
    rewrite (find_filter_other TagEntity.id) by exact Hj. reflexivity.
  - intros bt. cbn [blogTags].
    apply (filter_not_referring BlogTagEntity.tag).
  - reflexivity.
  - intros skip take search page H.
    unfold BlogTagRepository.getBlogTagsByTagId in H.
    rewrite paged_assoc in H.
    apply (page_of_no_match _ _ _ _ _ _ H). intros env Henv.
    apply joined_rows_main in Henv as (r & ext & Hr & ->).
    replace (TypeORM.mainTable _) with TypeORM.BlogTags in Hr
      by (destruct (JS.truthy search); reflexivity).
    cbn [TypeORM.rows_of blogTags] in Hr.
    apply in_map_iff in Hr as (d & <- & Hd).
    apply filter_not_referring in Hd as [_ Hd].
    apply sql_equals_other in Hd.
    destruct (JS.truthy search); cbn; cbn in Hd; rewrite Hd;
      rewrite ?andb_false_r; reflexivity.
Qed.

Lemma deleted_tag_witness :
  let r := TagService.deleteTag sample_db 3 in
  fst r = Resolved tt
  /\ blogTags (snd r) = [BlogTagEntity.mk 1 10 10 (Some 1) (Some 1)]
  /\ TagService.getTagById (snd r) 1
     = Resolved (TagEntity.mk 1 "Golang Basics" 10 10)
  /\ TagService.deleteTag sample_db 9
     = (Rejected (new_BadRequestException "TagEntity not found" None),
        sample_db).
Proof.
  intros r.
  pose proof (deleted_tag_is_gone_with_its_blog_tags sample_db 3) as H.
  pose proof (deleted_tag_is_gone_with_its_blog_tags sample_db 9) as H'.
  cbv zeta in H, H'.
  change (find (fun t => TagEntity.id t =? 3) (tags sample_db))
    with (Some (TagEntity.mk 3 "Go" 30 30)) in H.
  change (find (fun t => TagEntity.id t =? 9) (tags sample_db))
    with (@None TagEntity.t) in H'.
  cbv beta iota in H, H'.
  destruct H as (H1 & _ & H3 & _).
  split; [exact H1|]. split; [reflexivity|].
  split; [|exact H'].
  unfold r. rewrite H3; [reflexivity | discriminate].
Defined.

(** X22.  Updating a tag raises the bad request carrying the not-found
    message when no tag has the id, and nothing changes.  Otherwise the
    call succeeds and the stored tag keeps its id and creation time and
    has the given name, or its prior name when none is given; an update
    that gives no name, or the name the tag has, changes nothing at all,
    the update time included; the tags with another id and the blog tags
    are untouched. *)
Theorem tag_update_keeps_what_is_not_provided :
  forall (db : Database) (id : Z) (dto : UpdateTagDto),
    let r := TagService.updateTag db id dto in
    match find (fun t => TagEntity.id t =? id) (tags db) with
    | None =>
        r = (Rejected (new_BadRequestException "TagEntity not found" None),
             db)
    | Some old =>
        fst r
        = Resolved
            (TagEntity.Partial.mk (Some id)
               (Some (or_else (ut_name dto) (TagEntity.name old))))
        /\ (exists new,
               TagService.getTagById (snd r) id = Resolved new
               /\ TagEntity.id new = id
               /\ TagEntity.name new
                  = or_else (ut_name dto) (TagEntity.name old)
               /\ TagEntity.createdAt new = TagEntity.createdAt old)
        /\ (or_else (ut_name dto) (TagEntity.name old) = TagEntity.name old ->
            snd r = db)
        /\ (forall j, j <> id ->
              TagService.getTagById (snd r) j = TagService.getTagById db j)
        /\ blogTags (snd r) = blogTags db
    end.
Proof.
  intros db id dto r. subst r.
  unfold TagService.updateTag. rewrite getTagById_stored.
  destruct (find (fun t => TagEntity.id t =? id) (tags db)) as [old|] eqn:Hf;
    [|reflexivity].
  pose proof Hf as Hold. apply find_some in Hold as [Hin Hid].
  apply Z.eqb_eq in Hid.
  assert (Hm : Repository_TagEntity.merge (Repository_TagEntity.hydrate old)
                 (TagEntity.Partial.mk None (ut_name dto))
               = TagEntity.Partial.mk (Some id)
                   (Some (or_else (ut_name dto) (TagEntity.name old))))
    by (rewrite <- Hid; destruct (ut_name dto); reflexivity).
  rewrite Hm. unfold Repository_TagEntity.save.
  cbn [TagEntity.Partial.id]. rewrite Hf.
  unfold Repository_TagEntity.same_columns.
  cbn [Repository_TagEntity.persist TagEntity.name TagEntity.Partial.name
       or_else].
  destruct (TagEntity.name old
            =? or_else (ut_name dto) (TagEntity.name old))%string
    eqn:Esame; cbn [return_ try_catch_throw fst snd].
  - apply String.eqb_eq in Esame.
    split; [reflexivity|]. split; [|split; [|split]].
    + exists old. rewrite getTagById_stored, Hf. auto.
    + reflexivity.
    + reflexivity.
    + reflexivity.
  - split; [reflexivity|]. split; [|split; [|split]].
    + eexists. rewrite getTagById_stored.
      cbn [tags Repository_TagEntity.with_tags].
      rewrite (find_map_update TagEntity.id) by reflexivity.
      rewrite Hf. cbn [option_map]. rewrite Z.eqb_refl.
      split; [reflexivity|].
      cbn [Repository_TagEntity.touch Repository_TagEntity.persist
           TagEntity.id TagEntity.name TagEntity.createdAt
           TagEntity.Partial.name or_else].
      auto.
    + intros E. rewrite E, String.eqb_refl in Esame. discriminate.
    + intros j Hj. rewrite !getTagById_stored.
      cbn [tags Repository_TagEntity.with_tags].
      rewrite (find_map_update_other TagEntity.id); [reflexivity| |];
        [reflexivity | congruence].
    + reflexivity.
Qed.

Lemma tag_update_witness :
  let r := TagService.updateTag sample_db 3 (mkUpdateTagDto (Some "Rust")) in
  TagService.getTagById (snd r) 3 = Resolved (TagEntity.mk 3 "Rust" 30 100)
  /\ TagService.getTagById (snd r) 1
     = Resolved (TagEntity.mk 1 "Golang Basics" 10 10)
  /\ snd (TagService.updateTag sample_db 3 (mkUpdateTagDto None)) = sample_db.
Proof.
  intros r.
  pose proof (tag_update_keeps_what_is_not_provided sample_db 3
                (mkUpdateTagDto (Some "Rust"))) as H.
  pose proof (tag_update_keeps_what_is_not_provided sample_db 3
                (mkUpdateTagDto None)) as H'.
  cbv zeta in H, H'.
  change (find (fun t => TagEntity.id t =? 3) (tags sample_db))
    with (Some (TagEntity.mk 3 "Go" 30 30)) in H, H'.
  cbv beta iota in H, H'.
  destruct H as (_ & _ & _ & Hframe & _).
  destruct H' as (_ & _ & Hsame & _).
  split; [reflexivity|]. split; [|apply Hsame; reflexivity].
  unfold r. rewrite Hframe; [reflexivity | discriminate].
Defined.
